(** * chatsearch: the SQL-safety pipeline of the chat gateway

    A shallow embedding of [services/bigquery.js], [services/gemini.js]
    (current and earlier revision) and the schema cache of [routes/chat.js],
    with the properties the specification states about them.

    Conventions of the embedding.
    - A JavaScript string is a [string]: a sequence of code units.  The
      builtins [toUpperCase] and [trim] are given on the ASCII range, where
      they coincide with ECMAScript's; code units above 127 are left alone.
    - An [async] function is a computation in the monad [M]: it reads and
      updates the module-level variables and the outside world, and either
      returns a value or throws an [Error].  [await] is sequencing.
    - A function handed in by a caller, such as the executor given to
      [processMessage], is a computation in [MAny]: what it throws may be
      any value, not only an [Error].
    - An object literal used as a map is a finite map of its own
      properties; [assign] is the assignment [object[key] = value].
    - The SDK clients (Gemini, BigQuery) and the clock are collaborators of
      unknown behaviour: a record of functions over an abstract world.
    - [console.log/warn/error] have no effect on the results and are left out. *)

From Stdlib Require Import ZArith Lia Bool Ascii String List.
From stdpp Require Import base option list strings gmap.

Local Open Scope Z_scope.

(** ** ECMAScript string builtins *)

Module JS.

  (** [String.prototype.startsWith(p)] on receiver [s]. *)
Fixpoint startsWith (p s : string) : bool :=
  match p, s with
  | EmptyString, _ => true
  | String _ _, EmptyString => false
  | String a p', String b s' => if Ascii.eqb a b then startsWith p' s' else false
  end.

  (** [String.prototype.includes(sub)] on receiver [s]. *)
Fixpoint includes (sub s : string) : bool :=
  startsWith sub s ||
  match s with
  | EmptyString => false
  | String _ s' => includes sub s'
  end.

  (** Code units 97..122 are mapped to 65..90. *)
Definition upper_char (c : ascii) : ascii :=
  let n := nat_of_ascii c in
  if (Nat.leb 97 n && Nat.leb n 122)%bool then ascii_of_nat (n - 32) else c.

Fixpoint toUpperCase (s : string) : string :=
  match s with
  | EmptyString => EmptyString
  | String c s' => String (upper_char c) (toUpperCase s')
  end.

  (** WhiteSpace and LineTerminator below 128: TAB, LF, VT, FF, CR, SP. *)
Definition is_space (c : ascii) : bool :=
  let n := nat_of_ascii c in
  (Nat.leb 9 n && Nat.leb n 13)%bool || Nat.eqb n 32.

Fixpoint trimStart (s : string) : string :=
  match s with
  | EmptyString => EmptyString
  | String c s' => if is_space c then trimStart s' else s
  end.

Fixpoint trimEnd (s : string) : string :=
  match s with
  | EmptyString => EmptyString
  | String c s' =>
      match trimEnd s' with
      | EmptyString => if is_space c then EmptyString else String c EmptyString
      | r => String c r
      end
  end.

Definition trim (s : string) : string := trimEnd (trimStart s).

  (** Drop [n] code units. *)
Fixpoint skip (n : nat) (s : string) : string :=
  match n, s with
  | O, _ => s
  | S _, EmptyString => EmptyString
  | S n', String _ s' => skip n' s'
  end.

  (** [s.replace(/pat/g, '')] for a literal, non-empty pattern: scan from the
      left, delete each match and resume after it.  [fuel] bounds the scan and
      is the length of the receiver. *)
Fixpoint remove_all_fuel (fuel : nat) (pat s : string) : string :=
  match fuel with
  | O => s
  | S fuel' =>
      match s with
      | EmptyString => EmptyString
      | String c s' =>
          if startsWith pat s
          then remove_all_fuel fuel' pat (skip (String.length pat) s)
          else String c (remove_all_fuel fuel' pat s')
      end
  end.

Definition remove_all (pat s : string) : string :=
  remove_all_fuel (String.length s) pat s.

  (** [s.replace(/pat\n?/g, '')]: as [remove_all], and a line feed that
      follows a match goes with it. *)
Definition skip_lf (s : string) : string :=
  match s with
  | String c s' => if Nat.eqb (nat_of_ascii c) 10 then s' else s
  | EmptyString => EmptyString
  end.

Fixpoint remove_all_lf_fuel (fuel : nat) (pat s : string) : string :=
  match fuel with
  | O => s
  | S fuel' =>
      match s with
      | EmptyString => EmptyString
      | String c s' =>
          if startsWith pat s
          then remove_all_lf_fuel fuel' pat (skip_lf (skip (String.length pat) s))
          else String c (remove_all_lf_fuel fuel' pat s')
      end
  end.

Definition remove_all_lf (pat s : string) : string :=
  remove_all_lf_fuel (String.length s) pat s.

  (** [s.replace(pat, '')] for a string pattern: the first match only. *)
Fixpoint remove_first (pat s : string) : string :=
  if startsWith pat s then skip (String.length pat) s
  else match s with
       | EmptyString => EmptyString
       | String c s' => String c (remove_first pat s')
       end.

  (** Truthiness of a string: the empty string is falsy. *)
Definition truthy (s : string) : bool :=
  match s with EmptyString => false | _ => true end.

  (** [a || b] on strings. *)
Definition or_else (a b : string) : string := if truthy a then a else b.

  (** [Array.prototype.join(sep)]. *)
Fixpoint join (sep : string) (l : list string) : string :=
  match l with
  | [] => EmptyString
  | [x] => x
  | x :: rest => x +:+ sep +:+ join sep rest
  end.

End JS.

(** ** services/bigquery.js: the validator *)

Definition forbiddenCommands : list string :=
  ["DROP"; "DELETE"; "UPDATE"; "INSERT"; "ALTER"; "CREATE"; "TRUNCATE";
   "GRANT"; "REVOKE"].

(** The [for (const cmd of forbiddenCommands)] loop with its early
    [return false]: [true] when the loop runs to its end. *)
Fixpoint no_forbidden (cmds : list string) (upperSQL : string) : bool :=
  match cmds with
  | [] => true
  | cmd :: rest =>
      if JS.includes cmd upperSQL then false else no_forbidden rest upperSQL
  end.

Definition validateQuery (sql : string) : bool :=
  let upperSQL := JS.toUpperCase sql in
  if no_forbidden forbiddenCommands upperSQL then
    if negb (JS.startsWith "SELECT" (JS.trim upperSQL)) then false else true
  else false.

(** ** Values crossing the module boundaries *)

(** An [Error] object.  Every [throw] of the repository throws
    [new Error(msg)], the engine throws [TypeError]s and the SDKs reject with
    [Error] objects: what these throw is known by its message. *)
Record Error : Type := mkError { message : string }.

Inductive Outcome (A : Type) : Type :=
| Throws (e : Error)
| Returns (a : A).
Arguments Throws {A} e.
Arguments Returns {A} a.

(** What a function handed in by a caller may throw: any value.  A [catch]
    block of the repository reads at most the [message] of what it caught,
    which tells four kinds of values apart: an object with a [message] (taken
    to be a string, as that of an [Error]), [null], [undefined], and a value
    with no such property (a string, a number, an object without one). *)
Inductive Thrown : Type :=
| thrown_error (e : Error)
| thrown_null
| thrown_undefined
| thrown_plain.

(** How the call of such a function ends. *)
Inductive Settled (A : Type) : Type :=
| Rejects (v : Thrown)
| Fulfils (a : A).
Arguments Rejects {A} v.
Arguments Fulfils {A} a.

(** What [JSON.parse] produces. *)
#[local] Set Warnings "-register-all".
Inductive Json : Type :=
| JNull
| JBool (b : bool)
| JNumber (n : Z)
| JString (s : string)
| JArray (items : list Json)
| JObject (members : list (string * Json)).

(** A result row of the warehouse: column name to value. *)
Definition Row : Type := list (string * Json).

(** A property of an object literal: left out, [null], [undefined] (which
    [JSON.stringify] leaves out in its turn), or a value. *)
Inductive JsProp (A : Type) : Type :=
| Absent
| Null
| Undefined
| Val (a : A).
Arguments Absent {A}.
Arguments Null {A}.
Arguments Undefined {A}.
Arguments Val {A} a.

Definition is_value {A} (p : JsProp A) : bool :=
  match p with Val _ => true | _ => false end.

(** [process.env]: the variables the services read. *)
Record Env : Type := mkEnv {
  GEMINI_API_KEY : option string;
  GEMINI_MODEL : option string;
  GCP_PROJECT_ID : option string;
  BIGQUERY_DATASET : option string;
  BIGQUERY_LOCATION : option string
}.

(** Table metadata as the warehouse reports it, and as [getTableSchema]
    returns it. *)
Record RawField : Type := mkRawField {
  raw_name : string;
  raw_type : string;
  raw_mode : option string;
  raw_description : option string
}.

Record Field : Type := mkField {
  name : string;
  type : string;
  mode : option string;
  description : string
}.

Record TableSchema : Type := mkTableSchema {
  tableName : string;
  fields : list Field
}.

(** The object [getDatasetSchema] returns.  [tables] is a JS object used as a
    map from table name to schema: the map holds its own properties, which
    are what [Object.keys], [Object.entries] and [JSON.stringify] see.  The
    order in which the keys are enumerated only shows in prompt texts. *)
Record DatasetSchema : Type := mkDatasetSchema {
  dataset : option string;
  project : option string;
  tables : gmap string TableSchema
}.

(** [object[key] = value] on an object created by a literal.  The key
    [__proto__] names the accessor of the prototype, inherited from
    [Object.prototype]: the assignment replaces the prototype (or does
    nothing, for a value that is not an object) and adds no property. *)
Definition assign {A} (key : string) (value : A) (object : gmap string A)
  : gmap string A :=
  if String.eqb key "__proto__" then object else <[key := value]> object.

(** [for (const [key, value] of Object.entries(source)) out[key] = f(value)],
    starting from [out = {}]. *)
Definition assign_entries {A B} (f : A -> B) (source : gmap string A)
  : gmap string B :=
  map_fold (fun key value out => assign key (f value) out) ∅ source.

(** The object [compactSchema] builds for the prompt: per table, the
    (name, type) pairs of its first fields.  The earlier revision has a
    [project] key and no [tables_available]. *)
Record CompactSchema : Type := mkCompactSchema {
  c_dataset : option string;
  c_project : option (option string);
  c_tables_available : option (list string);
  c_tables : gmap string (list (string * string))
}.

(** Argument of [genAI.getGenerativeModel]. *)
Record ModelParams : Type := mkModelParams {
  model : string;
  systemInstruction : option string;
  responseMimeType : option string
}.

(** The response of [model.generateContent]: its [text()] returns the reply
    or throws (a blocked or empty candidate). *)
Record GenResponse : Type := mkGenResponse { text : Outcome string }.

(** An entry of [genAI.listModels()]. *)
Record ModelInfo : Type := mkModelInfo {
  model_name : string;
  supportedGenerationMethods : list string
}.

(** The outcome object of [processMessage]. *)
Inductive OutcomeType : Type := general | data_type | error_type.

Record ChatOutcome : Type := mkChatOutcome {
  success : bool;
  out_message : string;
  out_sql : JsProp string;
  out_data : JsProp (list Row);
  out_type : JsProp OutcomeType;
  out_error : JsProp string
}.

(** Calls that leave the process, in the order they are issued. *)
Inductive Event : Type :=
| EvGenerate (params : ModelParams) (prompt : string)
| EvListModels
| EvQuery (query location : string)
| EvGetTables
| EvGetMetadata (table : string).

Definition is_warehouse (e : Event) : bool :=
  match e with
  | EvQuery _ _ | EvGetTables | EvGetMetadata _ => true
  | _ => false
  end.

Definition is_getTables (e : Event) : bool :=
  match e with EvGetTables => true | _ => false end.

(** ** Collaborators and module state *)

(** The SDK clients, the clock and the JSON builtins, over a world [W] the
    embedding knows nothing about.  Each call may change the world and may
    throw. *)
Record SDK (W : Type) : Type := mkSDK {
  (** [process.env] *)
  env : Env;
  (** [Date.now()] *)
  Date_now : W -> Z * W;
  (** [genAI.getGenerativeModel(params).generateContent(prompt)] *)
  generateContent : ModelParams -> string -> W -> Outcome GenResponse * W;
  (** [genAI.listModels], when the client has such a method *)
  listModels : option (W -> Outcome (list ModelInfo) * W);
  (** [bigquery.query({query, location})], first component of the reply *)
  query : string -> string -> W -> Outcome (list Row) * W;
  (** [bigquery.dataset(id).getTables()], the ids of the tables *)
  getTables : option string -> W -> Outcome (list string) * W;
  (** [bigquery.dataset(id).table(name).getMetadata()], [schema.fields] *)
  getMetadata : option string -> string -> W -> Outcome (list RawField) * W;
  (** [JSON.parse] *)
  JSON_parse : string -> Outcome Json;
  (** [JSON.stringify(rows)] and [JSON.stringify(rows, null, 2)] *)
  stringify_rows : bool -> list Row -> string;
  (** [JSON.stringify(smallSchema, null, 2)] *)
  stringify_schema : CompactSchema -> string
}.
Arguments env {W} _.
Arguments Date_now {W} _ _.
Arguments generateContent {W} _ _ _ _.
Arguments listModels {W} _.
Arguments query {W} _ _ _ _.
Arguments getTables {W} _ _ _.
Arguments getMetadata {W} _ _ _ _.
Arguments JSON_parse {W} _ _.
Arguments stringify_rows {W} _ _ _.
Arguments stringify_schema {W} _ _.

(** The module-level variables of the three modules, the world, and the
    calls issued so far. *)
Record State (W : Type) : Type := mkState {
  world : W;
  (** services/bigquery.js *)
  bigquery : bool;                      (* the client is not null *)
  credentialsConfigured : bool;
  (** services/gemini.js *)
  _cachedModelName : option string;
  _cacheTimestamp : option Z;
  (** routes/chat.js *)
  cachedSchema : option DatasetSchema;
  schemaLastUpdated : option Z;
  trace : list Event
}.
Arguments mkState {W}.
Arguments world {W} _.
Arguments bigquery {W} _.
Arguments credentialsConfigured {W} _.
Arguments _cachedModelName {W} _.
Arguments _cacheTimestamp {W} _.
Arguments cachedSchema {W} _.
Arguments schemaLastUpdated {W} _.
Arguments trace {W} _.

(** ** The monad of [async] functions *)

Definition M (W A : Type) : Type := State W -> Outcome A * State W.

Definition ret {W A} (a : A) : M W A := fun s => (Returns a, s).

Definition throw {W A} (e : Error) : M W A := fun s => (Throws e, s).

Definition bind {W A B} (m : M W A) (k : A -> M W B) : M W B :=
  fun s =>
    match m s with
    | (Returns a, s') => k a s'
    | (Throws e, s') => (Throws e, s')
    end.

(** [try { m } catch (error) { h error }] *)
Definition try_catch {W A} (m : M W A) (h : Error -> M W A) : M W A :=
  fun s =>
    match m s with
    | (Returns a, s') => (Returns a, s')
    | (Throws e, s') => h e s'
    end.

Declare Scope js_scope.
Delimit Scope js_scope with js.
Notation "x <- m ;; k" := (bind m (fun x => k))
  (at level 100, m at next level, right associativity) : js_scope.
Notation "m ;;; k" := (bind m (fun _ => k))
  (at level 100, right associativity) : js_scope.
Local Open Scope js_scope.

Definition get {W} : M W (State W) := fun s => (Returns s, s).

(** The same, around a function of the caller: what is thrown may be any
    value. *)
Definition MAny (W A : Type) : Type := State W -> Settled A * State W.

Definition fulfil {W A} (a : A) : MAny W A := fun s => (Fulfils a, s).

Definition bind_any {W A B} (m : MAny W A) (k : A -> MAny W B) : MAny W B :=
  fun s =>
    match m s with
    | (Fulfils a, s') => k a s'
    | (Rejects v, s') => (Rejects v, s')
    end.

(** A function of the repository called where any value may be thrown: what
    it throws is an [Error]. *)
Definition own {W A} (m : M W A) : MAny W A :=
  fun s =>
    match m s with
    | (Returns a, s') => (Fulfils a, s')
    | (Throws e, s') => (Rejects (thrown_error e), s')
    end.

(** A function of the repository handed over as a callback. *)
Definition callback {W A B} (f : A -> M W B) : A -> MAny W B :=
  fun a => own (f a).

(** [try { m } catch (error) { h error }], around a block that may throw any
    value. *)
Definition catch_any {W A} (m : MAny W A) (h : Thrown -> M W A) : M W A :=
  fun s =>
    match m s with
    | (Fulfils a, s') => (Returns a, s')
    | (Rejects v, s') => h v s'
    end.

Notation "x <~ m ;; k" := (bind_any m (fun x => k))
  (at level 100, m at next level, right associativity) : js_scope.

Definition record_event {W} (e : Event) : M W unit :=
  fun s =>
    (Returns tt,
     mkState (world s) (bigquery s) (credentialsConfigured s)
       (_cachedModelName s) (_cacheTimestamp s)
       (cachedSchema s) (schemaLastUpdated s) (trace s ++ [e])).

(** Run a collaborator on the world. *)
Definition external {W A} (f : W -> Outcome A * W) : M W A :=
  fun s =>
    let (r, w) := f (world s) in
    (r,
     mkState w (bigquery s) (credentialsConfigured s)
       (_cachedModelName s) (_cacheTimestamp s)
       (cachedSchema s) (schemaLastUpdated s) (trace s)).

Definition set_cachedModelName {W} (n : string) : M W unit :=
  fun s =>
    (Returns tt,
     mkState (world s) (bigquery s) (credentialsConfigured s)
       (Some n) (_cacheTimestamp s)
       (cachedSchema s) (schemaLastUpdated s) (trace s)).

Definition set_cacheTimestamp {W} (t : Z) : M W unit :=
  fun s =>
    (Returns tt,
     mkState (world s) (bigquery s) (credentialsConfigured s)
       (_cachedModelName s) (Some t)
       (cachedSchema s) (schemaLastUpdated s) (trace s)).

Definition set_cachedSchema {W} (d : option DatasetSchema) : M W unit :=
  fun s =>
    (Returns tt,
     mkState (world s) (bigquery s) (credentialsConfigured s)
       (_cachedModelName s) (_cacheTimestamp s)
       d (schemaLastUpdated s) (trace s)).

Definition set_schemaLastUpdated {W} (t : option Z) : M W unit :=
  fun s =>
    (Returns tt,
     mkState (world s) (bigquery s) (credentialsConfigured s)
       (_cachedModelName s) (_cacheTimestamp s)
       (cachedSchema s) t (trace s)).

(** A [TypeError] of the engine: a property read on [null], and on
    [undefined]. *)
Definition TypeError (what : string) : Error :=
  mkError ("Cannot read properties of null (reading '" +:+ what +:+ "')").

Definition TypeError_undefined (what : string) : Error :=
  mkError ("Cannot read properties of undefined (reading '" +:+ what +:+ "')").

(** [error.message], on what a [catch] block caught. *)
Definition error_message (error : Thrown) : Outcome (JsProp string) :=
  match error with
  | thrown_error e => Returns (Val (message e))
  | thrown_null => Throws (TypeError "message")
  | thrown_undefined => Throws (TypeError_undefined "message")
  | thrown_plain => Returns Undefined
  end.

(** [process.env.X || fallback] *)
Definition env_or (x : option string) (fallback : string) : string :=
  match x with
  | Some v => JS.or_else v fallback
  | None => fallback
  end.

(** Truthiness of a timestamp slot: [null] and [0] are falsy. *)
Definition truthy_time (t : option Z) : bool :=
  match t with
  | Some v => negb (v =? 0)
  | None => false
  end.

Definition dq : string := String (ascii_of_nat 34) EmptyString.

(** ** services/bigquery.js *)

Section BigQueryService.
  Context {W : Type} (sdk : SDK W).

Definition executeQuery (sql : string) : M W (list Row) :=
  try_catch
    (s <- get ;;
     if negb (bigquery s) || negb (credentialsConfigured s) then
       throw (mkError "BigQuery não está configurado. Verifique se as credenciais foram definidas nas variáveis de ambiente.")
     else if negb (validateQuery sql) then
       throw (mkError "Query SQL não permitida. Apenas comandos SELECT são aceitos.")
     else
       let location := env_or (BIGQUERY_LOCATION (env sdk)) "southamerica-east1" in
       record_event (EvQuery sql location) ;;;
       rows <- external (query sdk sql location) ;;
       ret rows)
    (fun error =>
       if JS.includes "Not found: Table" (message error) then
         throw (mkError "Tabela não encontrada no BigQuery. Verifique o nome da tabela.")
       else if JS.includes "Syntax error" (message error) then
         throw (mkError "Erro de sintaxe na query SQL. Por favor, reformule sua pergunta.")
       else if JS.includes "Permission denied" (message error)
               || JS.includes "Access Denied" (message error) then
         throw (mkError "Sem permissão para acessar os dados. Verifique as credenciais e permissões da service account.")
       else
         throw (mkError ("Erro ao consultar dados: " +:+ message error))).

Definition convert_field (field : RawField) : Field :=
  mkField (raw_name field) (raw_type field) (raw_mode field)
    (env_or (raw_description field) EmptyString).

Definition getTableSchema (tableName : string) : M W TableSchema :=
  try_catch
    (s <- get ;;
     if bigquery s then
       record_event (EvGetMetadata tableName) ;;;
       metadata <- external (getMetadata sdk (BIGQUERY_DATASET (env sdk)) tableName) ;;
       ret (mkTableSchema tableName (map convert_field metadata))
     else throw (TypeError "dataset"))
    (fun _ =>
       throw (mkError ("Não foi possível obter informações da tabela " +:+ tableName))).

Definition listTables : M W (list string) :=
  try_catch
    (s <- get ;;
     if bigquery s then
       record_event EvGetTables ;;;
       tables <- external (getTables sdk (BIGQUERY_DATASET (env sdk))) ;;
       ret tables
     else throw (TypeError "dataset"))
    (fun _ => throw (mkError "Não foi possível listar as tabelas do dataset")).

(** The loop of [getDatasetSchema]: a table whose schema cannot be fetched
    is skipped, and [schemas[tableName] = ...] is an assignment on the object
    literal [schemas]. *)
Fixpoint collect_schemas (tableNames : list string)
    (schemas : gmap string TableSchema) : M W (gmap string TableSchema) :=
  match tableNames with
  | [] => ret schemas
  | tableName :: rest =>
      schemas' <- try_catch
                    (t <- getTableSchema tableName ;;
                     ret (assign tableName t schemas))
                    (fun _ => ret schemas) ;;
      collect_schemas rest schemas'
  end.

Definition getDatasetSchema : M W DatasetSchema :=
  try_catch
    (tableNames <- listTables ;;
     schemas <- collect_schemas tableNames ∅ ;;
     ret (mkDatasetSchema (BIGQUERY_DATASET (env sdk)) (GCP_PROJECT_ID (env sdk)) schemas))
    (fun _ => throw (mkError "Não foi possível obter o schema do dataset")).

End BigQueryService.

(** ** routes/chat.js: the schema cache *)

Section ChatRoute.
  Context {W : Type} (sdk : SDK W).

Definition SCHEMA_CACHE_DURATION : Z := 3600000.

(** The refresh of [getSchema]: fetch, store and stamp with [now]; when
    the fetch fails, an old cache is served if there is one. *)
Definition refresh_schema (now : Z) : M W DatasetSchema :=
  try_catch
    (d <- getDatasetSchema sdk ;;
     set_cachedSchema (Some d) ;;;
     set_schemaLastUpdated (Some now) ;;;
     ret d)
    (fun error =>
       s' <- get ;;
       match cachedSchema s' with
       | Some old => ret old
       | None => throw error
       end).

Definition getSchema : M W DatasetSchema :=
  now <- external (fun w => let (t, w') := Date_now sdk w in (Returns t, w')) ;;
  s <- get ;;
  match cachedSchema s with
  | Some cached =>
      if truthy_time (schemaLastUpdated s)
         && (now - default 0 (schemaLastUpdated s) <? SCHEMA_CACHE_DURATION)
      then ret cached
      else refresh_schema now
  | None => refresh_schema now
  end.

(** [POST /clear-cache] *)
Definition clear_cache : M W unit :=
  set_cachedSchema None ;;; set_schemaLastUpdated None.

End ChatRoute.

(** ** services/gemini.js, current revision *)

Section GeminiService.
  Context {W : Type} (sdk : SDK W).

Definition CACHE_DURATION : Z := 5 * 60 * 1000.

Definition now : M W Z :=
  external (fun w => let (t, w') := Date_now sdk w in (Returns t, w')).

(** [genAI.getGenerativeModel(params).generateContent(prompt)] followed by
    [await result.response]. *)
Definition generate (params : ModelParams) (prompt : string) : M W GenResponse :=
  record_event (EvGenerate params prompt) ;;;
  external (generateContent sdk params prompt).

(** [response.text()] *)
Definition response_text (response : GenResponse) : M W string :=
  match text response with
  | Returns t => ret t
  | Throws e => throw e
  end.

Definition candidates : list string :=
  List.filter JS.truthy
    [ env_or (GEMINI_MODEL (env sdk)) EmptyString;
      "gemini-2.5-flash-lite";
      "models/gemini-2.5-flash-lite";
      "gemini-1.5-pro";
      "gemini-1.5-flash";
      "gemini-pro";
      "gemini-1";
      "gemini-1.0";
      "models/gemini-1.0";
      "text-bison@001";
      "text-bison-001";
      "chat-bison@001";
      "chat-bison" ].

(** The [for (const candidate of candidates)] loop: the first candidate whose
    probe succeeds is cached and returned; [None] when the loop ends. *)
Fixpoint probe_candidates (cs : list string) : M W (option string) :=
  match cs with
  | [] => ret None
  | candidate :: rest =>
      try_catch
        (generate (mkModelParams candidate None None) "Ok" ;;;
         set_cachedModelName candidate ;;;
         t <- now ;;
         set_cacheTimestamp t ;;;
         ret (Some candidate))
        (fun _ => probe_candidates rest)
  end.

Definition is_gemini_fallback (m : ModelInfo) : bool :=
  JS.includes "gemini" (model_name m)
  && existsb (String.eqb "generateContent") (supportedGenerationMethods m).

(** The last resort of [getModelName]: ask the client for its models. *)
Definition list_fallback : M W (option string) :=
  try_catch
    (match listModels sdk with
     | Some call =>
         record_event EvListModels ;;;
         modelsList <- external call ;;
         match List.find is_gemini_fallback modelsList with
         | Some fallback =>
             let n := JS.remove_first "models/" (model_name fallback) in
             set_cachedModelName n ;;;
             t <- now ;;
             set_cacheTimestamp t ;;;
             ret (Some n)
         | None => ret None
         end
     | None => ret None
     end)
    (fun _ => ret None).

(** [_cachedModelName && _cacheTimestamp && (Date.now() - _cacheTimestamp <
    CACHE_DURATION)]: the clock is read only when both slots are truthy. *)
Definition model_cache_valid : M W bool :=
  s <- get ;;
  match _cachedModelName s with
  | Some n =>
      if JS.truthy n && truthy_time (_cacheTimestamp s) then
        t <- now ;;
        ret (t - default 0 (_cacheTimestamp s) <? CACHE_DURATION)
      else ret false
  | None => ret false
  end.

Definition getModelName : M W string :=
  valid <- model_cache_valid ;;
  s <- get ;;
  if valid then ret (default EmptyString (_cachedModelName s))
  else
    found <- probe_candidates candidates ;;
    match found with
    | Some n => ret n
    | None =>
        listed <- list_fallback ;;
        match listed with
        | Some n => ret n
        | None =>
            throw (mkError "Nenhum modelo Gemini compatível encontrado. Verifique sua API Key.")
        end
    end.

(** [compactSchema]: the first 20 fields of each table, as (name, type).
    Its [catch] cannot be reached on a schema of this type. *)
Definition compactSchema (inputSchema : DatasetSchema) : CompactSchema :=
  mkCompactSchema
    (Some (env_or (dataset inputSchema) EmptyString))
    None
    (Some (map fst (map_to_list (tables inputSchema))))
    (assign_entries
       (fun t => map (fun f => (name f, type f)) (take 20 (fields t)))
       (tables inputSchema)).

Definition sql_systemInstruction (smallSchema : CompactSchema) : string :=
  "Você é um especialista em BigQuery SQL.

Você tem acesso a estas tabelas no dataset dados_formacao:
" +:+ JS.join ", " (map fst (map_to_list (c_tables smallSchema))) +:+ "

Aqui estão as colunas disponíveis:
" +:+ stringify_schema sdk smallSchema +:+ "

INSTRUÇÕES IMPORTANTES:
1. Responda APENAS com SQL puro. Sem explicações, sem Markdown, sem backticks.
2. Use `dashboard-educacao-ep-pr.dados_formacao.nome_tabela` nos FROM.
3. Sempre adicione LIMIT 100 ao final.
4. Se não conseguir gerar SQL válido, responda: ERRO: [razão breve]

Exemplos de queries válidas:
- SELECT COUNT(" +:+ "*" +:+ ") AS total FROM `dashboard-educacao-ep-pr.dados_formacao.tb_educacao_especial`
- SELECT * FROM `dashboard-educacao-ep-pr.dados_formacao.tb_painel_final_rapido` LIMIT 100
".

(** The reply with its markdown fences removed. *)
Definition strip_fences (reply : string) : string :=
  JS.trim (JS.remove_all "```" (JS.remove_all "```sql" (JS.trim reply))).

(** [error && error.message ? error.message : fallback] *)
Definition message_or (error : Error) (fallback : string) : string :=
  JS.or_else (message error) fallback.

(** The same test on what may be any value: [null] and [undefined] are
    falsy, and so is the [message] of a value that has none. *)
Definition caught_message_or (error : Thrown) (fallback : string) : string :=
  match error with
  | thrown_error e => message_or e fallback
  | thrown_null | thrown_undefined | thrown_plain => fallback
  end.

(** The [try] block of [generateSQLQuery]. *)
Definition generateSQLQuery_try (userQuestion : string) (schema : DatasetSchema)
  : M W string :=
  modelName <- getModelName ;;
  let smallSchema := compactSchema schema in
  let systemInstruction := sql_systemInstruction smallSchema in
  response <- generate (mkModelParams modelName (Some systemInstruction) None)
                userQuestion ;;
  reply <- response_text response ;;
  let sqlQuery := strip_fences reply in
  if negb (JS.truthy sqlQuery) || JS.startsWith "ERRO" sqlQuery then
    throw (mkError ("IA não conseguiu gerar query válida: "
                    +:+ JS.or_else sqlQuery "resposta vazia"))
  else ret sqlQuery.

Definition generateSQLQuery (userQuestion : string) (schema : DatasetSchema)
  : M W string :=
  try_catch (generateSQLQuery_try userQuestion schema)
    (fun error =>
       throw (mkError ("Erro ao gerar query: " +:+ message_or error "desconhecido"))).

Definition format_systemInstruction : string :=
  "Você é o assistente do sistema " +:+ dq +:+ "Estágio Probatório" +:+ dq +:+ ".
        Seja amigável, direto e use emojis.
        Analise os DADOS fornecidos e responda à PERGUNTA do usuário.".

(** The [try] block of [formatResponse]. *)
Definition formatResponse_try (userQuestion : string) (queryResults : list Row)
  : M W string :=
  modelName <- getModelName ;;
  let prompt := "PERGUNTA: " +:+ userQuestion +:+ "

DADOS: " +:+ stringify_rows sdk true queryResults in
  response <- generate
                (mkModelParams modelName (Some format_systemInstruction) None)
                prompt ;;
  reply <- response_text response ;;
  ret (JS.trim reply).

Definition formatResponse (userQuestion : string) (queryResults : list Row)
  : M W string :=
  try_catch (formatResponse_try userQuestion queryResults)
    (fun _ =>
       ret ("Aqui estão os dados encontrados: " +:+ stringify_rows sdk false queryResults)).

Definition general_systemInstruction : string :=
  "Você é um assistente amigável do sistema educacional 'Estágio Probatório'. O sistema tem jogos (Space Invaders, Tetris) e métricas. Se perguntarem de dados específicos, peça para serem mais detalhados.".

Definition processGeneralQuestion (userQuestion : string) : M W string :=
  try_catch
    (modelName <- getModelName ;;
     response <- generate
                   (mkModelParams modelName (Some general_systemInstruction) None)
                   userQuestion ;;
     reply <- response_text response ;;
     ret (JS.trim reply))
    (fun _ => ret "Desculpe, estou tendo dificuldades para responder agora.").

(** Property lookup on a parsed object. *)
Fixpoint get_member (key : string) (members : list (string * Json)) : option Json :=
  match members with
  | [] => None
  | (k, v) :: rest => if String.eqb k key then Some v else get_member key rest
  end.

(** [json.requires_db === true]: reading a property of [null] throws; any
    other value without the property, or with another value, gives [false]. *)
Definition requires_db_is_true (json : Json) : M W bool :=
  match json with
  | JNull => throw (TypeError "requires_db")
  | JObject members =>
      match get_member "requires_db" members with
      | Some (JBool true) => ret true
      | _ => ret false
      end
  | _ => ret false
  end.

Definition classifier_prompt (userQuestion : string) : string :=
  "Analise a pergunta: " +:+ dq +:+ userQuestion +:+ dq +:+ "
        Ela requer consulta SQL a um banco de dados de usuários/notas/jogos?
        Responda APENAS com este JSON: { " +:+ dq +:+ "requires_db" +:+ dq +:+ ": boolean }".

(** The [try] block of [requiresDatabaseQuery]. *)
Definition classify (userQuestion : string) : M W bool :=
  modelName <- getModelName ;;
  response <- generate (mkModelParams modelName None (Some "application/json"))
                (classifier_prompt userQuestion) ;;
  reply <- response_text response ;;
  match JSON_parse sdk reply with
  | Returns json => requires_db_is_true json
  | Throws e => throw e
  end.

(** The fallback of the [catch] block: [userQuestion.length > 10]. *)
Definition length_heuristic (userQuestion : string) : bool :=
  Nat.ltb 10 (String.length userQuestion).

Definition requiresDatabaseQuery (userQuestion : string) : M W bool :=
  try_catch (classify userQuestion)
    (fun _ => ret (length_heuristic userQuestion)).

(** The [try] block of [processMessage], with the generator it calls by name
    as an argument.  [executeQueryFunc] is a function of the caller: what it
    throws may be any value, and so may what the block throws. *)
Definition processMessage_try
    (generateSQL : string -> DatasetSchema -> M W string)
    (userQuestion : string) (schema : DatasetSchema)
    (executeQueryFunc : string -> MAny W (list Row)) : MAny W ChatOutcome :=
  needsDatabase <~ own (requiresDatabaseQuery userQuestion) ;;
  if negb needsDatabase then
    response <~ own (processGeneralQuestion userQuestion) ;;
    fulfil (mkChatOutcome true response Null Null (Val general) Absent)
  else
    sqlQuery <~ own (generateSQL userQuestion schema) ;;
    if JS.startsWith "ERRO" sqlQuery then
      fulfil (mkChatOutcome false sqlQuery Absent Absent (Val error_type) Absent)
    else
      queryResults <~ executeQueryFunc sqlQuery ;;
      formattedResponse <~ own (formatResponse userQuestion queryResults) ;;
      fulfil (mkChatOutcome true formattedResponse (Val sqlQuery)
                (Val queryResults) (Val data_type) Absent).

(** The [catch] block of [processMessage]: the object it returns has
    [error.message] as its [error], read without a test of what was
    caught. *)
Definition failure_outcome (error : Thrown) : M W ChatOutcome :=
  match error_message error with
  | Returns detail =>
      ret (mkChatOutcome false "Erro interno ao processar IA." Absent Absent
             Absent detail)
  | Throws e => throw e
  end.

Definition processMessageWith
    (generateSQL : string -> DatasetSchema -> M W string)
    (userQuestion : string) (schema : DatasetSchema)
    (executeQueryFunc : string -> MAny W (list Row)) : M W ChatOutcome :=
  catch_any
    (processMessage_try generateSQL userQuestion schema executeQueryFunc)
    failure_outcome.

Definition processMessage :
    string -> DatasetSchema -> (string -> MAny W (list Row)) -> M W ChatOutcome :=
  processMessageWith generateSQLQuery.

End GeminiService.

(** ** services/gemini.js, earlier revision

    The revision with a fixed model name, a lexical SIM/NÃO classifier and
    no fallbacks in the formatter and the conversational path. *)

Module Legacy.
Section GeminiService.
  Context {W : Type} (sdk : SDK W).

Definition gemini_pro : ModelParams := mkModelParams "gemini-pro" None None.

(** [compactSchema]: the first 8 fields of each table, as (name, type). *)
Definition compactSchema (inputSchema : DatasetSchema) : CompactSchema :=
  mkCompactSchema
    (dataset inputSchema)
    (Some (project inputSchema))
    None
    (assign_entries
       (fun t => map (fun f => (name f, type f)) (take 8 (fields t)))
       (tables inputSchema)).

Definition sql_prompt (smallSchema : CompactSchema) (userQuestion : string) : string :=
  "Você é um assistente especializado em gerar queries SQL para BigQuery.

SCHEMA DO BANCO DE DADOS (resumido):
" +:+ stringify_schema sdk smallSchema +:+ "

REGRAS IMPORTANTES:
1. Gere APENAS a query SQL, sem explicações ou texto adicional
2. Use apenas comandos SELECT (nunca DROP, DELETE, UPDATE, INSERT, ALTER, CREATE)
3. Use a sintaxe padrão do BigQuery
4. Se a pergunta não puder ser respondida com os dados disponíveis, retorne: " +:+ dq +:+ "ERRO: Não é possível responder com os dados disponíveis" +:+ dq +:+ "
5. Sempre use nomes de tabelas totalmente qualificados: `projeto.dataset.tabela`
6. Limite os resultados a no máximo 100 linhas com LIMIT 100

PERGUNTA DO USUÁRIO:
" +:+ userQuestion +:+ "

QUERY SQL:".

(** The reply with its markdown fences removed. *)
Definition strip_fences (reply : string) : string :=
  JS.trim (JS.remove_all_lf "```" (JS.remove_all_lf "```sql" (JS.trim reply))).

Definition generateSQLQuery (userQuestion : string) (schema : DatasetSchema)
  : M W string :=
  try_catch
    (if negb (JS.truthy (env_or (GEMINI_API_KEY (env sdk)) EmptyString)) then
       throw (mkError "GEMINI_API_KEY não está configurada. Configure no painel do Render.")
     else
       let smallSchema := compactSchema schema in
       response <- generate sdk gemini_pro (sql_prompt smallSchema userQuestion) ;;
       reply <- response_text response ;;
       ret (strip_fences reply))
    (fun _ => throw (mkError "Erro ao processar sua pergunta com IA")).

Definition format_prompt (userQuestion : string) (queryResults : list Row) : string :=
  "Você é um assistente amigável do sistema Estágio Probatório Play.

PERGUNTA DO USUÁRIO:
" +:+ userQuestion +:+ "

DADOS RETORNADOS DO BANCO:
" +:+ stringify_rows sdk true queryResults +:+ "

INSTRUÇÕES:
1. Responda à pergunta do usuário de forma clara e amigável
2. Use os dados fornecidos para criar uma resposta informativa
3. Se houver números, apresente-os de forma legível (ex: " +:+ dq +:+ "127 professores" +:+ dq +:+ " em vez de " +:+ dq +:+ "127" +:+ dq +:+ ")
4. Se houver múltiplos resultados, organize-os de forma clara (use listas ou parágrafos)
5. Seja conciso mas completo
6. Use emojis quando apropriado para tornar a resposta mais amigável
7. Se não houver dados, informe isso de forma educada

RESPOSTA:".

(** The [try] block of [formatResponse]. *)
Definition formatResponse_try (userQuestion : string) (queryResults : list Row)
  : M W string :=
  response <- generate sdk gemini_pro (format_prompt userQuestion queryResults) ;;
  reply <- response_text response ;;
  ret (JS.trim reply).

Definition formatResponse (userQuestion : string) (queryResults : list Row)
  : M W string :=
  try_catch (formatResponse_try userQuestion queryResults)
    (fun _ => throw (mkError "Erro ao formatar resposta")).

Definition general_prompt (userQuestion : string) : string :=
  "Você é um assistente amigável do sistema Estágio Probatório Play, uma plataforma educacional com jogos formativos.

O sistema inclui:
- Jogos educativos (Space Invaders Formativo, Tetris Formativo, Game Car Formativo, Clóvis)
- Dashboard de dados e métricas
- Sistema de chat com IA (você!)

Responda à pergunta do usuário de forma amigável e útil. Se a pergunta for sobre dados ou métricas, sugira que o usuário faça uma pergunta específica sobre os dados.

PERGUNTA DO USUÁRIO:
" +:+ userQuestion +:+ "

RESPOSTA:".

Definition processGeneralQuestion (userQuestion : string) : M W string :=
  try_catch
    (response <- generate sdk gemini_pro (general_prompt userQuestion) ;;
     reply <- response_text response ;;
     ret (JS.trim reply))
    (fun _ => throw (mkError "Erro ao processar sua pergunta")).

Definition classifier_prompt (userQuestion : string) : string :=
  "Analise se a pergunta abaixo requer consulta a um banco de dados ou pode ser respondida como uma conversa geral.

Responda APENAS com " +:+ dq +:+ "SIM" +:+ dq +:+ " ou " +:+ dq +:+ "NÃO" +:+ dq +:+ ".

Exemplos de perguntas que requerem banco de dados (SIM):
- " +:+ dq +:+ "Quantos professores completaram o estágio?" +:+ dq +:+ "
- " +:+ dq +:+ "Qual a média de notas?" +:+ dq +:+ "
- " +:+ dq +:+ "Mostre os dados de 2024" +:+ dq +:+ "
- " +:+ dq +:+ "Liste os professores aprovados" +:+ dq +:+ "

Exemplos de perguntas gerais (NÃO):
- " +:+ dq +:+ "Olá, como você está?" +:+ dq +:+ "
- " +:+ dq +:+ "O que você pode fazer?" +:+ dq +:+ "
- " +:+ dq +:+ "Como funciona o sistema?" +:+ dq +:+ "
- " +:+ dq +:+ "Obrigado!" +:+ dq +:+ "

PERGUNTA:
" +:+ userQuestion +:+ "

RESPOSTA (SIM ou NÃO):".

(** The [try] block of [requiresDatabaseQuery]. *)
Definition classify (userQuestion : string) : M W bool :=
  response <- generate sdk gemini_pro (classifier_prompt userQuestion) ;;
  reply <- response_text response ;;
  let answer := JS.toUpperCase (JS.trim reply) in
  ret (JS.includes "SIM" answer).

Definition requiresDatabaseQuery (userQuestion : string) : M W bool :=
  try_catch (classify userQuestion) (fun _ => ret true).

(** The [try] block of [processMessage]. *)
Definition processMessage_try (userQuestion : string) (schema : DatasetSchema)
    (executeQueryFunc : string -> MAny W (list Row)) : MAny W ChatOutcome :=
  needsDatabase <~ own (requiresDatabaseQuery userQuestion) ;;
  if negb needsDatabase then
    response <~ own (processGeneralQuestion userQuestion) ;;
    fulfil (mkChatOutcome true response Null Null (Val general) Absent)
  else
    sqlQuery <~ own (generateSQLQuery userQuestion schema) ;;
    if JS.includes "ERRO:" sqlQuery then
      fulfil (mkChatOutcome false sqlQuery Null Null (Val error_type) Absent)
    else
      queryResults <~ executeQueryFunc sqlQuery ;;
      formattedResponse <~ own (formatResponse userQuestion queryResults) ;;
      fulfil (mkChatOutcome true formattedResponse (Val sqlQuery)
                (Val queryResults) (Val data_type) Absent).

(** Its [catch] block tests what it caught before it reads the message. *)
Definition processMessage (userQuestion : string) (schema : DatasetSchema)
    (executeQueryFunc : string -> MAny W (list Row)) : M W ChatOutcome :=
  catch_any (processMessage_try userQuestion schema executeQueryFunc)
    (fun error =>
       ret (mkChatOutcome false "Erro ao processar sua pergunta com IA" Absent
              Absent Absent
              (Val (caught_message_or error "Erro desconhecido")))).

End GeminiService.
End Legacy.

(** ** services/bigquery.js: the connection test *)

(** A template literal prints an unset variable as [undefined]. *)
Definition env_text (x : option string) : string :=
  match x with
  | Some v => v
  | None => "undefined"
  end.

Section ConnectionTest.
  Context {W : Type} (sdk : SDK W).

  (** [dataset_exists] is [bigquery.dataset(id).exists()], first component of
      the reply; the check is not among the recorded calls. *)
  Variable dataset_exists : option string -> W -> Outcome bool * W.

Definition testConnection : M W bool :=
  try_catch
    (s <- get ;;
     if negb (bigquery s) || negb (credentialsConfigured s) then
       throw (mkError "BigQuery não está configurado. Verifique se GOOGLE_CREDENTIALS está definido nas variáveis de ambiente do Render.")
     else
       exists_ <- external (dataset_exists (BIGQUERY_DATASET (env sdk))) ;;
       if negb exists_ then
         throw (mkError ("Dataset " +:+ env_text (BIGQUERY_DATASET (env sdk))
                         +:+ " não encontrado"))
       else ret true)
    (fun error => throw error).

End ConnectionTest.

(** ** services/gemini.js: suggested questions *)

(** Truthiness of a parsed value. *)
Definition json_truthy (j : Json) : bool :=
  match j with
  | JNull => false
  | JBool b => b
  | JNumber n => negb (n =? 0)
  | JString t => JS.truthy t
  | JArray _ => true
  | JObject _ => true
  end.

(** [Object.values(value)[0]]: the first member of an object, the first code
    unit of a string, nothing for a number or a boolean.  The members of a
    parsed object are listed in the order in which the engine enumerates
    them. *)
Definition first_value (j : Json) : option Json :=
  match j with
  | JObject ((_, v) :: _) => Some v
  | JArray (v :: _) => Some v
  | JString (String c _) => Some (JString (String c EmptyString))
  | _ => None
  end.

Section Suggestions.
  Context {W : Type} (sdk : SDK W).

  (** [JSON.stringify] of the list of [{table, columns}] objects. *)
  Variable stringify_simplified : list (string * list string) -> string.

Definition simplifiedSchema (schema : DatasetSchema)
  : list (string * list string) :=
  map (fun entry : string * TableSchema =>
         (entry.1, take 5 (map name (fields entry.2))))
      (map_to_list (tables schema)).

Definition suggestions_prompt (schema : DatasetSchema) : string :=
  "Com base neste schema: " +:+ stringify_simplified (simplifiedSchema schema) +:+ "
        Gere 4 perguntas curtas e analíticas que um gestor faria.
        Retorne APENAS um array de strings JSON. 
        Exemplo: [" +:+ dq +:+ "Pergunta 1" +:+ dq +:+ ", " +:+ dq
  +:+ "Pergunta 2" +:+ dq +:+ "]".

(** What the function returns once the reply is parsed: the array itself, or
    its [questions], or its first value, or an empty array. *)
Definition unwrap_suggestions (jsonResponse : Json) : M W Json :=
  match jsonResponse with
  | JArray _ => ret jsonResponse
  | JNull => throw (TypeError "questions")
  | JObject members =>
      match get_member "questions" members with
      | Some questions =>
          if json_truthy questions then ret questions
          else ret (match first_value jsonResponse with
                    | Some v => if json_truthy v then v else JArray []
                    | None => JArray []
                    end)
      | None =>
          ret (match first_value jsonResponse with
               | Some v => if json_truthy v then v else JArray []
               | None => JArray []
               end)
      end
  | _ =>
      ret (match first_value jsonResponse with
           | Some v => if json_truthy v then v else JArray []
           | None => JArray []
           end)
  end.

(** The [try] block of [generateSuggestions]. *)
Definition generateSuggestions_try (schema : DatasetSchema) : M W Json :=
  modelName <- getModelName sdk ;;
  response <- generate sdk
                (mkModelParams modelName None (Some "application/json"))
                (suggestions_prompt schema) ;;
  reply <- response_text response ;;
  match JSON_parse sdk reply with
  | Returns jsonResponse => unwrap_suggestions jsonResponse
  | Throws e => throw e
  end.

Definition default_suggestions : Json :=
  JArray [JString "Quantos usuários ativos?";
          JString "Qual a média de notas?";
          JString "Quem jogou hoje?"].

Definition generateSuggestions (schema : DatasetSchema) : M W Json :=
  try_catch (generateSuggestions_try schema)
    (fun _ => ret default_suggestions).

End Suggestions.

(** ** routes/chat.js: the handlers *)

(** What a handler sends: the status and the object given to [res.json]. *)
Inductive Body : Type :=
| OutcomeBody (result : ChatOutcome)
| ErrorBody (error : string) (detail : option string)
| SuggestionsBody (suggestions : Json).

Record Response : Type := mkResponse { status : Z; body : Body }.

Section Handlers.
  Context {W : Type} (sdk : SDK W).
  Variable stringify_simplified : list (string * list string) -> string.

(** [!message || typeof message !== 'string' || message.trim().length === 0],
    on the [message] property of the request body ([None] when it has no
    such property): the text when the test fails. *)
Definition message_text (message_ : option Json) : option string :=
  match message_ with
  | Some (JString m) =>
      if JS.truthy m && negb (Nat.eqb (String.length (JS.trim m)) 0)
      then Some m else None
  | _ => None
  end.

(** [POST /message], on the [message] property of the request body. *)
Definition post_message (message_ : option Json) : M W Response :=
  try_catch
    (match message_text message_ with
     | None =>
         ret (mkResponse 400 (ErrorBody "Mensagem inválida ou vazia" None))
     | Some m =>
         if Nat.ltb 500 (String.length m) then
           ret (mkResponse 400
                  (ErrorBody "Mensagem muito longa. Máximo 500 caracteres." None))
         else
           schema <- getSchema sdk ;;
           result <- processMessage sdk m schema (callback (executeQuery sdk)) ;;
           ret (mkResponse 200 (OutcomeBody result))
     end)
    (fun error =>
       ret (mkResponse 500
              (ErrorBody "Erro ao processar sua mensagem. Tente novamente."
                 (Some (message error))))).

Definition route_default_suggestions : Json :=
  JArray [JString "Quantos registros existem no total?";
          JString "Mostre os dados mais recentes";
          JString "Qual é a distribuição por categoria?";
          JString "Quais são os principais indicadores?"].

(** [GET /suggestions] *)
Definition get_suggestions : M W Response :=
  try_catch
    (schema <- getSchema sdk ;;
     suggestions <- generateSuggestions sdk stringify_simplified schema ;;
     ret (mkResponse 200 (SuggestionsBody suggestions)))
    (fun _ => ret (mkResponse 200 (SuggestionsBody route_default_suggestions))).

End Handlers.

(** ** services/gemini.js, earlier revision: suggested questions *)

Module LegacySuggestions.
Section Suggestions.
  Context {W : Type} (sdk : SDK W).

  (** [JSON.stringify(smallSchema, null, 2)] of the object with the dataset
      and, per table, the names of its first 6 fields. *)
  Variable stringify_names :
    option string -> gmap string (list string) -> string.

Definition compactSchemaForSuggestions (inputSchema : DatasetSchema)
  : gmap string (list string) :=
  assign_entries (fun t => map name (take 6 (fields t))) (tables inputSchema).

Definition suggestions_prompt (schema : DatasetSchema) : string :=
  "Com base no seguinte schema de banco de dados (resumido), gere 4 sugestões de perguntas inteligentes que um usuário poderia fazer. As sugestões devem ser práticas, úteis e variadas.

SCHEMA (resumido):
" +:+ stringify_names (dataset schema) (compactSchemaForSuggestions schema) +:+ "

Retorne as sugestões como um array JSON simples com strings, nada mais. Exemplo: ["
  +:+ dq +:+ "Pergunta 1" +:+ dq +:+ ", " +:+ dq +:+ "Pergunta 2" +:+ dq
  +:+ ", " +:+ dq +:+ "Pergunta 3" +:+ dq +:+ ", " +:+ dq +:+ "Pergunta 4"
  +:+ dq +:+ "]

SUGESTÕES:".

(** The reply with its markdown fences removed. *)
Definition strip_json_fences (reply : string) : string :=
  JS.trim (JS.remove_all_lf "```" (JS.remove_all_lf "```json" (JS.trim reply))).

(** The inner [try]: the parsed array, or the text as the only suggestion. *)
Definition parse_suggestions (suggestionsText : string) : Json :=
  match JSON_parse sdk suggestionsText with
  | Returns (JArray items) => JArray items
  | Returns _ => JArray [JString suggestionsText]
  | Throws _ => JArray [JString suggestionsText]
  end.

Definition generateSuggestions (schema : DatasetSchema) : M W Json :=
  try_catch
    (response <- generate sdk Legacy.gemini_pro (suggestions_prompt schema) ;;
     reply <- response_text response ;;
     ret (parse_suggestions (strip_json_fences reply)))
    (fun error => throw error).

End Suggestions.
End LegacySuggestions.

(** * Scenarios

    Concrete collaborators on which the functions can be run: a Gemini
    client scripted by the kind of prompt it receives, a warehouse with fixed
    tables and rows, a clock that is the world itself. *)

Definition reply (t : string) : Outcome GenResponse :=
  Returns (mkGenResponse (Returns t)).

Definition unavailable : Outcome GenResponse :=
  Throws (mkError "503 Service Unavailable").

Definition demo_env : Env :=
  mkEnv (Some "key") None (Some "dashboard-educacao-ep-pr")
    (Some "dados_formacao") None.

(** A parser for the replies the scenarios use; anything else is a
    [SyntaxError]. *)
Definition demo_parse (t : string) : Outcome Json :=
  if String.eqb t ("{ " +:+ dq +:+ "requires_db" +:+ dq +:+ ": true }") then
    Returns (JObject [("requires_db", JBool true)])
  else if String.eqb t ("{ " +:+ dq +:+ "requires_db" +:+ dq +:+ ": false }") then
    Returns (JObject [("requires_db", JBool false)])
  else if String.eqb t "{}" then Returns (JObject [])
  else if String.eqb t "null" then Returns JNull
  else Throws (mkError "Unexpected token in JSON").

Definition demo_rows : list Row := [[("total", JNumber 127)]].

(** The warehouse knows two tables; the metadata of [quebrada] cannot be
    read. *)
Definition demo_metadata (table : string) : Outcome (list RawField) :=
  if String.eqb table "professores" then
    Returns [mkRawField "id" "INTEGER" (Some "REQUIRED") None;
             mkRawField "nome" "STRING" None (Some "Nome")]
  else if String.eqb table "notas" then
    Returns [mkRawField "nota" "FLOAT" None None]
  else Throws (mkError "Not found: Table").

(** The world is the clock, in milliseconds; a minute passes at each
    reading.  [classifier], [generator] and [narrator] are the replies to the
    classification prompt, to the SQL prompt and to any other prompt; the
    probe of [getModelName] is always answered. *)
Definition scripted (classifier generator narrator : Outcome GenResponse)
  : SDK Z :=
  mkSDK Z demo_env
    (fun w => (w, w + 60000))
    (fun params prompt w =>
       let key := match systemInstruction params with
                  | Some instruction => instruction
                  | None => prompt
                  end in
       if JS.startsWith "Analise" key then (classifier, w)
       else if JS.startsWith "Você é um especialista" key
               || JS.startsWith "Você é um assistente especializado" key
            then (generator, w)
       else if String.eqb key "Ok" then (reply "Ok", w)
       else (narrator, w))
    None
    (fun sql location w => (Returns demo_rows, w))
    (fun ds w => (Returns ["professores"; "quebrada"; "notas"], w))
    (fun ds table w => (demo_metadata table, w))
    demo_parse
    (fun pretty rows => "[rows]")
    (fun c => "{schema}").

Definition initial (t : Z) (configured : bool) : State Z :=
  mkState t configured configured None None None None [].

Definition empty_schema : DatasetSchema :=
  mkDatasetSchema (Some "dados_formacao") (Some "dashboard-educacao-ep-pr") ∅.

(** What the scenarios' warehouse has to offer. *)
Definition demo_schema : DatasetSchema :=
  mkDatasetSchema (Some "dados_formacao") (Some "dashboard-educacao-ep-pr")
    (<["notas" := mkTableSchema "notas" [mkField "nota" "FLOAT" None EmptyString]]>
       (<["professores" :=
            mkTableSchema "professores"
              [mkField "id" "INTEGER" (Some "REQUIRED") EmptyString;
               mkField "nome" "STRING" None "Nome"]]> ∅)).

Definition yes : string := "{ " +:+ dq +:+ "requires_db" +:+ dq +:+ ": true }".

Definition question : string := "Quantos professores completaram o estágio?".

(** The model answers every prompt as asked. *)
Definition cooperative : SDK Z :=
  scripted (reply yes)
    (reply "SELECT nome FROM `dashboard-educacao-ep-pr.dados_formacao.professores` LIMIT 100")
    (reply "127 professores").

(** The model refuses to write a query. *)
Definition refusing : SDK Z :=
  scripted (reply yes) (reply "ERRO: sem dados") (reply "ok").

Definition refusing_legacy : SDK Z :=
  scripted (reply "SIM")
    (reply "ERRO: Não é possível responder com os dados disponíveis")
    (reply "ok").

(** The model writes a destructive statement. *)
Definition destructive : SDK Z :=
  scripted (reply yes) (reply "DROP TABLE t") (reply "ok").

(** The model answers the probe and the generator, and nothing else. *)
Definition mute : SDK Z :=
  scripted unavailable (reply "SELECT 1") unavailable.

(** The model replies to the classifier with something that is not JSON. *)
Definition chatty : SDK Z :=
  scripted (reply "Sim, requer consulta.") (reply "SELECT 1") (reply "ok").

(** A warehouse whose query and whose table listing answer as given. *)
Definition scripted_warehouse (rows : Outcome (list Row))
    (listing : Outcome (list string)) : SDK Z :=
  mkSDK Z demo_env
    (fun w => (w, w + 60000))
    (generateContent cooperative)
    None
    (fun sql location w => (rows, w))
    (fun ds w => (listing, w))
    (fun ds table w => (demo_metadata table, w))
    demo_parse
    (fun pretty rows => "[rows]")
    (fun c => "{schema}").

(** The table of the generated query is gone. *)
Definition missing_table : SDK Z :=
  scripted_warehouse
    (Throws (mkError "Not found: Table dashboard-educacao-ep-pr:dados_formacao.professores was not found in location southamerica-east1"))
    (Returns ["professores"; "quebrada"; "notas"]).

(** The tables of the dataset cannot be listed. *)
Definition no_listing : SDK Z :=
  scripted_warehouse (Returns demo_rows)
    (Throws (mkError "Permission denied on dataset dados_formacao")).

(** No model answers, not even the probe. *)
Definition offline : SDK Z :=
  mkSDK Z demo_env
    (fun w => (w, w + 60000))
    (fun params prompt w => (unavailable, w))
    None
    (fun sql location w => (Returns demo_rows, w))
    (fun ds w => (Returns ["professores"; "quebrada"; "notas"], w))
    (fun ds table w => (demo_metadata table, w))
    demo_parse
    (fun pretty rows => "[rows]")
    (fun c => "{schema}").

(** A cache filled at [t]. *)
Definition served_at (t : Z) : State Z :=
  mkState 5000000 true true None None (Some demo_schema) (Some t) [].

(** The environment names a model of its own. *)
Definition overridden : SDK Z :=
  mkSDK Z
    (mkEnv (Some "key") (Some "gemini-exp") (Some "dashboard-educacao-ep-pr")
       (Some "dados_formacao") None)
    (fun w => (w, w + 60000))
    (fun params prompt w => (reply "Ok", w))
    None
    (fun sql location w => (Returns demo_rows, w))
    (fun ds w => (Returns ["professores"; "quebrada"; "notas"], w))
    (fun ds table w => (demo_metadata table, w))
    demo_parse
    (fun pretty rows => "[rows]")
    (fun c => "{schema}").

(** A model name cached at 50 s, seen at 100 s. *)
Definition model_known : State Z :=
  mkState 100000 true true (Some "gemini-pro") (Some 50000) None None [].

Definition demo_stringify (tables : list (string * list string)) : string :=
  "[tables]".

(** The model classifies and writes the query, and cannot narrate. *)
Definition tongue_tied : SDK Z :=
  scripted (reply "SIM") (reply "SELECT 1") unavailable.

(** No API key in the environment. *)
Definition keyless : SDK Z :=
  mkSDK Z
    (mkEnv None None (Some "dashboard-educacao-ep-pr") (Some "dados_formacao")
       None)
    (fun w => (w, w + 60000))
    (generateContent cooperative)
    None
    (fun sql location w => (Returns demo_rows, w))
    (fun ds w => (Returns ["professores"; "quebrada"; "notas"], w))
    (fun ds table w => (demo_metadata table, w))
    demo_parse
    (fun pretty rows => "[rows]")
    (fun c => "{schema}").

(** The states a request goes through: after the classifier, after the
    generator. *)
Definition classified (sdk : SDK Z) : State Z :=
  (requiresDatabaseQuery sdk question (initial 1000 true)).2.

Definition generated (sdk : SDK Z) : State Z :=
  (generateSQLQuery sdk question demo_schema (classified sdk)).2.

Definition select_professores : string :=
  "SELECT nome FROM `dashboard-educacao-ep-pr.dados_formacao.professores` LIMIT 100".

(** An executor that turns every statement down by throwing [v]. *)
Definition rejecting (v : Thrown) : string -> MAny Z (list Row) :=
  fun _ s => (Rejects v, s).

(** A dataset with a table named [__proto__], whose metadata can be read. *)
Definition proto_table : SDK Z :=
  mkSDK Z demo_env
    (fun w => (w, w + 60000))
    (generateContent cooperative)
    None
    (fun sql location w => (Returns demo_rows, w))
    (fun ds w => (Returns ["professores"; "__proto__"], w))
    (fun ds table w =>
       (if String.eqb table "__proto__"
        then Returns [mkRawField "id" "INTEGER" None None]
        else demo_metadata table, w))
    demo_parse
    (fun pretty rows => "[rows]")
    (fun c => "{schema}").

(** Of all the models, only [gemini-1.5-pro] answers. *)
Definition picky : SDK Z :=
  mkSDK Z demo_env
    (fun w => (w, w + 60000))
    (fun params prompt w =>
       (if String.eqb (model params) "gemini-1.5-pro" then reply "Ok"
        else Throws (mkError "404 Not Found"), w))
    None
    (fun sql location w => (Returns demo_rows, w))
    (fun ds w => (Returns ["professores"; "quebrada"; "notas"], w))
    (fun ds table w => (demo_metadata table, w))
    demo_parse
    (fun pretty rows => "[rows]")
    (fun c => "{schema}").

(** The model wraps its query in a markdown fence. *)
Definition fenced : SDK Z :=
  scripted (reply yes) (reply "```sql
SELECT 1
```") (reply "ok").

(** * Vocabulary of the properties *)

Definition with_world {W} (w : W) (s : State W) : State W :=
  mkState w (bigquery s) (credentialsConfigured s)
    (_cachedModelName s) (_cacheTimestamp s)
    (cachedSchema s) (schemaLastUpdated s) (trace s).

(** The state in which [getSchema] leaves the cache after a fetch at [t]. *)
Definition cached_at {W} (d : DatasetSchema) (t : Z) (s : State W) : State W :=
  mkState (world s) (bigquery s) (credentialsConfigured s)
    (_cachedModelName s) (_cacheTimestamp s)
    (Some d) (Some t) (trace s).

(** A first request at 1000 ms with an empty cache, and the state it leaves
    behind. *)
Definition start : State Z := initial 1000 true.

Definition first_served : State Z :=
  cached_at demo_schema 1000
    (getDatasetSchema cooperative (with_world 61000 start)).2.

(** [extends P s s'] : from [s] to [s'] the warehouse client is the same and
    the calls issued in between all satisfy [P]. *)
Definition extends {W} (P : Event -> Prop) (s s' : State W) : Prop :=
  bigquery s' = bigquery s
  /\ credentialsConfigured s' = credentialsConfigured s
  /\ exists added, trace s' = trace s ++ added /\ Forall P added.

(** Whatever the state [m] starts in, it only issues calls satisfying [P]. *)
Definition emits {W A} (P : Event -> Prop) (m : M W A) : Prop :=
  forall s, extends P s (m s).2.

(** The same of a computation that may throw any value. *)
Definition emits_any {W A} (P : Event -> Prop) (m : MAny W A) : Prop :=
  forall s, extends P s (m s).2.

(** A call is validated when it is not a query, or a query of a statement
    the validator accepts. *)
Definition validated (ev : Event) : Prop :=
  match ev with
  | EvQuery sql _ => validateQuery sql = true
  | _ => True
  end.

Definition not_warehouse (ev : Event) : Prop := is_warehouse ev = false.

Definition not_listing (ev : Event) : Prop := is_getTables ev = false.

(** The number of schema fetches in a trace: one table listing each. *)
Definition fetches (tr : list Event) : nat :=
  length (List.filter is_getTables tr).

Definition is_returns {A} (o : Outcome A) : bool :=
  match o with Returns _ => true | Throws _ => false end.

(** The cache of [getSchema] can be served at time [t]. *)
Definition cache_fresh {W} (s : State W) (t : Z) : bool :=
  match cachedSchema s with
  | Some _ =>
      truthy_time (schemaLastUpdated s)
      && (t - default 0 (schemaLastUpdated s) <? SCHEMA_CACHE_DURATION)
  | None => false
  end.

(** A string of white space only. *)
Fixpoint all_space (ws : string) : bool :=
  match ws with
  | EmptyString => true
  | String c rest => JS.is_space c && all_space rest
  end.

(** The state after a recorded call that left the world as [w]. *)
Definition after_call {W} (ev : Event) (w : W) (s : State W) : State W :=
  mkState w (bigquery s) (credentialsConfigured s)
    (_cachedModelName s) (_cacheTimestamp s)
    (cachedSchema s) (schemaLastUpdated s) (trace s ++ [ev]).

(** The state [POST /clear-cache] leaves. *)
Definition cleared {W} (s : State W) : State W :=
  mkState (world s) (bigquery s) (credentialsConfigured s)
    (_cachedModelName s) (_cacheTimestamp s) None None (trace s).

(** The probe [getModelName] sends to a candidate. *)
Definition probe_event (candidate : string) : Event :=
  EvGenerate (mkModelParams candidate None None) "Ok".

(** [refused sdk cs s s'] : probed one after the other from the state [s],
    the candidates [cs] all fail to answer, and [s'] is the state after the
    last of these probes. *)
Inductive refused {W} (sdk : SDK W) : list string -> State W -> State W -> Prop :=
| refused_nil s : refused sdk [] s s
| refused_cons c cs s e w s' :
    generateContent sdk (mkModelParams c None None) "Ok" (world s) = (Throws e, w) ->
    refused sdk cs (after_call (probe_event c) w s) s' ->
    refused sdk (c :: cs) s s'.

(** The state with the model cache holding [n], stamped [t]. *)
Definition model_cached {W} (n : string) (t : Z) (s : State W) : State W :=
  mkState (world s) (bigquery s) (credentialsConfigured s)
    (Some n) (Some t) (cachedSchema s) (schemaLastUpdated s) (trace s).

(** The built-in candidates of [getModelName], after the override. *)
Definition builtin_candidates : list string :=
  ["gemini-2.5-flash-lite"; "models/gemini-2.5-flash-lite"; "gemini-1.5-pro";
   "gemini-1.5-flash"; "gemini-pro"; "gemini-1"; "gemini-1.0";
   "models/gemini-1.0"; "text-bison@001"; "text-bison-001"; "chat-bison@001";
   "chat-bison"].

(** The markdown fence, and the number of backticks a string starts with. *)
Definition fence : string := "```".

Fixpoint backticks (s : string) : nat :=
  match s with
  | EmptyString => 0
  | String c rest => if Ascii.eqb "`" c then S (backticks rest) else 0
  end.

(** * Properties *)

(** ** Strings *)

Lemma startsWith_spec (p s : string) :
  JS.startsWith p s = true <-> exists rest, s = p +:+ rest.
Proof.
  revert s. induction p as [|a p IH]; intros s; simpl.
  - split; [intros _; exists s; reflexivity | reflexivity].
  - destruct s as [|b s].
    + split; [discriminate | intros [rest H]; discriminate].
    + destruct (Ascii.eqb_spec a b) as [->|Hne].
      * rewrite IH. split; intros [rest H]; exists rest.
        -- now rewrite H.
        -- now injection H.
      * split; [discriminate | intros [rest H]; injection H; congruence].
Qed.

Lemma includes_unfold (sub s : string) :
  JS.includes sub s =
  JS.startsWith sub s
  || match s with EmptyString => false | String _ s' => JS.includes sub s' end.
Proof. destruct s; reflexivity. Qed.

Lemma includes_spec (sub s : string) :
  JS.includes sub s = true <-> exists pre post, s = pre +:+ sub +:+ post.
Proof.
  split.
  - induction s as [|c s IH]; rewrite includes_unfold; intros H;
      apply orb_true_iff in H as [H|H].
    + apply startsWith_spec in H as [rest ->]. now exists EmptyString, rest.
    + discriminate.
    + apply startsWith_spec in H as [rest ->]. now exists EmptyString, rest.
    + destruct (IH H) as (pre & post & ->). now exists (String c pre), post.
  - intros (pre & post & ->). induction pre as [|c pre IH].
    + rewrite includes_unfold. apply orb_true_iff. left.
      apply startsWith_spec. now exists post.
    + change (String c pre +:+ sub +:+ post)
        with (String c (pre +:+ sub +:+ post)).
      rewrite includes_unfold. apply orb_true_iff. right. exact IH.
Qed.

Lemma no_forbidden_spec (cmds : list string) (u : string) :
  no_forbidden cmds u = true <->
  forall cmd, In cmd cmds -> JS.includes cmd u = false.
Proof.
  induction cmds as [|c cmds IH]; simpl.
  - split; [intros _ cmd [] | reflexivity].
  - destruct (JS.includes c u) eqn:E.
    + split; [discriminate | intros H; rewrite <- E; symmetry; apply H; now left].
    + rewrite IH. split.
      * intros H cmd [<-|Hin]; [exact E | now apply H].
      * intros H cmd Hin. apply H. now right.
Qed.

Arguments JS.startsWith : simpl never.
Arguments JS.includes : simpl never.
Arguments JS.trim : simpl never.
Arguments JS.toUpperCase : simpl never.
Arguments JS.remove_all : simpl never.
Arguments JS.remove_all_lf : simpl never.
Arguments String.append : simpl never.

(** ** The validator *)

(** C2. [validateQuery s] is [true] exactly when the upper-cased statement
    contains none of the nine forbidden keywords as a substring and the
    trimmed upper-cased statement starts with SELECT.  The function is a
    total function from strings to booleans: it reads and writes no state. *)
Theorem validateQuery_iff (s : string) :
  validateQuery s = true <->
  (forall cmd, In cmd forbiddenCommands ->
     ~ exists pre post, JS.toUpperCase s = pre +:+ cmd +:+ post)
  /\ (exists rest, JS.trim (JS.toUpperCase s) = "SELECT" +:+ rest).
Proof.
  unfold validateQuery.
  rewrite <- startsWith_spec.
  destruct (no_forbidden forbiddenCommands (JS.toUpperCase s)) eqn:E.
  - pose proof (proj1 (no_forbidden_spec _ _) E) as E1. clear E. rename E1 into E.
    destruct (JS.startsWith "SELECT" (JS.trim (JS.toUpperCase s))) eqn:F; simpl.
    + split; [intros _ | reflexivity]. split; [|reflexivity].
      intros cmd Hin Hsub. apply includes_spec in Hsub.
      rewrite (E cmd Hin) in Hsub. discriminate.
    + split; [discriminate | intros [_ H]; discriminate].
  - split; [discriminate|]. intros [H _].
    assert (no_forbidden forbiddenCommands (JS.toUpperCase s) = true) as E'.
    { apply no_forbidden_spec. intros cmd Hin.
      destruct (JS.includes cmd (JS.toUpperCase s)) eqn:G; [|reflexivity].
      exfalso. apply (H cmd Hin). now apply includes_spec. }
    congruence.
Qed.

Example validateQuery_select : validateQuery "SELECT * FROM t" = true.
Proof. reflexivity. Qed.
Example validateQuery_lowercase : validateQuery "select * from t" = true.
Proof. reflexivity. Qed.
Example validateQuery_drop : validateQuery "DROP TABLE t" = false.
Proof. reflexivity. Qed.
Example validateQuery_second_statement :
  validateQuery "SELECT * FROM t; DELETE FROM t" = false.
Proof. reflexivity. Qed.
Example validateQuery_leading_space : validateQuery "   select 1" = true.
Proof. reflexivity. Qed.
Example validateQuery_updated_at :
  validateQuery "SELECT updated_at FROM t" = false.
Proof. reflexivity. Qed.

(** ** Running computations *)

Section Runs.
  Context {W : Type}.
  Implicit Types s : State W.

Lemma bind_returns {A B} (m : M W A) (k : A -> M W B) s a s' :
  m s = (Returns a, s') -> bind m k s = k a s'.
Proof. unfold bind. now intros ->. Qed.

Lemma bind_throws {A B} (m : M W A) (k : A -> M W B) s e s' :
  m s = (Throws e, s') -> bind m k s = (Throws e, s').
Proof. unfold bind. now intros ->. Qed.

Lemma try_returns {A} (m : M W A) h s a s' :
  m s = (Returns a, s') -> try_catch m h s = (Returns a, s').
Proof. unfold try_catch. now intros ->. Qed.

Lemma try_throws {A} (m : M W A) h s e s' :
  m s = (Throws e, s') -> try_catch m h s = h e s'.
Proof. unfold try_catch. now intros ->. Qed.

Lemma bind_inv {A B} (m : M W A) (k : A -> M W B) s r s2 :
  bind m k s = (r, s2) ->
  (exists a s1, m s = (Returns a, s1) /\ k a s1 = (r, s2))
  \/ (exists e, m s = (Throws e, s2) /\ r = Throws e).
Proof.
  unfold bind. destruct (m s) as [[e|a] s1]; intros H.
  - right. exists e. now inversion H.
  - left. now exists a, s1.
Qed.

Lemma bind_inv_returns {A B} (m : M W A) (k : A -> M W B) s b s2 :
  bind m k s = (Returns b, s2) ->
  exists a s1, m s = (Returns a, s1) /\ k a s1 = (Returns b, s2).
Proof.
  intros H. apply bind_inv in H as [H|(e & _ & H)]; [exact H|discriminate H].
Qed.

(** When every exception is rethrown, a [try] that returns returned from its
    block. *)
Lemma try_inv_returns {A} (m : M W A) (h : Error -> Error) s a s' :
  try_catch m (fun e => throw (h e)) s = (Returns a, s') ->
  m s = (Returns a, s').
Proof.
  unfold try_catch, throw. destruct (m s) as [[e|a'] s1]; intros H;
    [discriminate H | exact H].
Qed.

(** A handler that returns makes the whole [try] return. *)
Lemma try_total {A} (m : M W A) (h : Error -> M W A) s :
  (forall e s1, exists a s2, h e s1 = (Returns a, s2)) ->
  exists a s2, try_catch m h s = (Returns a, s2).
Proof.
  intros Hh. unfold try_catch. destruct (m s) as [[e|a] s1].
  - apply Hh.
  - now exists a, s1.
Qed.

Lemma bind_any_fulfils {A B} (m : MAny W A) (k : A -> MAny W B) s a s' :
  m s = (Fulfils a, s') -> bind_any m k s = k a s'.
Proof. unfold bind_any. now intros ->. Qed.

Lemma bind_any_rejects {A B} (m : MAny W A) (k : A -> MAny W B) s v s' :
  m s = (Rejects v, s') -> bind_any m k s = (Rejects v, s').
Proof. unfold bind_any. now intros ->. Qed.

Lemma own_returns {A} (m : M W A) s a s' :
  m s = (Returns a, s') -> own m s = (Fulfils a, s').
Proof. unfold own. now intros ->. Qed.

Lemma own_throws {A} (m : M W A) s e s' :
  m s = (Throws e, s') -> own m s = (Rejects (thrown_error e), s').
Proof. unfold own. now intros ->. Qed.

Lemma own_inv_fulfils {A} (m : M W A) s a s' :
  own m s = (Fulfils a, s') -> m s = (Returns a, s').
Proof.
  unfold own. destruct (m s) as [[e|a'] s1]; intros H; now inversion H.
Qed.

(** What a function of the repository throws is an [Error]. *)
Lemma own_inv_rejects {A} (m : M W A) s v s' :
  own m s = (Rejects v, s') -> exists e, v = thrown_error e /\ m s = (Throws e, s').
Proof.
  unfold own. destruct (m s) as [[e|a'] s1]; intros H; inversion H; subst.
  now exists e.
Qed.

Lemma callback_rejects {A B} (f : A -> M W B) a s v s' :
  callback f a s = (Rejects v, s') -> exists e, v = thrown_error e.
Proof.
  intros H. apply own_inv_rejects in H as (e & -> & _). now exists e.
Qed.

Lemma catch_any_fulfils {A} (m : MAny W A) h s a s' :
  m s = (Fulfils a, s') -> catch_any m h s = (Returns a, s').
Proof. unfold catch_any. now intros ->. Qed.

Lemma catch_any_rejects {A} (m : MAny W A) h s v s' :
  m s = (Rejects v, s') -> catch_any m h s = h v s'.
Proof. unfold catch_any. now intros ->. Qed.

Lemma bind_any_inv {A B} (m : MAny W A) (k : A -> MAny W B) s r s2 :
  bind_any m k s = (r, s2) ->
  (exists a s1, m s = (Fulfils a, s1) /\ k a s1 = (r, s2))
  \/ (exists v, m s = (Rejects v, s2) /\ r = Rejects v).
Proof.
  unfold bind_any. destruct (m s) as [[v|a] s1]; intros H.
  - right. exists v. now inversion H.
  - left. now exists a, s1.
Qed.

Lemma bind_any_inv_fulfils {A B} (m : MAny W A) (k : A -> MAny W B) s b s2 :
  bind_any m k s = (Fulfils b, s2) ->
  exists a s1, m s = (Fulfils a, s1) /\ k a s1 = (Fulfils b, s2).
Proof.
  intros H. apply bind_any_inv in H as [H|(v & _ & H)]; [exact H|discriminate H].
Qed.

Lemma extends_refl P s : extends P s s.
Proof.
  repeat split. exists []. split; [now rewrite app_nil_r | constructor].
Qed.

Lemma extends_trans P s1 s2 s3 :
  extends P s1 s2 -> extends P s2 s3 -> extends P s1 s3.
Proof.
  intros (Hb & Hc & a1 & Ht & Hf) (Hb' & Hc' & a2 & Ht' & Hf').
  repeat split; try congruence.
  exists (a1 ++ a2). split.
  - rewrite Ht', Ht. now rewrite <- app_assoc.
  - apply Forall_app. now split.
Qed.

Lemma emits_ret {A} P (a : A) : emits (W:=W) P (ret a).
Proof. intros s. apply extends_refl. Qed.

Lemma emits_throw {A} P e : emits P (@throw W A e).
Proof. intros s. apply extends_refl. Qed.

Lemma emits_get P : emits P (@get W).
Proof. intros s. apply extends_refl. Qed.

Lemma emits_bind {A B} P (m : M W A) (k : A -> M W B) :
  emits P m -> (forall a, emits P (k a)) -> emits P (bind m k).
Proof.
  intros Hm Hk s. unfold bind. specialize (Hm s).
  destruct (m s) as [[e|a] s1]; simpl in *; [exact Hm|].
  eapply extends_trans; [exact Hm | apply Hk].
Qed.

Lemma emits_try {A} P (m : M W A) h :
  emits P m -> (forall e, emits P (h e)) -> emits P (try_catch m h).
Proof.
  intros Hm Hh s. unfold try_catch. specialize (Hm s).
  destruct (m s) as [[e|a] s1]; simpl in *; [|exact Hm].
  eapply extends_trans; [exact Hm | apply Hh].
Qed.

Lemma emits_record P ev : P ev -> emits P (@record_event W ev).
Proof.
  intros Hp s. repeat split. exists [ev]. split; [reflexivity|].
  now constructor.
Qed.

Lemma emits_external {A} P (f : W -> Outcome A * W) : emits P (external f).
Proof.
  intros s. unfold external. destruct (f (world s)) as [r w]. simpl.
  repeat split. exists []. split; [now rewrite app_nil_r | constructor].
Qed.

Lemma emits_set_cachedModelName P n : emits P (@set_cachedModelName W n).
Proof. intros s. apply (extends_refl P s). Qed.

Lemma emits_set_cacheTimestamp P t : emits P (@set_cacheTimestamp W t).
Proof. intros s. apply (extends_refl P s). Qed.

Lemma emits_set_cachedSchema P d : emits P (@set_cachedSchema W d).
Proof. intros s. apply (extends_refl P s). Qed.

Lemma emits_set_schemaLastUpdated P t : emits P (@set_schemaLastUpdated W t).
Proof. intros s. apply (extends_refl P s). Qed.

Lemma emits_fulfil {A} P (a : A) : emits_any (W:=W) P (fulfil a).
Proof. intros s. apply extends_refl. Qed.

Lemma emits_bind_any {A B} P (m : MAny W A) (k : A -> MAny W B) :
  emits_any P m -> (forall a, emits_any P (k a)) -> emits_any P (bind_any m k).
Proof.
  intros Hm Hk s. unfold bind_any. specialize (Hm s).
  destruct (m s) as [[v|a] s1]; simpl in *; [exact Hm|].
  eapply extends_trans; [exact Hm | apply Hk].
Qed.

Lemma emits_own {A} P (m : M W A) : emits P m -> emits_any P (own m).
Proof.
  intros Hm s. unfold own. specialize (Hm s).
  destruct (m s) as [[e|a] s1]; exact Hm.
Qed.

Lemma emits_callback {A B} P (f : A -> M W B) a :
  emits P (f a) -> emits_any P (callback f a).
Proof. apply emits_own. Qed.

Lemma emits_catch_any {A} P (m : MAny W A) h :
  emits_any P m -> (forall v, emits P (h v)) -> emits P (catch_any m h).
Proof.
  intros Hm Hh s. unfold catch_any. specialize (Hm s).
  destruct (m s) as [[v|a] s1]; simpl in *; [|exact Hm].
  eapply extends_trans; [exact Hm | apply Hh].
Qed.

Lemma emits_weaken {A} (P Q : Event -> Prop) (m : M W A) :
  (forall ev, P ev -> Q ev) -> emits P m -> emits Q m.
Proof.
  intros HPQ Hm s. destruct (Hm s) as (Hb & Hc & added & Ht & Hf).
  repeat split; try assumption. exists added. split; [assumption|].
  eapply Forall_impl; eauto.
Qed.

End Runs.

Create HintDb emits.
#[export] Hint Resolve emits_ret emits_throw emits_get emits_external
  emits_set_cachedModelName emits_set_cacheTimestamp emits_set_cachedSchema
  emits_set_schemaLastUpdated emits_fulfil : emits.

(** Decompose a computation along its binds, handlers and case analyses. *)
Ltac emits_step :=
  match goal with
  | |- emits _ (bind _ _) => apply emits_bind
  | |- emits _ (try_catch _ _) => apply emits_try
  | |- emits _ (catch_any _ _) => apply emits_catch_any
  | |- emits_any _ (bind_any _ _) => apply emits_bind_any
  | |- emits_any _ (own _) => apply emits_own
  | |- emits_any _ (if ?b then _ else _) => destruct b
  | |- emits _ (record_event _) => apply emits_record
  | |- emits _ (if ?b then _ else _) => destruct b
  | |- emits _ (match ?x with _ => _ end) => destruct x
  | |- forall _, _ => intro
  | |- _ => solve [auto with emits]
  end.

Ltac emits_tac := repeat emits_step.

(** A run that cannot have produced the result it is assumed to have. *)
Ltac absurd_run := let H := fresh in intros H; discriminate H.

(** ** Which calls each function issues *)

Section Emissions.
  Context {W : Type} (sdk : SDK W).

Lemma not_warehouse_validated ev : not_warehouse ev -> validated ev.
Proof. destruct ev; simpl; auto; discriminate. Qed.

Lemma emits_now : emits not_warehouse (now sdk).
Proof. unfold now. auto with emits. Qed.

Lemma emits_generate params prompt :
  emits not_warehouse (generate sdk params prompt).
Proof. unfold generate. emits_tac. reflexivity. Qed.

Lemma emits_response_text response :
  emits (W:=W) not_warehouse (response_text response).
Proof. unfold response_text. emits_tac. Qed.

Hint Resolve emits_now emits_generate emits_response_text : emits.

Lemma emits_probe_candidates cs :
  emits not_warehouse (probe_candidates sdk cs).
Proof. induction cs as [|c cs IH]; simpl; emits_tac. Qed.

Lemma emits_list_fallback : emits not_warehouse (list_fallback sdk).
Proof. unfold list_fallback. emits_tac. reflexivity. Qed.

Lemma emits_model_cache_valid : emits not_warehouse (model_cache_valid sdk).
Proof. unfold model_cache_valid. emits_tac. Qed.

Hint Resolve emits_probe_candidates emits_list_fallback
  emits_model_cache_valid : emits.

Lemma emits_getModelName : emits not_warehouse (getModelName sdk).
Proof. unfold getModelName. emits_tac. Qed.

Hint Resolve emits_getModelName : emits.

Lemma emits_generateSQLQuery q schema :
  emits not_warehouse (generateSQLQuery sdk q schema).
Proof. unfold generateSQLQuery, generateSQLQuery_try. emits_tac. Qed.

Lemma emits_formatResponse q rows :
  emits not_warehouse (formatResponse sdk q rows).
Proof. unfold formatResponse, formatResponse_try. emits_tac. Qed.

Lemma emits_processGeneralQuestion q :
  emits not_warehouse (processGeneralQuestion sdk q).
Proof. unfold processGeneralQuestion. emits_tac. Qed.

Lemma emits_requiresDatabaseQuery q :
  emits not_warehouse (requiresDatabaseQuery sdk q).
Proof.
  unfold requiresDatabaseQuery, classify, requires_db_is_true. emits_tac.
Qed.

Lemma emits_legacy_generateSQLQuery q schema :
  emits not_warehouse (Legacy.generateSQLQuery sdk q schema).
Proof. unfold Legacy.generateSQLQuery. emits_tac. Qed.

Lemma emits_legacy_formatResponse q rows :
  emits not_warehouse (Legacy.formatResponse sdk q rows).
Proof. unfold Legacy.formatResponse, Legacy.formatResponse_try. emits_tac. Qed.

Lemma emits_legacy_processGeneralQuestion q :
  emits not_warehouse (Legacy.processGeneralQuestion sdk q).
Proof. unfold Legacy.processGeneralQuestion. emits_tac. Qed.

Lemma emits_legacy_requiresDatabaseQuery q :
  emits not_warehouse (Legacy.requiresDatabaseQuery sdk q).
Proof. unfold Legacy.requiresDatabaseQuery, Legacy.classify. emits_tac. Qed.

(** The executor only queries statements the validator accepts. *)
Lemma emits_executeQuery sql : emits validated (executeQuery sdk sql).
Proof.
  unfold executeQuery. apply emits_try; [|intros; emits_tac].
  apply emits_bind; [auto with emits|]. intros s.
  destruct (negb (bigquery s) || negb (credentialsConfigured s));
    [auto with emits|].
  destruct (validateQuery sql) eqn:V; simpl; [|auto with emits].
  emits_tac.
Qed.

Hint Resolve emits_generateSQLQuery emits_formatResponse
  emits_processGeneralQuestion emits_requiresDatabaseQuery
  emits_legacy_generateSQLQuery emits_legacy_formatResponse
  emits_legacy_processGeneralQuestion emits_legacy_requiresDatabaseQuery
  : emits.

(** The orchestrator issues the calls of its stages and none of its own. *)
Lemma emits_processMessageWith P generateSQL q schema f :
  (forall ev, not_warehouse ev -> P ev) ->
  (forall q' schema', emits P (generateSQL q' schema')) ->
  (forall sql, emits_any P (f sql)) ->
  emits P (processMessageWith sdk generateSQL q schema f).
Proof.
  intros HP Hg Hf. unfold processMessageWith, processMessage_try, failure_outcome.
  assert (forall A (m : M W A), emits not_warehouse m -> emits P m) as Hw
    by (intros A m; apply emits_weaken; exact HP).
  emits_tac; auto with emits.
Qed.

Lemma emits_legacy_processMessage P q schema f :
  (forall ev, not_warehouse ev -> P ev) ->
  (forall sql, emits_any P (f sql)) ->
  emits P (Legacy.processMessage sdk q schema f).
Proof.
  intros HP Hf. unfold Legacy.processMessage, Legacy.processMessage_try.
  assert (forall A (m : M W A), emits not_warehouse m -> emits P m) as Hw
    by (intros A m; apply emits_weaken; exact HP).
  emits_tac; auto with emits.
Qed.

End Emissions.

(** ** The executor's guard *)

Section Guard.
  Context {W : Type} (sdk : SDK W).

Lemma executeQuery_rejects sql (s : State W) :
  validateQuery sql = false ->
  executeQuery sdk sql s =
  (Throws (mkError ("Erro ao consultar dados: " +:+
     (if bigquery s && credentialsConfigured s
      then "Query SQL não permitida. Apenas comandos SELECT são aceitos."
      else "BigQuery não está configurado. Verifique se as credenciais foram definidas nas variáveis de ambiente."))),
   s).
Proof.
  intros V. unfold executeQuery, try_catch, bind, get. rewrite V.
  destruct (bigquery s), (credentialsConfigured s); reflexivity.
Qed.

(** C1, as the code has it.  A statement the validator rejects never reaches
    the warehouse: [executeQuery] throws and leaves the state, and so the
    list of issued calls, as it found it.  The error is the unsafe-query
    error when the client is configured and the not-configured error
    otherwise, both rethrown by the function's own [catch] under its generic
    prefix.  Every query [executeQuery] issues is of a validated statement,
    and so is every query issued by [processMessage] when it is given
    [executeQuery] as its executor, in either revision. *)
Theorem no_query_without_validation :
  (forall sql (s : State W),
     validateQuery sql = false ->
     exists e,
       executeQuery sdk sql s = (Throws e, s)
       /\ message e =
          "Erro ao consultar dados: " +:+
          (if bigquery s && credentialsConfigured s
           then "Query SQL não permitida. Apenas comandos SELECT são aceitos."
           else "BigQuery não está configurado. Verifique se as credenciais foram definidas nas variáveis de ambiente."))
  /\ (forall sql, emits validated (executeQuery sdk sql))
  /\ (forall q schema,
        emits validated
          (processMessage sdk q schema (callback (executeQuery sdk))))
  /\ (forall q schema,
        emits validated
          (Legacy.processMessage sdk q schema (callback (executeQuery sdk)))).
Proof.
  split; [|split; [|split]].
  - intros sql s V. eexists. split; [apply executeQuery_rejects, V|reflexivity].
  - apply emits_executeQuery.
  - intros q schema. apply emits_processMessageWith.
    + apply not_warehouse_validated.
    + intros q' schema'. eapply emits_weaken;
        [apply not_warehouse_validated | apply emits_generateSQLQuery].
    + intros sql. apply emits_callback, emits_executeQuery.
  - intros q schema. apply emits_legacy_processMessage.
    + apply not_warehouse_validated.
    + intros sql. apply emits_callback, emits_executeQuery.
Qed.

End Guard.

(** With the client not configured, a rejected statement is answered with
    the not-configured error: the unsafe-query error is not the one thrown. *)
Lemma executeQuery_unconfigured_error :
  validateQuery "DROP TABLE t" = false
  /\ executeQuery cooperative
       "DROP TABLE t" (initial 1000 false)
     = (Throws (mkError "Erro ao consultar dados: BigQuery não está configurado. Verifique se as credenciais foram definidas nas variáveis de ambiente."),
        initial 1000 false)
  /\ executeQuery cooperative
       "DROP TABLE t" (initial 1000 false)
     <> (Throws (mkError "Erro ao consultar dados: Query SQL não permitida. Apenas comandos SELECT são aceitos."),
         initial 1000 false)
  /\ executeQuery cooperative
       "DROP TABLE t" (initial 1000 false)
     <> (Throws (mkError "Query SQL não permitida. Apenas comandos SELECT são aceitos."),
         initial 1000 false).
Proof.
  split; [reflexivity|]. split; [reflexivity|]. split; vm_compute; discriminate.
Qed.

Lemma no_query_without_validation_witness :
  validateQuery "SELECT 1; DROP TABLE t" = false
  /\ exists e,
       executeQuery cooperative
         "SELECT 1; DROP TABLE t" (initial 1000 true)
       = (Throws e, initial 1000 true)
       /\ message e = "Erro ao consultar dados: Query SQL não permitida. Apenas comandos SELECT são aceitos.".
Proof.
  split; [reflexivity|].
  apply (proj1 (no_query_without_validation
                  cooperative)).
  reflexivity.
Defined.

(** ** The generator *)

Section Generator.
  Context {W : Type} (sdk : SDK W).

Lemma truthy_nonempty (t : string) : JS.truthy t = true <-> t <> EmptyString.
Proof. destruct t; simpl; split; congruence. Qed.

(** The generator returns exactly when the model name is found, the call
    succeeds, the reply has a text, and the stripped text is neither empty
    nor the refusal; what it returns is the stripped text. *)
Lemma generateSQLQuery_returns q schema (s : State W) sql s' :
  generateSQLQuery sdk q schema s = (Returns sql, s') ->
  exists name s1 response reply,
    getModelName sdk s = (Returns name, s1)
    /\ generate sdk
         (mkModelParams name
            (Some (sql_systemInstruction sdk (compactSchema schema))) None)
         q s1 = (Returns response, s')
    /\ text response = Returns reply
    /\ sql = strip_fences reply
    /\ sql <> EmptyString
    /\ JS.startsWith "ERRO" sql = false.
Proof.
  intros H. unfold generateSQLQuery in H. apply try_inv_returns in H.
  unfold generateSQLQuery_try in H.
  apply bind_inv_returns in H as (name & s1 & E1 & H).
  apply bind_inv_returns in H as (response & s2 & E2 & H).
  apply bind_inv_returns in H as (reply & s3 & E3 & H).
  unfold response_text in E3.
  destruct (text response) as [e|reply'] eqn:T; [discriminate E3|].
  inversion E3; subst reply' s3; clear E3.
  cbv zeta in H.
  destruct (JS.truthy (strip_fences reply)) eqn:Tr; [|discriminate H].
  destruct (JS.startsWith "ERRO" (strip_fences reply)) eqn:S;
    [discriminate H|].
  inversion H; subst.
  exists name, s1, response, reply.
  repeat split; try assumption. now apply truthy_nonempty.
Qed.

(** Conversely, a stripped reply that is neither empty nor the refusal is
    handed back as it is, whatever the validator would say of it. *)
Lemma generateSQLQuery_hands_back q schema (s : State W) name s1 response reply s2 :
  getModelName sdk s = (Returns name, s1) ->
  generate sdk
    (mkModelParams name
       (Some (sql_systemInstruction sdk (compactSchema schema))) None)
    q s1 = (Returns response, s2) ->
  text response = Returns reply ->
  strip_fences reply <> EmptyString ->
  JS.startsWith "ERRO" (strip_fences reply) = false ->
  generateSQLQuery sdk q schema s = (Returns (strip_fences reply), s2).
Proof.
  intros H1 H2 H3 H4 H5. unfold generateSQLQuery, generateSQLQuery_try.
  erewrite try_returns; [reflexivity|].
  erewrite bind_returns by exact H1. cbv zeta.
  erewrite bind_returns by exact H2.
  unfold response_text. rewrite H3.
  erewrite bind_returns by reflexivity.
  apply truthy_nonempty in H4. now rewrite H4, H5.
Qed.

Lemma generateSQLQuery_throws q schema (s : State W) e s' :
  generateSQLQuery sdk q schema s = (Throws e, s') ->
  JS.startsWith "Erro ao gerar query: " (message e) = true.
Proof.
  unfold generateSQLQuery, try_catch, throw.
  destruct (generateSQLQuery_try sdk q schema s) as [[e1|sql] s1];
    intros H; inversion H; subst.
  apply startsWith_spec. now eexists.
Qed.

Lemma legacy_generateSQLQuery_returns q schema (s : State W) sql s' :
  Legacy.generateSQLQuery sdk q schema s = (Returns sql, s') ->
  exists response reply,
    generate sdk Legacy.gemini_pro
      (Legacy.sql_prompt sdk (Legacy.compactSchema schema) q) s
    = (Returns response, s')
    /\ text response = Returns reply
    /\ sql = Legacy.strip_fences reply.
Proof.
  intros H. unfold Legacy.generateSQLQuery in H. apply try_inv_returns in H.
  destruct (negb (JS.truthy (env_or (GEMINI_API_KEY (env sdk)) EmptyString)));
    [discriminate H|].
  apply bind_inv_returns in H as (response & s2 & E2 & H).
  apply bind_inv_returns in H as (reply & s3 & E3 & H).
  unfold response_text in E3.
  destruct (text response) as [e|reply'] eqn:T; [discriminate E3|].
  inversion E3; subst reply' s3; clear E3.
  inversion H; subst. now exists response, reply.
Qed.

Lemma legacy_generateSQLQuery_throws q schema (s : State W) e s' :
  Legacy.generateSQLQuery sdk q schema s = (Throws e, s') ->
  message e = "Erro ao processar sua pergunta com IA".
Proof.
  unfold Legacy.generateSQLQuery, try_catch, throw.
  match goal with |- context [match ?m s with _ => _ end] =>
    destruct (m s) as [[e1|sql] s1] end;
    intros H; now inversion H.
Qed.

(** C3, as the code has it.  [generateSQLQuery] either throws an error of
    its own or returns the reply of the model with its fences stripped; in
    the current revision the returned text is not empty and does not start
    with ERRO.  Neither revision consults the validator: the text returned is
    whatever the model replied. *)
Theorem generateSQLQuery_outcome q schema (s : State W) :
  ((exists e s',
      generateSQLQuery sdk q schema s = (Throws e, s')
      /\ JS.startsWith "Erro ao gerar query: " (message e) = true)
   \/ (exists name s1 response reply s',
         getModelName sdk s = (Returns name, s1)
         /\ generate sdk
              (mkModelParams name
                 (Some (sql_systemInstruction sdk (compactSchema schema))) None)
              q s1 = (Returns response, s')
         /\ text response = Returns reply
         /\ generateSQLQuery sdk q schema s = (Returns (strip_fences reply), s')
         /\ strip_fences reply <> EmptyString
         /\ JS.startsWith "ERRO" (strip_fences reply) = false))
  /\ ((exists s',
         Legacy.generateSQLQuery sdk q schema s
         = (Throws (mkError "Erro ao processar sua pergunta com IA"), s'))
      \/ (exists response reply s',
            generate sdk Legacy.gemini_pro
              (Legacy.sql_prompt sdk (Legacy.compactSchema schema) q) s
            = (Returns response, s')
            /\ text response = Returns reply
            /\ Legacy.generateSQLQuery sdk q schema s
               = (Returns (Legacy.strip_fences reply), s'))).
Proof.
  split.
  - destruct (generateSQLQuery sdk q schema s) as [[e|sql] s'] eqn:E.
    + left. exists e, s'. split; [reflexivity|].
      eapply generateSQLQuery_throws; eauto.
    + right. destruct (generateSQLQuery_returns _ _ _ _ _ E)
        as (name & s1 & response & reply & H1 & H2 & H3 & -> & H5 & H6).
      now exists name, s1, response, reply, s'.
  - destruct (Legacy.generateSQLQuery sdk q schema s) as [[e|sql] s'] eqn:E.
    + left. exists s'. pose proof (legacy_generateSQLQuery_throws _ _ _ _ _ E).
      destruct e as [m]. simpl in *. now subst.
    + right. destruct (legacy_generateSQLQuery_returns _ _ _ _ _ E)
        as (response & reply & H1 & H2 & ->).
      now exists response, reply, s'.
Qed.

End Generator.

(** The model replies with a DROP statement: both revisions of the generator
    hand it back to their caller, and the validator rejects it. *)
Lemma generateSQLQuery_returns_unsafe :
  validateQuery "DROP TABLE t" = false
  /\ (generateSQLQuery destructive "Apague a tabela de professores"
        empty_schema (initial 1000 true)).1
     = Returns "DROP TABLE t"
  /\ (Legacy.generateSQLQuery destructive "Apague a tabela de professores"
        empty_schema (initial 1000 true)).1
     = Returns "DROP TABLE t".
Proof. repeat split; vm_compute; reflexivity. Qed.

(** ** The orchestrator *)

Section Orchestrator.
  Context {W : Type} (sdk : SDK W).
  Implicit Types s : State W.

Lemma requiresDatabaseQuery_total q s :
  exists b s', requiresDatabaseQuery sdk q s = (Returns b, s').
Proof.
  unfold requiresDatabaseQuery. apply try_total.
  intros e s1. now eexists _, _.
Qed.

Lemma formatResponse_total q rows s :
  exists t s', formatResponse sdk q rows s = (Returns t, s').
Proof.
  unfold formatResponse. apply try_total. intros e s1. now eexists _, _.
Qed.

Lemma processGeneralQuestion_total q s :
  exists t s', processGeneralQuestion sdk q s = (Returns t, s').
Proof.
  unfold processGeneralQuestion. apply try_total.
  intros e s1. now eexists _, _.
Qed.

(** The three ways in which the [try] block of [processMessage] comes to its
    end without an exception: the conversational reply, the refusal, the
    narrated data. *)
Lemma processMessage_try_fulfils generateSQL q schema f s o s' :
  processMessage_try sdk generateSQL q schema f s = (Fulfils o, s') ->
  (exists s1 response,
     requiresDatabaseQuery sdk q s = (Returns false, s1)
     /\ processGeneralQuestion sdk q s1 = (Returns response, s')
     /\ o = mkChatOutcome true response Null Null (Val general) Absent)
  \/ (exists s1 sql,
        requiresDatabaseQuery sdk q s = (Returns true, s1)
        /\ generateSQL q schema s1 = (Returns sql, s')
        /\ JS.startsWith "ERRO" sql = true
        /\ o = mkChatOutcome false sql Absent Absent (Val error_type) Absent)
  \/ (exists s1 sql s2 rows s3 narrated,
        requiresDatabaseQuery sdk q s = (Returns true, s1)
        /\ generateSQL q schema s1 = (Returns sql, s2)
        /\ JS.startsWith "ERRO" sql = false
        /\ f sql s2 = (Fulfils rows, s3)
        /\ formatResponse sdk q rows s3 = (Returns narrated, s')
        /\ o = mkChatOutcome true narrated (Val sql) (Val rows)
                 (Val data_type) Absent).
Proof.
  intros H. unfold processMessage_try in H.
  apply bind_any_inv_fulfils in H as (needs & s1 & E1 & H).
  apply own_inv_fulfils in E1.
  destruct needs; cbn [negb] in H.
  - apply bind_any_inv_fulfils in H as (sql & s2 & E2 & H).
    apply own_inv_fulfils in E2.
    destruct (JS.startsWith "ERRO" sql) eqn:S.
    + right. left. inversion H; subst. now exists s1, sql.
    + right. right.
      apply bind_any_inv_fulfils in H as (rows & s3 & E3 & H).
      apply bind_any_inv_fulfils in H as (narrated & s4 & E4 & H).
      apply own_inv_fulfils in E4.
      inversion H; subst. now exists s1, sql, s2, rows, s3, narrated.
  - left. apply bind_any_inv_fulfils in H as (response & s2 & E2 & H).
    apply own_inv_fulfils in E2.
    inversion H; subst. now exists s1, response.
Qed.

(** What the [try] block throws is an [Error] of one of the stages, or what
    the executor threw. *)
Lemma processMessage_try_rejects generateSQL q schema f s v s' :
  processMessage_try sdk generateSQL q schema f s = (Rejects v, s') ->
  (exists e, v = thrown_error e)
  \/ (exists sql s2, f sql s2 = (Rejects v, s')).
Proof.
  intros H. unfold processMessage_try in H.
  apply bind_any_inv in H as [(needs & s1 & _ & H)|(v' & E & H)].
  2:{ inversion H; subst v'. apply own_inv_rejects in E as (e & -> & _).
      left. now exists e. }
  destruct needs; cbn [negb] in H.
  - apply bind_any_inv in H as [(sql & s2 & _ & H)|(v' & E & H)].
    2:{ inversion H; subst v'. apply own_inv_rejects in E as (e & -> & _).
        left. now exists e. }
    destruct (JS.startsWith "ERRO" sql); [discriminate H|].
    apply bind_any_inv in H as [(rows & s3 & _ & H)|(v' & E & H)].
    2:{ inversion H; subst v'. right. now exists sql, s2. }
    apply bind_any_inv in H as [(narrated & s4 & _ & H)|(v' & E & H)];
      [discriminate H|].
    inversion H; subst v'. apply own_inv_rejects in E as (e & -> & _).
    left. now exists e.
  - apply bind_any_inv in H as [(response & s2 & _ & H)|(v' & E & H)];
      [discriminate H|].
    inversion H; subst v'. apply own_inv_rejects in E as (e & -> & _).
    left. now exists e.
Qed.

(** With an executor that throws nothing but [Error] objects, as
    [executeQuery] does, [processMessage] returns an outcome object.  In that
    outcome, [success = false] comes with [type = 'error'] or with an
    [error] field, and [type = 'data'] comes with both [sql] and [data]
    holding a value.  When a stage throws, the outcome is the generic failure
    with the message of what was thrown. *)
Lemma processMessage_returns q schema (f : string -> MAny W (list Row)) s :
  (forall sql s0 v s1, f sql s0 = (Rejects v, s1) -> exists e, v = thrown_error e) ->
  exists o s',
    processMessage sdk q schema f s = (Returns o, s')
    /\ (success o = false ->
        out_type o = Val error_type \/ is_value (out_error o) = true)
    /\ (out_type o = Val data_type ->
        is_value (out_sql o) = true /\ is_value (out_data o) = true)
    /\ (forall v s1,
          processMessage_try sdk (generateSQLQuery sdk) q schema f s
          = (Rejects v, s1) ->
          s' = s1
          /\ exists e,
               v = thrown_error e
               /\ o = mkChatOutcome false "Erro interno ao processar IA."
                        Absent Absent Absent (Val (message e))).
Proof.
  intros Hf. unfold processMessage, processMessageWith, catch_any.
  destruct (processMessage_try sdk (generateSQLQuery sdk) q schema f s)
    as [[v|o] s1] eqn:E.
  - assert (exists e, v = thrown_error e) as (e & ->).
    { apply processMessage_try_rejects in E as [H|(sql & s2 & H)];
        [exact H | eapply Hf, H]. }
    eexists _, s1. split; [reflexivity|].
    split; [intros _; right; reflexivity|].
    split; [discriminate|].
    intros v' s1' H. inversion H; subst. split; [reflexivity|]. now exists e.
  - exists o, s1. split; [reflexivity|].
    apply processMessage_try_fulfils in E
      as [(s2 & response & _ & _ & ->)
         |[(s2 & sql & _ & _ & _ & ->)
          |(s2 & sql & s3 & rows & s4 & narrated & _ & _ & _ & _ & _ & ->)]];
      simpl; (split; [|split]);
      try discriminate; try (intros _; now (left + split)).
Qed.

(** [processMessage] throws only when its executor threw [null] or
    [undefined], and what it throws then is the [TypeError] of its own
    [catch] block. *)
Lemma processMessage_throws q schema (f : string -> MAny W (list Row)) s e s' :
  processMessage sdk q schema f s = (Throws e, s') ->
  exists sql s2,
    (f sql s2 = (Rejects thrown_null, s') /\ e = TypeError "message")
    \/ (f sql s2 = (Rejects thrown_undefined, s')
        /\ e = TypeError_undefined "message").
Proof.
  unfold processMessage, processMessageWith, catch_any.
  destruct (processMessage_try sdk (generateSQLQuery sdk) q schema f s)
    as [[v|o] s1] eqn:E; [|absurd_run].
  apply processMessage_try_rejects in E as [(e0 & ->)|(sql & s2 & E)];
    [absurd_run|].
  destruct v; intros H; inversion H; subst; exists sql, s2; [left|right];
    now split.
Qed.

(** C5.  When the generator hands the refusal to [processMessage] -- a text
    containing ERRO: in the earlier revision, a text starting with ERRO in
    the current one -- the outcome is the refusal outcome: [success = false],
    [type = 'error'], the refusal as message and no SQL.  The executor is not
    run: the result is the same for every executor, and the final state is
    the state in which the generator returned.  In the earlier revision
    [sql] is [null].  In the current revision the generator of the module
    never returns such a text, so the branch is stated for any generator;
    the object it builds leaves [sql] out. *)
Theorem refusal_outcome q schema (f : string -> MAny W (list Row)) :
  (forall generateSQL s s1 sql s2,
     requiresDatabaseQuery sdk q s = (Returns true, s1) ->
     generateSQL q schema s1 = (Returns sql, s2) ->
     JS.startsWith "ERRO" sql = true ->
     processMessageWith sdk generateSQL q schema f s
     = (Returns (mkChatOutcome false sql Absent Absent (Val error_type) Absent),
        s2))
  /\ (forall s s1 sql s2,
        Legacy.requiresDatabaseQuery sdk q s = (Returns true, s1) ->
        Legacy.generateSQLQuery sdk q schema s1 = (Returns sql, s2) ->
        JS.includes "ERRO:" sql = true ->
        Legacy.processMessage sdk q schema f s
        = (Returns (mkChatOutcome false sql Null Null (Val error_type) Absent),
           s2)
        /\ extends not_warehouse s s2).
Proof.
  split.
  - intros generateSQL s s1 sql s2 H1 H2 H3.
    unfold processMessageWith, processMessage_try.
    erewrite catch_any_fulfils; [reflexivity|].
    erewrite bind_any_fulfils by (apply own_returns; exact H1). cbn [negb].
    erewrite bind_any_fulfils by (apply own_returns; exact H2). now rewrite H3.
  - intros s s1 sql s2 H1 H2 H3. split.
    + unfold Legacy.processMessage, Legacy.processMessage_try.
      erewrite catch_any_fulfils; [reflexivity|].
      erewrite bind_any_fulfils by (apply own_returns; exact H1). cbn [negb].
      erewrite bind_any_fulfils by (apply own_returns; exact H2). now rewrite H3.
    + eapply extends_trans.
      * pose proof (emits_legacy_requiresDatabaseQuery sdk q s) as E.
        rewrite H1 in E. exact E.
      * pose proof (emits_legacy_generateSQLQuery sdk q schema s1) as E.
        rewrite H2 in E. exact E.
Qed.

(** C10.  In the current revision the generator throws whenever the stripped
    reply is empty or starts with ERRO, so what it returns never starts with
    ERRO and the refusal branch of [processMessage] is never taken: no
    outcome of [processMessage] has [type = 'error'], and a refusal of the
    model comes out as the generic failure carrying the generator's error. *)
Theorem refusal_is_a_generic_failure q schema
    (f : string -> MAny W (list Row)) :
  (forall s name s1 response reply s2,
     getModelName sdk s = (Returns name, s1) ->
     generate sdk
       (mkModelParams name
          (Some (sql_systemInstruction sdk (compactSchema schema))) None)
       q s1 = (Returns response, s2) ->
     text response = Returns reply ->
     strip_fences reply = EmptyString
     \/ JS.startsWith "ERRO" (strip_fences reply) = true ->
     generateSQLQuery sdk q schema s
     = (Throws (mkError
          ("Erro ao gerar query: IA não conseguiu gerar query válida: "
           +:+ JS.or_else (strip_fences reply) "resposta vazia")),
        s2))
  /\ (forall s sql s',
        generateSQLQuery sdk q schema s = (Returns sql, s') ->
        JS.startsWith "ERRO" sql = false)
  /\ (forall s o s',
        processMessage sdk q schema f s = (Returns o, s') ->
        out_type o <> Val error_type)
  /\ (forall s s1 e s2,
        requiresDatabaseQuery sdk q s = (Returns true, s1) ->
        generateSQLQuery sdk q schema s1 = (Throws e, s2) ->
        processMessage sdk q schema f s
        = (Returns (mkChatOutcome false "Erro interno ao processar IA."
                      Absent Absent Absent (Val (message e))),
           s2)).
Proof.
  split; [|split; [|split]].
  - intros s name s1 response reply s2 H1 H2 H3 H4.
    assert (generateSQLQuery_try sdk q schema s
            = (Throws (mkError ("IA não conseguiu gerar query válida: "
                 +:+ JS.or_else (strip_fences reply) "resposta vazia")), s2))
      as E.
    { unfold generateSQLQuery_try.
      erewrite bind_returns by exact H1. cbv zeta.
      erewrite bind_returns by exact H2.
      unfold response_text. rewrite H3.
      erewrite bind_returns by reflexivity.
      destruct H4 as [H4|H4]; rewrite H4; [reflexivity|].
      now rewrite orb_true_r. }
    unfold generateSQLQuery. rewrite (try_throws _ _ _ _ _ E). reflexivity.
  - intros s sql s' H.
    apply generateSQLQuery_returns in H as (? & ? & ? & ? & _ & _ & _ & _ & _ & H).
    exact H.
  - intros s o s' H. unfold processMessage, processMessageWith, catch_any in H.
    destruct (processMessage_try sdk (generateSQLQuery sdk) q schema f s)
      as [[v|o'] s1] eqn:E.
    + unfold failure_outcome in H.
      destruct (error_message v); inversion H; subst. discriminate.
    + inversion H; subst.
      apply processMessage_try_fulfils in E
        as [(s2 & response & _ & _ & ->)
           |[(s2 & sql & _ & G & S & ->)
            |(s2 & sql & s3 & rows & s4 & narrated & _ & _ & _ & _ & _ & ->)]];
        try discriminate.
      apply generateSQLQuery_returns in G
        as (? & ? & ? & ? & _ & _ & _ & _ & _ & G).
      congruence.
  - intros s s1 e s2 H1 H2.
    unfold processMessage, processMessageWith, processMessage_try.
    rewrite (catch_any_rejects _ _ s (thrown_error e) s2); [reflexivity|].
    erewrite bind_any_fulfils by (apply own_returns; exact H1). cbn [negb].
    now erewrite bind_any_rejects by (apply own_throws; exact H2).
Qed.

End Orchestrator.

(** C4, where the code departs from it.  The [catch] block of
    [processMessage] reads [error.message] without the test its siblings
    make.  Given an executor that rejects with [null], the function throws
    the [TypeError] of that read; given one that rejects with a value that
    has no message, the outcome it returns has [success = false], no [type],
    and [undefined] as its [error].  On the same executors the earlier
    revision, whose [catch] block tests what it caught, returns the generic
    failure with an [error] field. *)
Theorem processMessage_throws_on_null :
  (processMessage cooperative question demo_schema (rejecting thrown_null)
     start).1
  = Throws (mkError "Cannot read properties of null (reading 'message')")
  /\ (processMessage cooperative question demo_schema (rejecting thrown_plain)
        start).1
     = Returns (mkChatOutcome false "Erro interno ao processar IA."
                  Absent Absent Absent Undefined)
  /\ (Legacy.processMessage tongue_tied question demo_schema
        (rejecting thrown_null) start).1
     = Returns (mkChatOutcome false "Erro ao processar sua pergunta com IA"
                  Absent Absent Absent (Val "Erro desconhecido"))
  /\ (Legacy.processMessage tongue_tied question demo_schema
        (rejecting thrown_plain) start).1
     = Returns (mkChatOutcome false "Erro ao processar sua pergunta com IA"
                  Absent Absent Absent (Val "Erro desconhecido")).
Proof. repeat split; vm_compute; reflexivity. Qed.

Lemma refusal_outcome_witness :
  Legacy.processMessage refusing_legacy question empty_schema
    (callback (executeQuery refusing_legacy)) (initial 1000 true)
  = (Returns (mkChatOutcome false
                "ERRO: Não é possível responder com os dados disponíveis"
                Null Null (Val error_type) Absent),
     (Legacy.generateSQLQuery refusing_legacy question empty_schema
        (Legacy.requiresDatabaseQuery refusing_legacy question
           (initial 1000 true)).2).2)
  /\ extends not_warehouse (initial 1000 true)
       (Legacy.generateSQLQuery refusing_legacy question empty_schema
          (Legacy.requiresDatabaseQuery refusing_legacy question
             (initial 1000 true)).2).2.
Proof.
  apply (proj2 (refusal_outcome refusing_legacy question empty_schema
                  (callback (executeQuery refusing_legacy)))
           (initial 1000 true)
           (Legacy.requiresDatabaseQuery refusing_legacy question
              (initial 1000 true)).2);
    vm_compute; reflexivity.
Defined.

Lemma refusal_is_a_generic_failure_witness :
  processMessage refusing question empty_schema
    (callback (executeQuery refusing)) (initial 1000 true)
  = (Returns (mkChatOutcome false "Erro interno ao processar IA."
                Absent Absent Absent
                (Val "Erro ao gerar query: IA não conseguiu gerar query válida: ERRO: sem dados")),
     (generateSQLQuery refusing question empty_schema
        (requiresDatabaseQuery refusing question (initial 1000 true)).2).2).
Proof.
  apply (proj2 (proj2 (proj2
           (refusal_is_a_generic_failure refusing question empty_schema
              (callback (executeQuery refusing)))))
           (initial 1000 true)
           (requiresDatabaseQuery refusing question (initial 1000 true)).2
           (mkError "Erro ao gerar query: IA não conseguiu gerar query válida: ERRO: sem dados"));
    vm_compute; reflexivity.
Defined.

(** ** The formatter and the classifier *)

Section Resilience.
  Context {W : Type} (sdk : SDK W).
  Implicit Types s : State W.

(** C6, as the code has it.  In the current revision [formatResponse] never
    throws: when its [try] block fails it returns the fixed preamble followed
    by [JSON.stringify] of the rows, a function of the rows alone.  The
    earlier revision has no fallback: when its [try] block fails it throws
    its own error. *)
Theorem formatResponse_never_throws q rows s :
  (exists t s',
     formatResponse sdk q rows s = (Returns t, s')
     /\ (forall e s1,
           formatResponse_try sdk q rows s = (Throws e, s1) ->
           s' = s1
           /\ t = "Aqui estão os dados encontrados: "
                  +:+ stringify_rows sdk false rows))
  /\ (forall e s1,
        Legacy.formatResponse_try sdk q rows s = (Throws e, s1) ->
        Legacy.formatResponse sdk q rows s
        = (Throws (mkError "Erro ao formatar resposta"), s1)).
Proof.
  split.
  - unfold formatResponse, try_catch.
    destruct (formatResponse_try sdk q rows s) as [[e|t] s1].
    + eexists _, _. split; [reflexivity|].
      intros e' s1' H. inversion H; subst. now split.
    + exists t, s1. split; [reflexivity|]. intros e s1' H. discriminate H.
  - intros e s1 H. unfold Legacy.formatResponse.
    now rewrite (try_throws _ _ _ _ _ H).
Qed.

Lemma classify_parse_error q s name s1 response s2 reply e :
  getModelName sdk s = (Returns name, s1) ->
  generate sdk (mkModelParams name None (Some "application/json"))
    (classifier_prompt q) s1 = (Returns response, s2) ->
  text response = Returns reply ->
  JSON_parse sdk reply = Throws e ->
  classify sdk q s = (Throws e, s2).
Proof.
  intros H1 H2 H3 H4. unfold classify.
  erewrite bind_returns by exact H1.
  erewrite bind_returns by exact H2.
  unfold response_text. rewrite H3.
  erewrite bind_returns by reflexivity. now rewrite H4.
Qed.

Lemma classify_call_error q s name s1 e s2 :
  getModelName sdk s = (Returns name, s1) ->
  generate sdk (mkModelParams name None (Some "application/json"))
    (classifier_prompt q) s1 = (Throws e, s2) ->
  classify sdk q s = (Throws e, s2).
Proof.
  intros H1 H2. unfold classify.
  erewrite bind_returns by exact H1.
  now erewrite bind_throws by exact H2.
Qed.

Lemma legacy_classify_call_error q s e s2 :
  generate sdk Legacy.gemini_pro (Legacy.classifier_prompt q) s = (Throws e, s2) ->
  Legacy.classify sdk q s = (Throws e, s2).
Proof.
  intros H. unfold Legacy.classify. now erewrite bind_throws by exact H.
Qed.

(** C9.  [requiresDatabaseQuery] never throws, in either revision.  When the
    model call fails or the reply is not JSON, the current revision answers
    with the length heuristic ([userQuestion.length > 10]); when the model
    call fails, the earlier revision answers [true]. *)
Theorem classifier_fault_is_absorbed q s :
  (exists b s',
     requiresDatabaseQuery sdk q s = (Returns b, s')
     /\ (forall e s1,
           classify sdk q s = (Throws e, s1) ->
           s' = s1 /\ b = length_heuristic q))
  /\ (forall name s1 e s2,
        getModelName sdk s = (Returns name, s1) ->
        generate sdk (mkModelParams name None (Some "application/json"))
          (classifier_prompt q) s1 = (Throws e, s2) ->
        requiresDatabaseQuery sdk q s = (Returns (length_heuristic q), s2))
  /\ (forall name s1 response s2 reply e,
        getModelName sdk s = (Returns name, s1) ->
        generate sdk (mkModelParams name None (Some "application/json"))
          (classifier_prompt q) s1 = (Returns response, s2) ->
        text response = Returns reply ->
        JSON_parse sdk reply = Throws e ->
        requiresDatabaseQuery sdk q s = (Returns (length_heuristic q), s2))
  /\ (exists b s',
        Legacy.requiresDatabaseQuery sdk q s = (Returns b, s')
        /\ (forall e s1,
              Legacy.classify sdk q s = (Throws e, s1) ->
              s' = s1 /\ b = true))
  /\ (forall e s2,
        generate sdk Legacy.gemini_pro (Legacy.classifier_prompt q) s
        = (Throws e, s2) ->
        Legacy.requiresDatabaseQuery sdk q s = (Returns true, s2)).
Proof.
  split; [|split; [|split; [|split]]].
  - unfold requiresDatabaseQuery, try_catch.
    destruct (classify sdk q s) as [[e|b] s1].
    + eexists _, _. split; [reflexivity|].
      intros e' s1' H. inversion H; subst. now split.
    + exists b, s1. split; [reflexivity|]. intros e s1' H. discriminate H.
  - intros name s1 e s2 H1 H2. unfold requiresDatabaseQuery.
    now rewrite (try_throws _ _ _ _ _ (classify_call_error _ _ _ _ _ _ H1 H2)).
  - intros name s1 response s2 reply e H1 H2 H3 H4.
    unfold requiresDatabaseQuery.
    now rewrite (try_throws _ _ _ _ _
                   (classify_parse_error _ _ _ _ _ _ _ _ H1 H2 H3 H4)).
  - unfold Legacy.requiresDatabaseQuery, try_catch.
    destruct (Legacy.classify sdk q s) as [[e|b] s1].
    + eexists _, _. split; [reflexivity|].
      intros e' s1' H. inversion H; subst. now split.
    + exists b, s1. split; [reflexivity|]. intros e s1' H. discriminate H.
  - intros e s2 H. unfold Legacy.requiresDatabaseQuery.
    now rewrite (try_throws _ _ _ _ _ (legacy_classify_call_error _ _ _ _ H)).
Qed.

End Resilience.

(** The earlier revision of the formatter, with the model unavailable. *)
Lemma legacy_formatResponse_propagates :
  (Legacy.formatResponse mute question demo_rows (initial 1000 true)).1
  = Throws (mkError "Erro ao formatar resposta").
Proof. vm_compute. reflexivity. Qed.

Lemma formatResponse_never_throws_witness :
  Legacy.formatResponse mute question demo_rows (initial 1000 true)
  = (Throws (mkError "Erro ao formatar resposta"),
     (Legacy.formatResponse_try mute question demo_rows (initial 1000 true)).2).
Proof.
  apply (proj2 (formatResponse_never_throws mute question demo_rows
                  (initial 1000 true))
           (mkError "503 Service Unavailable")).
  vm_compute. reflexivity.
Defined.

Lemma classifier_fault_is_absorbed_witness :
  requiresDatabaseQuery chatty question (initial 1000 true)
  = (Returns true,
     (generate chatty
        (mkModelParams "gemini-2.5-flash-lite" None (Some "application/json"))
        (classifier_prompt question)
        (getModelName chatty (initial 1000 true)).2).2).
Proof.
  apply (proj1 (proj2 (proj2
           (classifier_fault_is_absorbed chatty question (initial 1000 true))))
           "gemini-2.5-flash-lite"
           (getModelName chatty (initial 1000 true)).2
           (mkGenResponse (Returns "Sim, requer consulta."))
           _ "Sim, requer consulta." (mkError "Unexpected token in JSON"));
    vm_compute; reflexivity.
Defined.

(** ** The schema provider *)

Section Schema.
  Context {W : Type} (sdk : SDK W).
  Implicit Types s : State W.

Lemma getTableSchema_run t s :
  bigquery s = true ->
  exists s',
    bigquery s' = true
    /\ getTableSchema sdk t s
       = (match (getMetadata sdk (BIGQUERY_DATASET (env sdk)) t (world s)).1 with
          | Returns metadata =>
              Returns (mkTableSchema t (map convert_field metadata))
          | Throws _ =>
              Throws (mkError
                ("Não foi possível obter informações da tabela " +:+ t))
          end, s').
Proof.
  intros B.
  unfold getTableSchema, try_catch, bind, get, record_event, external, ret,
    throw.
  rewrite B. cbn [world].
  destruct (getMetadata sdk (BIGQUERY_DATASET (env sdk)) t (world s))
    as [[e|metadata] w]; cbn [fst]; eexists; (split; [|reflexivity]); exact B.
Qed.

Lemma listTables_returns s names s1 :
  listTables sdk s = (Returns names, s1) -> bigquery s1 = true.
Proof.
  unfold listTables, try_catch, bind, get, record_event, external, ret, throw.
  destruct (bigquery s) eqn:B; [|absurd_run]. cbn [world].
  destruct (getTables sdk (BIGQUERY_DATASET (env sdk)) (world s))
    as [[e|tables] w]; [absurd_run|].
  intros H. inversion H; subst. exact B.
Qed.

(** The loop returns, whatever the tables do. *)
Lemma collect_schemas_total names schemas s :
  exists m s', collect_schemas sdk names schemas s = (Returns m, s').
Proof.
  revert schemas s. induction names as [|n names IH]; intros schemas s.
  - now exists schemas, s.
  - cbn [collect_schemas].
    destruct (try_total
                (t <- getTableSchema sdk n ;; ret (assign n t schemas))
                (fun _ => ret schemas) s) as (m1 & s1 & H1).
    + intros e s0. now exists schemas, s0.
    + erewrite bind_returns by exact H1. apply IH.
Qed.

Lemma collect_schemas_step n rest schemas s :
  collect_schemas sdk (n :: rest) schemas s
  = match getTableSchema sdk n s with
    | (Returns t, s1) => collect_schemas sdk rest (assign n t schemas) s1
    | (Throws _, s1) => collect_schemas sdk rest schemas s1
    end.
Proof.
  cbn [collect_schemas]. unfold bind at 1, try_catch, bind, ret.
  now destruct (getTableSchema sdk n s) as [[e|t] s1].
Qed.

Lemma lookup_assign (schemas : gmap string TableSchema) n entry t :
  is_Some (assign n entry schemas !! t)
  <-> is_Some (schemas !! t) \/ (t <> "__proto__" /\ n = t).
Proof.
  unfold assign. destruct (String.eqb n "__proto__") eqn:E.
  - apply String.eqb_eq in E. split; [now left|].
    intros [H|[H1 H2]]; [exact H | congruence].
  - apply String.eqb_neq in E. rewrite lookup_insert.
    destruct (decide (n = t)) as [<-|Hne]; split.
    + intros _. right. now split.
    + intros _. now eexists.
    + now left.
    + intros [H|[_ H]]; [exact H | congruence].
Qed.

(** The keys the loop adds are the tables whose schema it has fetched, in the
    state in which it came to them, a table named [__proto__] excepted. *)
Lemma collect_schemas_keys names :
  forall (schemas : gmap string TableSchema) s m s',
    collect_schemas sdk names schemas s = (Returns m, s') ->
    forall t,
      is_Some (m !! t)
      <-> is_Some (schemas !! t)
          \/ (t <> "__proto__"
              /\ exists pre post,
                   names = pre ++ t :: post
                   /\ is_returns
                        (getTableSchema sdk t
                           (collect_schemas sdk pre schemas s).2).1 = true).
Proof.
  induction names as [|n rest IH]; intros schemas s m s' H t.
  - inversion H; subst. split; [now left|].
    intros [H0|(_ & [|x pre] & post & Hn & _)];
      [exact H0 | discriminate Hn | discriminate Hn].
  - rewrite collect_schemas_step in H.
    destruct (getTableSchema sdk n s) as [[e|entry] s1] eqn:G.
    + rewrite (IH _ _ _ _ H t). split.
      * intros [H0|(Hp & pre & post & -> & Hr)]; [now left|].
        right. split; [exact Hp|]. exists (n :: pre), post.
        split; [reflexivity|]. rewrite collect_schemas_step, G. exact Hr.
      * intros [H0|(Hp & [|x pre] & post & Hn & Hr)]; [now left| |].
        -- inversion Hn; subst. cbn [collect_schemas] in Hr.
           unfold ret in Hr. cbn [snd] in Hr. rewrite G in Hr. discriminate Hr.
        -- inversion Hn; subst. right. split; [exact Hp|]. exists pre, post.
           split; [reflexivity|]. rewrite collect_schemas_step, G in Hr.
           exact Hr.
    + rewrite (IH _ _ _ _ H t), lookup_assign. split.
      * intros [[H0|[Hp <-]]|(Hp & pre & post & -> & Hr)].
        -- now left.
        -- right. split; [exact Hp|]. exists [], rest. split; [reflexivity|].
           cbn [collect_schemas]. unfold ret. cbn [snd]. now rewrite G.
        -- right. split; [exact Hp|]. exists (n :: pre), post.
           split; [reflexivity|]. rewrite collect_schemas_step, G. exact Hr.
      * intros [H0|(Hp & [|x pre] & post & Hn & Hr)].
        -- left. now left.
        -- inversion Hn; subst. left. right. now split.
        -- inversion Hn; subst. right. split; [exact Hp|]. exists pre, post.
           split; [reflexivity|]. rewrite collect_schemas_step, G in Hr.
           exact Hr.
Qed.

(** When the table listing succeeds, [getDatasetSchema] returns a summary,
    whatever the tables do.  The keys of its [tables] are the listed tables
    whose schema was fetched when the loop came to them, a table named
    [__proto__] excepted: a table that fails is left out and its error goes
    no further. *)
Lemma getDatasetSchema_keys s names s1 :
  listTables sdk s = (Returns names, s1) ->
  exists d s',
    getDatasetSchema sdk s = (Returns d, s')
    /\ dataset d = BIGQUERY_DATASET (env sdk)
    /\ project d = GCP_PROJECT_ID (env sdk)
    /\ (forall t,
          is_Some (tables d !! t)
          <-> t <> "__proto__"
              /\ exists pre post,
                   names = pre ++ t :: post
                   /\ is_returns
                        (getTableSchema sdk t
                           (collect_schemas sdk pre ∅ s1).2).1 = true).
Proof.
  intros L. destruct (collect_schemas_total names ∅ s1) as (m & s' & E).
  exists (mkDatasetSchema (BIGQUERY_DATASET (env sdk)) (GCP_PROJECT_ID (env sdk)) m),
    s'.
  split; [|split; [reflexivity|split; [reflexivity|]]].
  - unfold getDatasetSchema. erewrite try_returns; [reflexivity|].
    erewrite bind_returns by exact L.
    now erewrite bind_returns by exact E.
  - intros t. cbn [tables]. rewrite (collect_schemas_keys _ _ _ _ _ E t).
    rewrite lookup_empty. split.
    + intros [[x H]|H]; [discriminate H | exact H].
    + intros H. now right.
Qed.

End Schema.

(** C8, where the code departs from it.  The dataset lists a table named
    [__proto__] and the schema of that table is fetched like that of any
    other; the summary [getDatasetSchema] returns has no such key: the
    assignment [schemas[tableName] = ...] on the object literal [schemas]
    has set its prototype.  The only key is the other table. *)
Theorem getDatasetSchema_drops_proto :
  (listTables proto_table start).1 = Returns ["professores"; "__proto__"]
  /\ (getTableSchema proto_table "__proto__"
        (getTableSchema proto_table "professores"
           (listTables proto_table start).2).2).1
     = Returns (mkTableSchema "__proto__"
                  [mkField "id" "INTEGER" None EmptyString])
  /\ exists d,
       (getDatasetSchema proto_table start).1 = Returns d
       /\ tables d !! "__proto__" = None
       /\ map fst (map_to_list (tables d)) = ["professores"].
Proof.
  split; [vm_compute; reflexivity|]. split; [vm_compute; reflexivity|].
  eexists. split; [vm_compute; reflexivity|].
  split; vm_compute; reflexivity.
Qed.

(** ** The schema cache *)

Section Cache.
  Context {W : Type} (sdk : SDK W).
  Implicit Types s : State W.

Lemma fetches_app tr1 tr2 : fetches (tr1 ++ tr2) = (fetches tr1 + fetches tr2)%nat.
Proof. unfold fetches. now rewrite List.filter_app, length_app. Qed.

Lemma fetches_not_listing added : Forall not_listing added -> fetches added = 0%nat.
Proof.
  unfold fetches. induction 1 as [|ev added H _ IH]; [reflexivity|].
  cbn [List.filter]. unfold not_listing in H. now rewrite H.
Qed.

Lemma emits_getTableSchema t : emits not_listing (getTableSchema sdk t).
Proof. unfold getTableSchema. emits_tac. reflexivity. Qed.

Lemma emits_collect_schemas names schemas :
  emits not_listing (collect_schemas sdk names schemas).
Proof.
  revert schemas. induction names as [|n names IH]; intros schemas;
    cbn [collect_schemas]; emits_tac; auto using emits_getTableSchema.
Qed.

(** One listing at most per call of [listTables]. *)
Lemma listTables_fetches s :
  (fetches (trace (listTables sdk s).2) <= fetches (trace s) + 1)%nat.
Proof.
  unfold listTables, try_catch, bind, get, record_event, external, ret, throw.
  destruct (bigquery s); cbn [world]; [|simpl; lia].
  destruct (getTables sdk (BIGQUERY_DATASET (env sdk)) (world s))
    as [[e|tables] w]; cbn [snd trace]; rewrite fetches_app;
    cbn; lia.
Qed.

(** One listing at most per call of [getDatasetSchema]. *)
Lemma getDatasetSchema_fetches s :
  (fetches (trace (getDatasetSchema sdk s).2) <= fetches (trace s) + 1)%nat.
Proof.
  pose proof (listTables_fetches s) as HL.
  unfold getDatasetSchema, try_catch, bind, throw, ret.
  destruct (listTables sdk s) as [[e|names] s1]; cbn [snd] in *; [exact HL|].
  destruct (emits_collect_schemas names ∅ s1) as (_ & _ & added & Ht & Hf).
  destruct (collect_schemas sdk names ∅ s1) as [[e|m] s2]; cbn [snd] in *;
    rewrite Ht, fetches_app, (fetches_not_listing _ Hf); lia.
Qed.

(** A cache stamped at [t1] is served, without any call, to a request whose
    clock reads less than an hour past [t1]. *)
Lemma getSchema_hit s d t1 t2 w2 :
  cachedSchema s = Some d ->
  schemaLastUpdated s = Some t1 ->
  t1 <> 0 ->
  Date_now sdk (world s) = (t2, w2) ->
  t2 - t1 < SCHEMA_CACHE_DURATION ->
  getSchema sdk s = (Returns d, with_world w2 s).
Proof.
  intros C L Hne N Hlt.
  unfold getSchema, bind, external, get, with_world. rewrite N.
  cbn [cachedSchema schemaLastUpdated].
  rewrite C, L. cbn [truthy_time default from_option]. unfold id.
  rewrite (proj2 (Z.eqb_neq t1 0) Hne).
  rewrite (proj2 (Z.ltb_lt (t2 - t1) SCHEMA_CACHE_DURATION) Hlt).
  reflexivity.
Qed.

(** A request that finds no cache it can serve fetches the schema and, when
    the fetch succeeds, stamps it with its own clock reading. *)
Lemma refresh_schema_returns t s d s1 :
  getDatasetSchema sdk s = (Returns d, s1) ->
  refresh_schema sdk t s = (Returns d, cached_at d t s1).
Proof.
  intros G. unfold refresh_schema.
  erewrite try_returns; [reflexivity|].
  now erewrite bind_returns by exact G.
Qed.

Lemma getSchema_miss s t1 w1 d s1 :
  Date_now sdk (world s) = (t1, w1) ->
  cache_fresh s t1 = false ->
  getDatasetSchema sdk (with_world w1 s) = (Returns d, s1) ->
  getSchema sdk s = (Returns d, cached_at d t1 s1).
Proof.
  intros N F G.
  unfold getSchema, bind, external, get. rewrite N.
  cbn [cachedSchema schemaLastUpdated].
  unfold cache_fresh in F. unfold with_world in G.
  destruct (cachedSchema s) as [c|]; [rewrite F|];
    now apply refresh_schema_returns.
Qed.

(** C7.  A first call that has to fetch, at a clock reading [t1] after the
    epoch, and whose fetch succeeds, followed by a second call whose clock
    reads less than an hour past [t1]: the second call returns the schema of
    the first from the cache and issues no call of its own, and the two calls
    together list the tables of the warehouse at most once. *)
Theorem getSchema_twice_fetches_once s t1 w1 d s1 t2 w2 :
  Date_now sdk (world s) = (t1, w1) ->
  0 < t1 ->
  cache_fresh s t1 = false ->
  getDatasetSchema sdk (with_world w1 s) = (Returns d, s1) ->
  Date_now sdk (world s1) = (t2, w2) ->
  t2 - t1 < SCHEMA_CACHE_DURATION ->
  getSchema sdk s = (Returns d, cached_at d t1 s1)
  /\ getSchema sdk (cached_at d t1 s1)
     = (Returns d, with_world w2 (cached_at d t1 s1))
  /\ trace (getSchema sdk (cached_at d t1 s1)).2 = trace (cached_at d t1 s1)
  /\ (fetches (trace (getSchema sdk (cached_at d t1 s1)).2)
      <= fetches (trace s) + 1)%nat.
Proof.
  intros N1 Hpos F G N2 Hlt.
  assert (getSchema sdk (cached_at d t1 s1)
          = (Returns d, with_world w2 (cached_at d t1 s1))) as Hhit.
  { apply (getSchema_hit _ d t1 t2 w2); try reflexivity; try assumption. lia. }
  split; [eapply getSchema_miss; eassumption|]. split; [exact Hhit|].
  rewrite Hhit. cbn [snd]. split; [reflexivity|].
  pose proof (getDatasetSchema_fetches (with_world w1 s)) as HF.
  rewrite G in HF. exact HF.
Qed.

End Cache.


Lemma getSchema_twice_fetches_once_witness :
  getSchema cooperative start = (Returns demo_schema, first_served)
  /\ getSchema cooperative first_served
     = (Returns demo_schema, with_world 121000 first_served)
  /\ trace (getSchema cooperative first_served).2 = trace first_served
  /\ (fetches (trace (getSchema cooperative first_served).2)
      <= fetches (trace start) + 1)%nat.
Proof.
  apply (getSchema_twice_fetches_once cooperative start
           1000 61000 demo_schema
           (getDatasetSchema cooperative (with_world 61000 start)).2
           61000 121000);
    vm_compute; reflexivity.
Defined.

(** The schema of the scenarios: the table that cannot be read is left out. *)
Example getDatasetSchema_demo :
  (getDatasetSchema cooperative (initial 1000 true)).1 = Returns demo_schema.
Proof. vm_compute. reflexivity. Qed.

(** With the clock reading 0 at the fetch, the stamp is falsy and the next
    call fetches again. *)
Example getSchema_epoch_refetches :
  fetches (trace (getSchema cooperative (getSchema cooperative (initial 0 true)).2).2)
  = 2%nat.
Proof. vm_compute. reflexivity. Qed.

(** ** The scenarios of the specification *)

(** A question about data, answered by a cooperative model. *)
Example processMessage_data :
  (processMessage cooperative question demo_schema
     (callback (executeQuery cooperative)) start).1
  = Returns (mkChatOutcome true "127 professores"
               (Val "SELECT nome FROM `dashboard-educacao-ep-pr.dados_formacao.professores` LIMIT 100")
               (Val demo_rows) (Val data_type) Absent).
Proof. vm_compute. reflexivity. Qed.

(** The same model asked for a destructive statement: the generator hands
    it over, the executor refuses it, and the warehouse is not queried. *)
Example processMessage_destructive :
  (processMessage destructive question demo_schema
     (callback (executeQuery destructive)) start).1
  = Returns (mkChatOutcome false "Erro interno ao processar IA."
               Absent Absent Absent
               (Val "Erro ao consultar dados: Query SQL não permitida. Apenas comandos SELECT são aceitos."))
  /\ List.filter is_warehouse
       (trace (processMessage destructive question demo_schema
                 (callback (executeQuery destructive)) start).2)
     = [].
Proof. split; vm_compute; reflexivity. Qed.

(** A greeting, with the classifier unavailable: the length heuristic sends
    a short message to the conversational path, whose own fallback answers. *)
Example processMessage_greeting :
  (processMessage mute "Olá!" demo_schema (callback (executeQuery mute))
     start).1
  = Returns (mkChatOutcome true
               "Desculpe, estou tendo dificuldades para responder agora."
               Null Null (Val general) Absent).
Proof. vm_compute. reflexivity. Qed.

(** * Further properties of the code *)

(** ** The validator: letter case, white space, keywords *)

Lemma upper_char_idempotent c : JS.upper_char (JS.upper_char c) = JS.upper_char c.
Proof. destruct c as [[] [] [] [] [] [] [] []]; reflexivity. Qed.

Lemma toUpperCase_cons c s :
  JS.toUpperCase (String c s) = String (JS.upper_char c) (JS.toUpperCase s).
Proof. reflexivity. Qed.

Lemma append_cons c a b : String c a +:+ b = String c (a +:+ b).
Proof. reflexivity. Qed.

Lemma toUpperCase_idempotent s :
  JS.toUpperCase (JS.toUpperCase s) = JS.toUpperCase s.
Proof.
  induction s as [|c s IH]; [reflexivity|].
  rewrite !toUpperCase_cons. now rewrite upper_char_idempotent, IH.
Qed.

Lemma toUpperCase_app a b :
  JS.toUpperCase (a +:+ b) = JS.toUpperCase a +:+ JS.toUpperCase b.
Proof.
  induction a as [|c a IH]; [reflexivity|].
  rewrite append_cons, !toUpperCase_cons, append_cons. now rewrite IH.
Qed.

Lemma upper_char_space c : JS.is_space c = true -> JS.upper_char c = c.
Proof. destruct c as [[] [] [] [] [] [] [] []]; (reflexivity || discriminate). Qed.

Lemma toUpperCase_space_prefix ws s :
  all_space ws = true -> JS.toUpperCase (ws +:+ s) = ws +:+ JS.toUpperCase s.
Proof.
  induction ws as [|c ws IH]; [reflexivity|].
  cbn [all_space]. intros H. apply andb_true_iff in H as [Hc Hws].
  rewrite append_cons, toUpperCase_cons, append_cons.
  now rewrite (upper_char_space _ Hc), IH.
Qed.

Lemma trim_space_prefix ws u : all_space ws = true -> JS.trim (ws +:+ u) = JS.trim u.
Proof.
  unfold JS.trim. induction ws as [|c ws IH]; [reflexivity|].
  cbn [all_space]. intros H. apply andb_true_iff in H as [Hc Hws].
  rewrite append_cons. cbn [JS.trimStart]. rewrite Hc. now apply IH.
Qed.

Lemma forbidden_not_at_space cmd c u :
  In cmd forbiddenCommands -> JS.is_space c = true ->
  JS.startsWith cmd (String c u) = false.
Proof.
  intros Hin Hc.
  assert (forall a rest, JS.is_space a = false ->
            JS.startsWith (String a rest) (String c u) = false) as Hne.
  { intros a rest Ha. unfold JS.startsWith; fold JS.startsWith.
    destruct (Ascii.eqb_spec a c) as [->|_]; [congruence | reflexivity]. }
  unfold forbiddenCommands in Hin. cbn [In] in Hin.
  repeat (destruct Hin as [<-|Hin]; [now apply Hne|]). destruct Hin.
Qed.

Lemma includes_space_prefix cmd ws u :
  In cmd forbiddenCommands -> all_space ws = true ->
  JS.includes cmd (ws +:+ u) = JS.includes cmd u.
Proof.
  intros Hin. induction ws as [|c ws IH]; [reflexivity|].
  cbn [all_space]. intros H. apply andb_true_iff in H as [Hc Hws].
  rewrite append_cons, includes_unfold.
  rewrite (forbidden_not_at_space _ _ _ Hin Hc). now apply IH.
Qed.

Lemma no_forbidden_ext cmds u u' :
  (forall cmd, In cmd cmds -> JS.includes cmd u = JS.includes cmd u') ->
  no_forbidden cmds u = no_forbidden cmds u'.
Proof.
  induction cmds as [|c cmds IH]; intros H; [reflexivity|].
  cbn [no_forbidden]. rewrite (H c) by now left.
  rewrite IH; [reflexivity|]. intros cmd Hin. apply H. now right.
Qed.

Lemma forbidden_upper cmd : In cmd forbiddenCommands -> JS.toUpperCase cmd = cmd.
Proof.
  unfold forbiddenCommands. cbn [In].
  intros H. repeat (destruct H as [<-|H]; [reflexivity|]). destruct H.
Qed.

(** The verdict of the validator does not depend on letter case:
    upper-casing a statement leaves it unchanged. *)
Lemma validateQuery_upper_case s :
  validateQuery (JS.toUpperCase s) = validateQuery s.
Proof. unfold validateQuery. now rewrite toUpperCase_idempotent. Qed.

(** X1.  White space in front of a statement does not change the verdict. *)
Theorem validateQuery_leading_space_any ws s :
  all_space ws = true -> validateQuery (ws +:+ s) = validateQuery s.
Proof.
  intros Hws. unfold validateQuery.
  rewrite (toUpperCase_space_prefix _ _ Hws), (trim_space_prefix _ _ Hws).
  rewrite (no_forbidden_ext forbiddenCommands (ws +:+ JS.toUpperCase s)
             (JS.toUpperCase s)); [reflexivity|].
  intros cmd Hin. now apply includes_space_prefix.
Qed.

Lemma validateQuery_leading_space_any_witness :
  all_space "
	  " = true
  /\ validateQuery ("
	  " +:+ "select 1") = validateQuery "select 1".
Proof.
  split; [reflexivity|].
  apply (validateQuery_leading_space_any "
	  " "select 1"). reflexivity.
Defined.

(** X2.  A statement in which a forbidden keyword occurs, in whatever letter
    case and wherever it stands (inside an identifier, inside a literal,
    after a valid SELECT), is rejected. *)
Theorem validateQuery_rejects_keyword_anywhere pre k post cmd :
  In cmd forbiddenCommands ->
  JS.toUpperCase k = cmd ->
  validateQuery (pre +:+ k +:+ post) = false.
Proof.
  intros Hin Hk. unfold validateQuery.
  destruct (no_forbidden forbiddenCommands
              (JS.toUpperCase (pre +:+ k +:+ post))) eqn:E; [|reflexivity].
  pose proof (proj1 (no_forbidden_spec _ _) E cmd Hin) as Hno.
  assert (JS.includes cmd (JS.toUpperCase (pre +:+ k +:+ post)) = true) as Hyes.
  { apply includes_spec. exists (JS.toUpperCase pre), (JS.toUpperCase post).
    now rewrite !toUpperCase_app, Hk. }
  congruence.
Qed.

Lemma validateQuery_rejects_keyword_anywhere_witness :
  validateQuery ("SELECT " +:+ "Update" +:+ "d_at FROM t") = false.
Proof.
  apply (validateQuery_rejects_keyword_anywhere "SELECT " "Update"
           "d_at FROM t" "UPDATE"); [|reflexivity].
  cbn. tauto.
Defined.

(** ** The executor: what it runs and what it reports *)

Section Executor.
  Context {W : Type} (sdk : SDK W).
  Implicit Types s : State W.

Lemma executeQuery_body sql s :
  bigquery s = true -> credentialsConfigured s = true ->
  validateQuery sql = true ->
  executeQuery sdk sql s
  = match query sdk sql
            (env_or (BIGQUERY_LOCATION (env sdk)) "southamerica-east1")
            (world s) with
    | (Returns rows, w) =>
        (Returns rows,
         after_call
           (EvQuery sql
              (env_or (BIGQUERY_LOCATION (env sdk)) "southamerica-east1")) w s)
    | (Throws error, w) =>
        (if JS.includes "Not found: Table" (message error) then
           throw (mkError "Tabela não encontrada no BigQuery. Verifique o nome da tabela.")
         else if JS.includes "Syntax error" (message error) then
           throw (mkError "Erro de sintaxe na query SQL. Por favor, reformule sua pergunta.")
         else if JS.includes "Permission denied" (message error)
                 || JS.includes "Access Denied" (message error) then
           throw (mkError "Sem permissão para acessar os dados. Verifique as credenciais e permissões da service account.")
         else
           throw (mkError ("Erro ao consultar dados: " +:+ message error)))
          (after_call
             (EvQuery sql
                (env_or (BIGQUERY_LOCATION (env sdk)) "southamerica-east1")) w s)
    end.
Proof.
  intros B C V.
  unfold executeQuery, try_catch, bind, get, record_event, external, ret.
  rewrite B, C, V. cbn [negb orb world].
  destruct (query sdk sql _ (world s)) as [[e|rows] w]; reflexivity.
Qed.

(** X3.  With the client configured, a statement the validator accepts is
    sent to the warehouse once, as it is, with the location of the
    environment or [southamerica-east1] when that is unset or empty; the
    rows of the warehouse are returned unchanged. *)
Theorem executeQuery_runs_accepted sql s rows w :
  bigquery s = true -> credentialsConfigured s = true ->
  validateQuery sql = true ->
  query sdk sql (env_or (BIGQUERY_LOCATION (env sdk)) "southamerica-east1")
    (world s) = (Returns rows, w) ->
  executeQuery sdk sql s
  = (Returns rows,
     after_call
       (EvQuery sql (env_or (BIGQUERY_LOCATION (env sdk)) "southamerica-east1"))
       w s)
  /\ (BIGQUERY_LOCATION (env sdk) = None
      \/ BIGQUERY_LOCATION (env sdk) = Some EmptyString ->
      env_or (BIGQUERY_LOCATION (env sdk)) "southamerica-east1"
      = "southamerica-east1").
Proof.
  intros B C V Q. split.
  - rewrite (executeQuery_body _ _ B C V), Q. reflexivity.
  - intros [->| ->]; reflexivity.
Qed.

(** X4.  An error of the warehouse is reported by its kind, tested in this
    order on its message: a missing table, a syntax error, a denied
    permission; any other error is reported with its message behind a
    generic prefix. *)
Theorem executeQuery_translates sql s error w :
  bigquery s = true -> credentialsConfigured s = true ->
  validateQuery sql = true ->
  query sdk sql (env_or (BIGQUERY_LOCATION (env sdk)) "southamerica-east1")
    (world s) = (Throws error, w) ->
  exists e,
    executeQuery sdk sql s
    = (Throws e,
       after_call
         (EvQuery sql
            (env_or (BIGQUERY_LOCATION (env sdk)) "southamerica-east1")) w s)
    /\ (JS.includes "Not found: Table" (message error) = true ->
        message e = "Tabela não encontrada no BigQuery. Verifique o nome da tabela.")
    /\ (JS.includes "Not found: Table" (message error) = false ->
        JS.includes "Syntax error" (message error) = true ->
        message e = "Erro de sintaxe na query SQL. Por favor, reformule sua pergunta.")
    /\ (JS.includes "Not found: Table" (message error) = false ->
        JS.includes "Syntax error" (message error) = false ->
        JS.includes "Permission denied" (message error) = true
        \/ JS.includes "Access Denied" (message error) = true ->
        message e = "Sem permissão para acessar os dados. Verifique as credenciais e permissões da service account.")
    /\ (JS.includes "Not found: Table" (message error) = false ->
        JS.includes "Syntax error" (message error) = false ->
        JS.includes "Permission denied" (message error) = false ->
        JS.includes "Access Denied" (message error) = false ->
        message e = "Erro ao consultar dados: " +:+ message error).
Proof.
  intros B C V Q. rewrite (executeQuery_body _ _ B C V), Q. unfold throw.
  destruct (JS.includes "Not found: Table" (message error)) eqn:E1;
    [|destruct (JS.includes "Syntax error" (message error)) eqn:E2;
      [|destruct (JS.includes "Permission denied" (message error)) eqn:E3;
        [|destruct (JS.includes "Access Denied" (message error)) eqn:E4]]];
    cbn [orb]; eexists; (split; [reflexivity|]);
    repeat split; intros; try reflexivity; try discriminate;
    match goal with H : _ \/ _ |- _ => destruct H; discriminate end.
Qed.

(** X5.  Whatever makes [executeQuery] fail, the error it throws is one of
    its three fixed messages or a message behind its generic prefix: no
    error of a collaborator leaves the function as it came. *)
Theorem executeQuery_errors sql s e s' :
  executeQuery sdk sql s = (Throws e, s') ->
  message e = "Tabela não encontrada no BigQuery. Verifique o nome da tabela."
  \/ message e = "Erro de sintaxe na query SQL. Por favor, reformule sua pergunta."
  \/ message e = "Sem permissão para acessar os dados. Verifique as credenciais e permissões da service account."
  \/ JS.startsWith "Erro ao consultar dados: " (message e) = true.
Proof.
  unfold executeQuery, try_catch, throw.
  match goal with |- context [match ?m s with _ => _ end] =>
    destruct (m s) as [[error|rows] s1] end; [|absurd_run].
  destruct (JS.includes "Not found: Table" (message error));
    [|destruct (JS.includes "Syntax error" (message error));
      [|destruct (JS.includes "Permission denied" (message error)
                  || JS.includes "Access Denied" (message error))]];
    intros H; inversion H; subst; cbn [message]; auto.
Qed.

End Executor.

Lemma executeQuery_runs_accepted_witness :
  executeQuery cooperative "SELECT 1" start
  = (Returns demo_rows,
     after_call (EvQuery "SELECT 1" "southamerica-east1") 1000 start)
  /\ (BIGQUERY_LOCATION (env cooperative) = None
      \/ BIGQUERY_LOCATION (env cooperative) = Some EmptyString ->
      env_or (BIGQUERY_LOCATION (env cooperative)) "southamerica-east1"
      = "southamerica-east1").
Proof.
  apply (executeQuery_runs_accepted cooperative "SELECT 1" start demo_rows 1000);
    reflexivity.
Defined.

Lemma executeQuery_translates_witness :
  exists e,
    executeQuery missing_table "SELECT 1" start
    = (Throws e, after_call (EvQuery "SELECT 1" "southamerica-east1") 1000 start)
    /\ message e = "Tabela não encontrada no BigQuery. Verifique o nome da tabela.".
Proof.
  destruct (executeQuery_translates missing_table "SELECT 1" start
              (mkError "Not found: Table dashboard-educacao-ep-pr:dados_formacao.professores was not found in location southamerica-east1")
              1000 eq_refl eq_refl eq_refl eq_refl)
    as (e & Hrun & Hmissing & _).
  exists e. split; [exact Hrun|]. apply Hmissing. reflexivity.
Defined.

Lemma executeQuery_errors_witness :
  message (mkError "Erro ao consultar dados: BigQuery não está configurado. Verifique se as credenciais foram definidas nas variáveis de ambiente.")
  = "Tabela não encontrada no BigQuery. Verifique o nome da tabela."
  \/ message (mkError "Erro ao consultar dados: BigQuery não está configurado. Verifique se as credenciais foram definidas nas variáveis de ambiente.")
     = "Erro de sintaxe na query SQL. Por favor, reformule sua pergunta."
  \/ message (mkError "Erro ao consultar dados: BigQuery não está configurado. Verifique se as credenciais foram definidas nas variáveis de ambiente.")
     = "Sem permissão para acessar os dados. Verifique as credenciais e permissões da service account."
  \/ JS.startsWith "Erro ao consultar dados: "
       (message (mkError "Erro ao consultar dados: BigQuery não está configurado. Verifique se as credenciais foram definidas nas variáveis de ambiente."))
     = true.
Proof.
  apply (executeQuery_errors cooperative "SELECT 1" (initial 1000 false)
           _ (initial 1000 false)).
  reflexivity.
Defined.

(** ** The schema provider: calls, entries, failures *)

Section Provider.
  Context {W : Type} (sdk : SDK W).
  Implicit Types s : State W.

Lemma getTableSchema_body t s :
  getTableSchema sdk t s
  = if bigquery s then
      match getMetadata sdk (BIGQUERY_DATASET (env sdk)) t (world s) with
      | (Returns metadata, w) =>
          (Returns (mkTableSchema t (map convert_field metadata)),
           after_call (EvGetMetadata t) w s)
      | (Throws _, w) =>
          (Throws (mkError ("Não foi possível obter informações da tabela " +:+ t)),
           after_call (EvGetMetadata t) w s)
      end
    else
      (Throws (mkError ("Não foi possível obter informações da tabela " +:+ t)), s).
Proof.
  unfold getTableSchema, try_catch, bind, get, record_event, external, ret,
    throw.
  destruct (bigquery s) eqn:B; [|reflexivity]. cbn [world].
  destruct (getMetadata sdk (BIGQUERY_DATASET (env sdk)) t (world s))
    as [[e|metadata] w]; unfold after_call; now rewrite B.
Qed.

(** X6.  [getTableSchema] answers with a schema named after the table it was
    asked for, with one field per field of the metadata, in the same order;
    whatever goes wrong, its error names the table; without a client it
    fails before any call. *)
Theorem getTableSchema_outcome t s :
  (forall r s',
     getTableSchema sdk t s = (r, s') ->
     match r with
     | Returns schema =>
         tableName schema = t
         /\ exists metadata,
              (getMetadata sdk (BIGQUERY_DATASET (env sdk)) t (world s)).1
              = Returns metadata
              /\ fields schema = map convert_field metadata
              /\ map name (fields schema) = map raw_name metadata
     | Throws e =>
         message e = "Não foi possível obter informações da tabela " +:+ t
     end)
  /\ (bigquery s = false ->
      getTableSchema sdk t s
      = (Throws (mkError ("Não foi possível obter informações da tabela " +:+ t)),
         s)).
Proof.
  rewrite getTableSchema_body. split.
  - intros r s'. destruct (bigquery s).
    + destruct (getMetadata sdk (BIGQUERY_DATASET (env sdk)) t (world s))
        as [[e|metadata] w]; intros H; inversion H; subst; [reflexivity|].
      split; [reflexivity|]. exists metadata. repeat split.
      cbn [fields]. rewrite map_map. reflexivity.
    + intros H; inversion H; subst. reflexivity.
  - now intros ->.
Qed.

Lemma listTables_body s :
  listTables sdk s
  = if bigquery s then
      match getTables sdk (BIGQUERY_DATASET (env sdk)) (world s) with
      | (Returns names, w) => (Returns names, after_call EvGetTables w s)
      | (Throws _, w) =>
          (Throws (mkError "Não foi possível listar as tabelas do dataset"),
           after_call EvGetTables w s)
      end
    else (Throws (mkError "Não foi possível listar as tabelas do dataset"), s).
Proof.
  unfold listTables, try_catch, bind, get, record_event, external, ret, throw.
  destruct (bigquery s) eqn:B; [|reflexivity]. cbn [world].
  destruct (getTables sdk (BIGQUERY_DATASET (env sdk)) (world s))
    as [[e|names] w]; unfold after_call; now rewrite B.
Qed.

(** X7.  [getDatasetSchema] fails exactly when the listing of the tables
    fails, always with the same message; no table can make it fail. *)
Theorem getDatasetSchema_fails_with_listing s :
  (forall e s',
     getDatasetSchema sdk s = (Throws e, s') ->
     message e = "Não foi possível obter o schema do dataset"
     /\ exists e0, listTables sdk s = (Throws e0, s'))
  /\ (forall e0 s',
        listTables sdk s = (Throws e0, s') ->
        getDatasetSchema sdk s
        = (Throws (mkError "Não foi possível obter o schema do dataset"), s')).
Proof.
  split.
  - intros e s'. unfold getDatasetSchema, try_catch, bind, throw.
    destruct (listTables sdk s) as [[e0|names] s1].
    + intros H. inversion H; subst. split; [reflexivity | now exists e0].
    + destruct (collect_schemas_total sdk names ∅ s1) as (m & s2 & ->).
      intros H. discriminate H.
  - intros e0 s' H. unfold getDatasetSchema.
    erewrite try_throws; [reflexivity|].
    now erewrite bind_throws by exact H.
Qed.

Lemma collect_schemas_trace names schemas s :
  bigquery s = true ->
  bigquery (collect_schemas sdk names schemas s).2 = true
  /\ trace (collect_schemas sdk names schemas s).2
     = trace s ++ map EvGetMetadata names.
Proof.
  revert schemas s. induction names as [|n names IH]; intros schemas s B.
  - cbn. split; [exact B | now rewrite app_nil_r].
  - cbn [collect_schemas map]. unfold bind at 1, try_catch, bind.
    rewrite getTableSchema_body, B.
    destruct (getMetadata sdk (BIGQUERY_DATASET (env sdk)) n (world s))
      as [[e|metadata] w]; unfold ret;
      match goal with
      | |- context [collect_schemas sdk names ?m ?st] =>
          destruct (IH m st B) as [HB HT]; split; [exact HB|];
          rewrite HT; cbn [trace after_call]; now rewrite <- app_assoc
      end.
Qed.

(** X8.  When the listing succeeds, [getDatasetSchema] issues one listing
    and then one metadata call per listed table, in the order of the listing,
    whether or not the earlier ones failed. *)
Theorem getDatasetSchema_calls s names s1 :
  listTables sdk s = (Returns names, s1) ->
  trace (getDatasetSchema sdk s).2
  = trace s ++ EvGetTables :: map EvGetMetadata names.
Proof.
  intros L. pose proof L as L'. rewrite listTables_body in L'.
  destruct (bigquery s) eqn:B; [|discriminate L'].
  destruct (getTables sdk (BIGQUERY_DATASET (env sdk)) (world s))
    as [[e|names'] w]; [discriminate L'|].
  inversion L'; subst names' s1; clear L'.
  destruct (collect_schemas_trace names ∅ (after_call EvGetTables w s) B)
    as [_ HT].
  unfold getDatasetSchema, try_catch, bind, throw, ret. rewrite L.
  destruct (collect_schemas sdk names ∅ (after_call EvGetTables w s))
    as [[e|m] s2]; cbn [snd] in *; rewrite HT; cbn [trace after_call];
    now rewrite <- app_assoc.
Qed.

Lemma getTableSchema_named t s schema s' :
  getTableSchema sdk t s = (Returns schema, s') -> tableName schema = t.
Proof.
  rewrite getTableSchema_body. destruct (bigquery s); [|absurd_run].
  destruct (getMetadata sdk (BIGQUERY_DATASET (env sdk)) t (world s))
    as [[e|metadata] w]; intros H; inversion H; reflexivity.
Qed.

Lemma collect_schemas_entries names :
  forall (schemas : gmap string TableSchema) s m s',
    collect_schemas sdk names schemas s = (Returns m, s') ->
    forall k entry,
      m !! k = Some entry ->
      schemas !! k = Some entry \/ (In k names /\ tableName entry = k).
Proof.
  induction names as [|n names IH]; intros schemas s m s' H k entry Hk.
  - inversion H; subst. now left.
  - cbn [collect_schemas] in H.
    apply bind_inv_returns in H as (m1 & s1 & H1 & H).
    destruct (IH _ _ _ _ H k entry Hk) as [Hin|[Hin Hname]];
      [|right; split; [now right | exact Hname]].
    unfold try_catch, bind, ret in H1.
    destruct (getTableSchema sdk n s) as [[e|t] s0] eqn:G;
      inversion H1; subst; [now left|].
    unfold assign in Hin.
    destruct (String.eqb n "__proto__"); [now left|].
    rewrite lookup_insert in Hin.
    destruct (decide (n = k)) as [<-|Hne]; [|now left].
    inversion Hin; subst. right. split; [now left|].
    eapply getTableSchema_named; eauto.
Qed.

(** X9.  In the summary [getDatasetSchema] returns, every key of [tables]
    is one of the listed tables and its entry is the schema named after that
    key. *)
Theorem getDatasetSchema_entries s d s' k entry :
  getDatasetSchema sdk s = (Returns d, s') ->
  tables d !! k = Some entry ->
  tableName entry = k
  /\ exists names s1, listTables sdk s = (Returns names, s1) /\ In k names.
Proof.
  intros H Hk. unfold getDatasetSchema in H. apply try_inv_returns in H.
  apply bind_inv_returns in H as (names & s1 & L & H).
  apply bind_inv_returns in H as (m & s2 & C & H).
  inversion H; subst. cbn [tables] in Hk.
  destruct (collect_schemas_entries _ _ _ _ _ C k entry Hk) as [He|[Hin Hn]].
  - rewrite lookup_empty in He. discriminate He.
  - split; [exact Hn|]. now exists names, s1.
Qed.

(** X10.  [testConnection] never returns [false]: it returns [true] or
    throws.  Without a configured client it throws before asking the
    warehouse; a dataset that does not exist is an error naming the dataset;
    an error of the check itself is thrown on as it is. *)
Theorem testConnection_outcome
    (dataset_exists : option string -> W -> Outcome bool * W) s :
  (forall b s', testConnection sdk dataset_exists s = (Returns b, s') -> b = true)
  /\ (bigquery s = false \/ credentialsConfigured s = false ->
      testConnection sdk dataset_exists s
      = (Throws (mkError "BigQuery não está configurado. Verifique se GOOGLE_CREDENTIALS está definido nas variáveis de ambiente do Render."),
         s))
  /\ (forall w,
        bigquery s = true -> credentialsConfigured s = true ->
        dataset_exists (BIGQUERY_DATASET (env sdk)) (world s) = (Returns false, w) ->
        testConnection sdk dataset_exists s
        = (Throws (mkError ("Dataset " +:+ env_text (BIGQUERY_DATASET (env sdk))
                            +:+ " não encontrado")),
           with_world w s))
  /\ (forall e w,
        bigquery s = true -> credentialsConfigured s = true ->
        dataset_exists (BIGQUERY_DATASET (env sdk)) (world s) = (Throws e, w) ->
        testConnection sdk dataset_exists s = (Throws e, with_world w s)).
Proof.
  unfold testConnection, try_catch, bind, get, external, ret, throw.
  destruct (bigquery s) eqn:B, (credentialsConfigured s) eqn:C; cbn [negb orb];
    (split; [intros b s' H|split; [intros [H|H]; (discriminate H || reflexivity)
      |split; [intros w H1 H2 H|intros e w H1 H2 H]]]);
    try discriminate;
    try (destruct (dataset_exists (BIGQUERY_DATASET (env sdk)) (world s))
           as [[e'|[]] w'];
         inversion H; subst; unfold with_world; rewrite ?B, ?C; reflexivity).
Qed.

End Provider.

Lemma getTableSchema_outcome_witness :
  message (mkError "Não foi possível obter informações da tabela quebrada")
  = "Não foi possível obter informações da tabela " +:+ "quebrada".
Proof.
  apply (proj1 (getTableSchema_outcome cooperative "quebrada" start)
           (Throws (mkError "Não foi possível obter informações da tabela quebrada"))
           (after_call (EvGetMetadata "quebrada") 1000 start)).
  reflexivity.
Defined.

Lemma getDatasetSchema_fails_with_listing_witness :
  getDatasetSchema no_listing start
  = (Throws (mkError "Não foi possível obter o schema do dataset"),
     after_call EvGetTables 1000 start).
Proof.
  apply (proj2 (getDatasetSchema_fails_with_listing no_listing start)
           (mkError "Não foi possível listar as tabelas do dataset")).
  reflexivity.
Defined.

Lemma getDatasetSchema_calls_witness :
  trace (getDatasetSchema cooperative start).2
  = trace start ++ EvGetTables
      :: map EvGetMetadata ["professores"; "quebrada"; "notas"].
Proof.
  apply (getDatasetSchema_calls cooperative start
           ["professores"; "quebrada"; "notas"]
           (after_call EvGetTables 1000 start)).
  reflexivity.
Defined.

Lemma getDatasetSchema_entries_witness :
  tableName (mkTableSchema "notas" [mkField "nota" "FLOAT" None EmptyString])
  = "notas"
  /\ exists names s1,
       listTables cooperative start = (Returns names, s1) /\ In "notas" names.
Proof.
  apply (getDatasetSchema_entries cooperative start demo_schema
           (getDatasetSchema cooperative start).2);
    vm_compute; reflexivity.
Defined.

Lemma testConnection_outcome_witness :
  testConnection cooperative (fun _ w => (Returns false, w)) start
  = (Throws (mkError "Dataset dados_formacao não encontrado"),
     with_world 1000 start).
Proof.
  apply (proj1 (proj2 (proj2
           (testConnection_outcome cooperative (fun _ w => (Returns false, w))
              start))) 1000); reflexivity.
Defined.

(** ** The schema cache: stale answers, expiry, clearing *)

Section CacheEdges.
  Context {W : Type} (sdk : SDK W).
  Implicit Types s : State W.

(** A failed fetch leaves the cache slots as they were. *)
Lemma getDatasetSchema_failure_keeps_cache s e s1 :
  getDatasetSchema sdk s = (Throws e, s1) ->
  cachedSchema s1 = cachedSchema s
  /\ schemaLastUpdated s1 = schemaLastUpdated s.
Proof.
  unfold getDatasetSchema, try_catch, bind, throw.
  rewrite listTables_body.
  destruct (bigquery s).
  - destruct (getTables sdk (BIGQUERY_DATASET (env sdk)) (world s))
      as [[e0|names] w].
    + intros H. inversion H; subst. now split.
    + destruct (collect_schemas_total sdk names ∅ (after_call EvGetTables w s))
        as (m & s2 & ->). absurd_run.
  - intros H. inversion H; subst. now split.
Qed.

Lemma refresh_schema_throws t s e s1 :
  getDatasetSchema sdk s = (Throws e, s1) ->
  refresh_schema sdk t s
  = match cachedSchema s with
    | Some old => (Returns old, s1)
    | None => (Throws e, s1)
    end.
Proof.
  intros G. destruct (getDatasetSchema_failure_keeps_cache _ _ _ G) as [C _].
  unfold refresh_schema.
  erewrite try_throws by (erewrite bind_throws by exact G; reflexivity).
  unfold bind, get. rewrite C. now destruct (cachedSchema s).
Qed.

Lemma getSchema_refreshes s t w :
  Date_now sdk (world s) = (t, w) ->
  cache_fresh s t = false ->
  getSchema sdk s = refresh_schema sdk t (with_world w s).
Proof.
  intros N F. unfold getSchema, bind, external, get. rewrite N.
  cbn [cachedSchema schemaLastUpdated]. unfold cache_fresh in F.
  unfold with_world. destruct (cachedSchema s); [now rewrite F | reflexivity].
Qed.

(** X11.  When the cache cannot be served and the fetch fails: with an
    old schema in the cache, the old schema is served all the same and the
    cache keeps its old stamp, so the next request tries to fetch again; with
    nothing in the cache, [getSchema] throws what [getDatasetSchema] threw,
    its one generic message. *)
Theorem getSchema_when_fetch_fails s t w e s1 :
  Date_now sdk (world s) = (t, w) ->
  cache_fresh s t = false ->
  getDatasetSchema sdk (with_world w s) = (Throws e, s1) ->
  match cachedSchema s with
  | Some old =>
      getSchema sdk s = (Returns old, s1)
      /\ cachedSchema s1 = Some old
      /\ schemaLastUpdated s1 = schemaLastUpdated s
  | None =>
      getSchema sdk s = (Throws e, s1)
      /\ message e = "Não foi possível obter o schema do dataset"
  end.
Proof.
  intros N F G.
  destruct (getDatasetSchema_failure_keeps_cache _ _ _ G) as [C1 L1].
  cbn [with_world cachedSchema schemaLastUpdated] in C1, L1.
  rewrite (getSchema_refreshes _ _ _ N F), (refresh_schema_throws _ _ _ _ G).
  cbn [with_world cachedSchema].
  destruct (cachedSchema s) as [old|].
  - split; [reflexivity|]. split; [exact C1 | exact L1].
  - split; [reflexivity|].
    revert G. unfold getDatasetSchema, try_catch, throw.
    match goal with |- context [match ?m ?st with _ => _ end] =>
      destruct (m st) as [[e0|d] s0] end; intros H; now inversion H.
Qed.

(** X12.  A cache stamped a full hour ago or more is not served: the schema
    is fetched again and, when the fetch succeeds, the new schema is stored
    with the new stamp. *)
Theorem getSchema_expired_refetches s old t1 t2 w d s1 :
  cachedSchema s = Some old ->
  schemaLastUpdated s = Some t1 ->
  Date_now sdk (world s) = (t2, w) ->
  SCHEMA_CACHE_DURATION <= t2 - t1 ->
  getDatasetSchema sdk (with_world w s) = (Returns d, s1) ->
  getSchema sdk s = (Returns d, cached_at d t2 s1).
Proof.
  intros C L N Hexp G.
  assert (cache_fresh s t2 = false) as F.
  { unfold cache_fresh. rewrite C, L. cbn [default from_option]. unfold id.
    rewrite (proj2 (Z.ltb_ge (t2 - t1) SCHEMA_CACHE_DURATION) Hexp).
    apply andb_false_r. }
  rewrite (getSchema_refreshes _ _ _ N F).
  now apply refresh_schema_returns.
Qed.

(** X13.  After [POST /clear-cache] the next request has to fetch: it
    returns what the fetch returns and fails when the fetch fails, whatever
    was in the cache before. *)
Theorem clear_cache_forces_fetch s t w :
  Date_now sdk (world s) = (t, w) ->
  (forall d s1,
     getDatasetSchema sdk (with_world w (cleared s)) = (Returns d, s1) ->
     bind clear_cache (fun _ => getSchema sdk) s
     = (Returns d, cached_at d t s1))
  /\ (forall e s1,
        getDatasetSchema sdk (with_world w (cleared s)) = (Throws e, s1) ->
        bind clear_cache (fun _ => getSchema sdk) s = (Throws e, s1)).
Proof.
  intros N.
  assert (clear_cache s = (Returns tt, cleared s)) as Hc by reflexivity.
  assert (cache_fresh (cleared s) t = false) as F by reflexivity.
  assert (Date_now sdk (world (cleared s)) = (t, w)) as N' by exact N.
  split.
  - intros d s1 G. erewrite bind_returns by exact Hc.
    rewrite (getSchema_refreshes _ _ _ N' F). now apply refresh_schema_returns.
  - intros e s1 G. erewrite bind_returns by exact Hc.
    rewrite (getSchema_refreshes _ _ _ N' F), (refresh_schema_throws _ _ _ _ G).
    reflexivity.
Qed.

End CacheEdges.

Lemma getSchema_when_fetch_fails_witness :
  getSchema no_listing (served_at 1000)
  = (Returns demo_schema, after_call EvGetTables 5060000 (served_at 1000))
  /\ cachedSchema (after_call EvGetTables 5060000 (served_at 1000))
     = Some demo_schema
  /\ schemaLastUpdated (after_call EvGetTables 5060000 (served_at 1000))
     = schemaLastUpdated (served_at 1000).
Proof.
  apply (getSchema_when_fetch_fails no_listing (served_at 1000) 5000000
           5060000 (mkError "Não foi possível obter o schema do dataset"));
    reflexivity.
Defined.

Lemma getSchema_expired_refetches_witness :
  getSchema cooperative (served_at 1400000)
  = (Returns demo_schema,
     cached_at demo_schema 5000000
       (getDatasetSchema cooperative (with_world 5060000 (served_at 1400000))).2).
Proof.
  apply (getSchema_expired_refetches cooperative (served_at 1400000)
           demo_schema 1400000 5000000 5060000);
    vm_compute; try reflexivity. discriminate.
Defined.

Lemma clear_cache_forces_fetch_witness :
  bind clear_cache (fun _ => getSchema no_listing) (served_at 4999000)
  = (Throws (mkError "Não foi possível obter o schema do dataset"),
     after_call EvGetTables 5060000 (cleared (served_at 4999000))).
Proof.
  apply (proj2 (clear_cache_forces_fetch no_listing (served_at 4999000)
                  5000000 5060000 eq_refl)).
  reflexivity.
Defined.

(** ** The choice of the model *)

Section ModelName.
  Context {W : Type} (sdk : SDK W).
  Implicit Types s : State W.

Lemma now_run s :
  now sdk s = (Returns (Date_now sdk (world s)).1,
               with_world (Date_now sdk (world s)).2 s).
Proof.
  unfold now, external. destruct (Date_now sdk (world s)) as [t w]. reflexivity.
Qed.

Lemma probe_step c rest s :
  probe_candidates sdk (c :: rest) s
  = match generateContent sdk (mkModelParams c None None) "Ok" (world s) with
    | (Returns _, w1) =>
        (Returns (Some c),
         model_cached c (Date_now sdk w1).1
           (after_call (probe_event c) (Date_now sdk w1).2 s))
    | (Throws _, w1) =>
        probe_candidates sdk rest (after_call (probe_event c) w1 s)
    end.
Proof.
  cbn [probe_candidates].
  unfold generate, try_catch, bind, record_event, external,
    set_cachedModelName, set_cacheTimestamp, ret. cbn [world].
  destruct (generateContent sdk (mkModelParams c None None) "Ok" (world s))
    as [[e|response] w1]; [reflexivity|].
  rewrite now_run. reflexivity.
Qed.

Lemma refused_trace cs s s' :
  refused sdk cs s s' -> trace s' = trace s ++ map probe_event cs.
Proof.
  induction 1 as [s|c cs s e w s' G _ IH]; [now rewrite app_nil_r|].
  rewrite IH. cbn [trace after_call map]. now rewrite <- app_assoc.
Qed.

(** X14.  [getModelName] probes its candidates one after the other, in
    their order, and stops at the first one that answers, which it stores as
    the cached name with the time read after that probe: the candidates
    before it have all been probed and have failed, the ones after it are not
    probed.  It gives up only when every candidate has been probed and has
    failed. *)
Theorem probe_candidates_in_order cs s r s' :
  probe_candidates sdk cs s = (r, s') ->
  (r = Returns None
   /\ refused sdk cs s s'
   /\ trace s' = trace s ++ map probe_event cs)
  \/ (exists pre c post s1 response w1,
        cs = pre ++ c :: post
        /\ refused sdk pre s s1
        /\ generateContent sdk (mkModelParams c None None) "Ok" (world s1)
           = (Returns response, w1)
        /\ r = Returns (Some c)
        /\ s' = model_cached c (Date_now sdk w1).1
                  (after_call (probe_event c) (Date_now sdk w1).2 s1)
        /\ trace s' = trace s ++ map probe_event (pre ++ [c])
        /\ _cachedModelName s' = Some c).
Proof.
  revert s. induction cs as [|c cs IH]; intros s H.
  - inversion H; subst. left. split; [reflexivity|].
    split; [constructor | now rewrite app_nil_r].
  - rewrite probe_step in H.
    destruct (generateContent sdk (mkModelParams c None None) "Ok" (world s))
      as [[e|response] w1] eqn:G.
    + destruct (IH _ H)
        as [(-> & Hr & Ht)
           |(pre & c' & post & s1 & response & w2 & -> & Hr & G' & -> & -> & Ht & Hn)].
      * left. split; [reflexivity|]. split; [econstructor; eassumption|].
        rewrite Ht. cbn [trace after_call map]. now rewrite <- app_assoc.
      * right. exists (c :: pre), c', post, s1, response, w2.
        split; [reflexivity|]. split; [econstructor; eassumption|].
        split; [exact G'|]. split; [reflexivity|]. split; [reflexivity|].
        split; [|exact Hn].
        rewrite Ht. cbn [trace after_call map app]. now rewrite <- app_assoc.
    + inversion H; subst. right. exists [], c, cs, s, response, w1.
      split; [reflexivity|]. split; [constructor|]. split; [exact G|].
      repeat split.
Qed.

Lemma probe_candidates_returns cs s :
  exists r s', probe_candidates sdk cs s = (Returns r, s')
               /\ forall n, r = Some n ->
                    _cachedModelName s' = Some n
                    /\ exists t, _cacheTimestamp s' = Some t.
Proof.
  revert s. induction cs as [|c cs IH]; intros s.
  - exists None, s. split; [reflexivity | discriminate].
  - rewrite probe_step.
    destruct (generateContent sdk (mkModelParams c None None) "Ok" (world s))
      as [[e|response] w1]; [apply IH|].
    eexists _, _. split; [reflexivity|]. intros n Hn. inversion Hn; subst.
    split; [reflexivity | now eexists].
Qed.

Lemma list_fallback_returns s :
  exists r s', list_fallback sdk s = (Returns r, s')
               /\ forall n, r = Some n ->
                    _cachedModelName s' = Some n
                    /\ exists t, _cacheTimestamp s' = Some t.
Proof.
  unfold list_fallback, try_catch.
  destruct (listModels sdk) as [call|].
  - unfold bind, record_event, external, set_cachedModelName,
      set_cacheTimestamp, ret. cbn [world].
    destruct (call (world s)) as [[e|modelsList] w1].
    + eexists None, _. split; [reflexivity | discriminate].
    + destruct (List.find is_gemini_fallback modelsList) as [fallback|].
      * rewrite now_run. eexists _, _. split; [reflexivity|].
        intros n Hn. inversion Hn; subst. split; [reflexivity | now eexists].
      * eexists None, _. split; [reflexivity | discriminate].
  - exists None, s. split; [reflexivity | discriminate].
Qed.

Lemma model_cache_valid_run s :
  model_cache_valid sdk s
  = match _cachedModelName s with
    | Some n =>
        if JS.truthy n && truthy_time (_cacheTimestamp s) then
          (Returns ((Date_now sdk (world s)).1
                    - default 0 (_cacheTimestamp s) <? CACHE_DURATION),
           with_world (Date_now sdk (world s)).2 s)
        else (Returns false, s)
    | None => (Returns false, s)
    end.
Proof.
  unfold model_cache_valid, bind, get.
  destruct (_cachedModelName s) as [n|]; [|reflexivity].
  destruct (JS.truthy n && truthy_time (_cacheTimestamp s)); [|reflexivity].
  now rewrite now_run.
Qed.

(** X15.  Within five minutes of the stamp, the cached model name is
    returned as it is, without a call to the model. *)
Theorem getModelName_serves_cache s n t t2 w :
  _cachedModelName s = Some n ->
  n <> EmptyString ->
  _cacheTimestamp s = Some t ->
  t <> 0 ->
  Date_now sdk (world s) = (t2, w) ->
  t2 - t < CACHE_DURATION ->
  getModelName sdk s = (Returns n, with_world w s).
Proof.
  intros C Hn T Ht N Hlt.
  unfold getModelName.
  erewrite bind_returns.
  2:{ rewrite model_cache_valid_run, C, T, N.
      rewrite (proj2 (truthy_nonempty n) Hn). cbn [truthy_time andb fst snd].
      rewrite (proj2 (Z.eqb_neq t 0) Ht). cbn [negb default from_option].
      unfold id. rewrite (proj2 (Z.ltb_lt (t2 - t) CACHE_DURATION) Hlt).
      reflexivity. }
  unfold bind, get, ret. cbn [with_world _cachedModelName]. now rewrite C.
Qed.

Lemma model_cache_valid_returns s :
  exists b s0,
    model_cache_valid sdk s = (Returns b, s0)
    /\ _cachedModelName s0 = _cachedModelName s
    /\ _cacheTimestamp s0 = _cacheTimestamp s
    /\ (b = true ->
        exists n t, _cachedModelName s = Some n /\ _cacheTimestamp s = Some t).
Proof.
  rewrite model_cache_valid_run.
  destruct (_cachedModelName s) as [n|] eqn:C;
    [|exists false, s; repeat split; (reflexivity || assumption || absurd_run)].
  destruct (JS.truthy n && truthy_time (_cacheTimestamp s)) eqn:V;
    [|exists false, s; repeat split; (reflexivity || assumption || absurd_run)].
  eexists _, _. split; [reflexivity|].
  split; [exact C|]. split; [reflexivity|]. intros _.
  apply andb_true_iff in V as [_ V].
  destruct (_cacheTimestamp s) as [t|]; [now exists n, t | discriminate V].
Qed.

Lemma getModelName_run s b s0 :
  model_cache_valid sdk s = (Returns b, s0) ->
  getModelName sdk s
  = if b then (Returns (default EmptyString (_cachedModelName s0)), s0)
    else
      match probe_candidates sdk (candidates sdk) s0 with
      | (Returns (Some n), s1) => (Returns n, s1)
      | (Returns None, s1) =>
          match list_fallback sdk s1 with
          | (Returns (Some n), s2) => (Returns n, s2)
          | (Returns None, s2) =>
              (Throws (mkError "Nenhum modelo Gemini compatível encontrado. Verifique sua API Key."),
               s2)
          | (Throws e, s2) => (Throws e, s2)
          end
      | (Throws e, s1) => (Throws e, s1)
      end.
Proof.
  intros Hv. unfold getModelName, bind, get, ret, throw. rewrite Hv.
  destruct b; [reflexivity|].
  destruct (probe_candidates sdk (candidates sdk) s0) as [[e|[n|]] s1];
    try reflexivity.
  destruct (list_fallback sdk s1) as [[e|[n|]] s2]; reflexivity.
Qed.

Lemma getModelName_cases s :
  (exists n s',
     getModelName sdk s = (Returns n, s')
     /\ _cachedModelName s' = Some n /\ exists t, _cacheTimestamp s' = Some t)
  \/ (exists s',
        getModelName sdk s
        = (Throws (mkError "Nenhum modelo Gemini compatível encontrado. Verifique sua API Key."),
           s')).
Proof.
  destruct (model_cache_valid_returns s) as (b & s0 & Hv & C0 & T0 & Hb).
  rewrite (getModelName_run _ _ _ Hv). destruct b.
  - destruct (Hb eq_refl) as (n & t & C & T). left.
    exists n, s0. rewrite C0, C. split; [reflexivity|].
    split; [reflexivity|]. exists t. congruence.
  - destruct (probe_candidates_returns (candidates sdk) s0)
      as (r & s1 & Hp & Hr).
    rewrite Hp. destruct r as [n1|].
    + left. exists n1, s1. split; [reflexivity | now apply Hr].
    + destruct (list_fallback_returns s1) as (r2 & s2 & Hl & Hr2).
      rewrite Hl. destruct r2 as [n2|].
      * left. exists n2, s2. split; [reflexivity | now apply Hr2].
      * right. exists s2. reflexivity.
Qed.

(** X16.  The name [getModelName] returns is the name its cache holds
    afterwards, with a stamp; and its only error is the one that says that
    no model was found. *)
Theorem getModelName_outcome s :
  (forall n s',
     getModelName sdk s = (Returns n, s') ->
     _cachedModelName s' = Some n /\ exists t, _cacheTimestamp s' = Some t)
  /\ (forall e s',
        getModelName sdk s = (Throws e, s') ->
        message e = "Nenhum modelo Gemini compatível encontrado. Verifique sua API Key.").
Proof.
  destruct (getModelName_cases s) as [(n0 & s0 & -> & C & T)|(s0 & ->)]; split.
  - intros n s' H. inversion H; subst. now split.
  - intros e s' H. discriminate H.
  - intros n s' H. discriminate H.
  - intros e s' H. now inversion H.
Qed.

(** X17.  The override of the environment comes first: when [GEMINI_MODEL]
    is set to a name that is not empty and that model answers the probe, a
    request that finds no cached name gets the override, after one probe;
    an override that is unset or empty is not probed at all. *)
Theorem getModelName_override s m response w1 :
  _cachedModelName s = None ->
  GEMINI_MODEL (env sdk) = Some m ->
  m <> EmptyString ->
  generateContent sdk (mkModelParams m None None) "Ok" (world s)
  = (Returns response, w1) ->
  getModelName sdk s
  = (Returns m,
     model_cached m (Date_now sdk w1).1
       (after_call (probe_event m) (Date_now sdk w1).2 s)).
Proof.
  intros C E Hm G. unfold getModelName.
  erewrite bind_returns by (rewrite model_cache_valid_run, C; reflexivity).
  unfold bind at 1, get.
  assert (candidates sdk = m :: builtin_candidates) as ->.
  { unfold candidates. rewrite E. cbn [env_or]. unfold JS.or_else.
    rewrite (proj2 (truthy_nonempty m) Hm). cbn [List.filter].
    now rewrite (proj2 (truthy_nonempty m) Hm). }
  erewrite bind_returns by (rewrite probe_step, G; reflexivity).
  reflexivity.
Qed.

Lemma candidates_without_override :
  GEMINI_MODEL (env sdk) = None \/ GEMINI_MODEL (env sdk) = Some EmptyString ->
  candidates sdk = builtin_candidates.
Proof. unfold candidates. intros [->| ->]; reflexivity. Qed.

End ModelName.

Lemma probe_candidates_in_order_witness :
  (Returns (Some "gemini-1.5-pro") = Returns None
   /\ refused picky builtin_candidates start
        (probe_candidates picky builtin_candidates start).2
   /\ trace (probe_candidates picky builtin_candidates start).2
      = trace start ++ map probe_event builtin_candidates)
  \/ (exists pre c post s1 response w1,
        builtin_candidates = pre ++ c :: post
        /\ refused picky pre start s1
        /\ generateContent picky (mkModelParams c None None) "Ok" (world s1)
           = (Returns response, w1)
        /\ Returns (Some "gemini-1.5-pro") = Returns (Some c)
        /\ (probe_candidates picky builtin_candidates start).2
           = model_cached c (Date_now picky w1).1
               (after_call (probe_event c) (Date_now picky w1).2 s1)
        /\ trace (probe_candidates picky builtin_candidates start).2
           = trace start ++ map probe_event (pre ++ [c])
        /\ _cachedModelName (probe_candidates picky builtin_candidates start).2
           = Some c).
Proof.
  apply (probe_candidates_in_order picky builtin_candidates start).
  vm_compute. reflexivity.
Defined.

Lemma getModelName_serves_cache_witness :
  getModelName cooperative model_known
  = (Returns "gemini-pro", with_world 160000 model_known).
Proof.
  apply (getModelName_serves_cache cooperative model_known "gemini-pro"
           50000 100000 160000);
    (reflexivity || discriminate).
Defined.

Lemma getModelName_outcome_witness :
  message (mkError "Nenhum modelo Gemini compatível encontrado. Verifique sua API Key.")
  = "Nenhum modelo Gemini compatível encontrado. Verifique sua API Key.".
Proof.
  apply (proj2 (getModelName_outcome offline start) _
           (getModelName offline start).2).
  vm_compute. reflexivity.
Defined.

Lemma getModelName_override_witness :
  getModelName overridden start
  = (Returns "gemini-exp",
     model_cached "gemini-exp" 1000
       (after_call (probe_event "gemini-exp") 61000 start)).
Proof.
  apply (getModelName_override overridden start "gemini-exp"
           (mkGenResponse (Returns "Ok")) 1000);
    (reflexivity || discriminate).
Defined.

(** ** Suggested questions and the handlers *)

Section Routes.
  Context {W : Type} (sdk : SDK W).
  Variable stringify_simplified : list (string * list string) -> string.
  Implicit Types s : State W.

Lemma emits_getSchema : emits validated (getSchema sdk).
Proof.
  unfold getSchema, refresh_schema, getDatasetSchema, listTables.
  assert (forall names schemas,
            emits validated (collect_schemas sdk names schemas)) as Hc.
  { induction names as [|n names IH]; intros schemas; cbn [collect_schemas];
      unfold getTableSchema; emits_tac; exact I. }
  emits_tac; exact I.
Qed.

Lemma emits_generateSuggestions schema :
  emits validated (generateSuggestions sdk stringify_simplified schema).
Proof.
  assert (forall A (m : M W A), emits not_warehouse m -> emits validated m)
    as Hw by (intros A m; apply emits_weaken, not_warehouse_validated).
  unfold generateSuggestions, generateSuggestions_try, unwrap_suggestions.
  emits_tac; apply Hw; auto with emits.
  - apply emits_getModelName.
  - apply emits_generate.
  - apply emits_response_text.
Qed.

Lemma generateSuggestions_returns schema s :
  exists j s',
    generateSuggestions sdk stringify_simplified schema s = (Returns j, s').
Proof.
  unfold generateSuggestions. apply try_total.
  intros e s1. now eexists _, _.
Qed.

(** X18.  [generateSuggestions] never throws.  When the model cannot be
    reached, or its reply is not JSON, or the reply is [null], it returns its
    three stock questions; a reply that is a JSON array is returned as it
    is. *)
Theorem generateSuggestions_never_throws schema s :
  (exists j s',
     generateSuggestions sdk stringify_simplified schema s = (Returns j, s')
     /\ (forall e s1,
           generateSuggestions_try sdk stringify_simplified schema s
           = (Throws e, s1) ->
           s' = s1 /\ j = default_suggestions))
  /\ (forall name s1 response s2 reply,
        getModelName sdk s = (Returns name, s1) ->
        generate sdk (mkModelParams name None (Some "application/json"))
          (suggestions_prompt stringify_simplified schema) s1
        = (Returns response, s2) ->
        text response = Returns reply ->
        (forall e, JSON_parse sdk reply = Throws e ->
           generateSuggestions sdk stringify_simplified schema s
           = (Returns default_suggestions, s2))
        /\ (JSON_parse sdk reply = Returns JNull ->
            generateSuggestions sdk stringify_simplified schema s
            = (Returns default_suggestions, s2))
        /\ (forall items, JSON_parse sdk reply = Returns (JArray items) ->
              generateSuggestions sdk stringify_simplified schema s
              = (Returns (JArray items), s2))).
Proof.
  split.
  - unfold generateSuggestions, try_catch.
    destruct (generateSuggestions_try sdk stringify_simplified schema s)
      as [[e|j] s1].
    + eexists _, _. split; [reflexivity|].
      intros e' s1' H. inversion H; subst. now split.
    + exists j, s1. split; [reflexivity|]. intros e s1' H. discriminate H.
  - intros name s1 response s2 reply H1 H2 H3.
    assert (generateSuggestions_try sdk stringify_simplified schema s
            = match JSON_parse sdk reply with
              | Returns jsonResponse => unwrap_suggestions jsonResponse s2
              | Throws e => (Throws e, s2)
              end) as E.
    { unfold generateSuggestions_try.
      erewrite bind_returns by exact H1.
      erewrite bind_returns by exact H2.
      unfold response_text. rewrite H3.
      erewrite bind_returns by reflexivity.
      now destruct (JSON_parse sdk reply). }
    unfold generateSuggestions, try_catch. rewrite E.
    repeat split; intros; match goal with H : JSON_parse _ _ = _ |- _ =>
      rewrite H end; reflexivity.
Qed.

(** X19.  [GET /suggestions] always answers 200 with suggestions: those of
    the model, or the four stock questions of the route when the schema
    cannot be had. *)
Theorem get_suggestions_always_answers s :
  exists suggestions s',
    get_suggestions sdk stringify_simplified s
    = (Returns (mkResponse 200 (SuggestionsBody suggestions)), s')
    /\ (forall e s1,
          getSchema sdk s = (Throws e, s1) ->
          s' = s1 /\ suggestions = route_default_suggestions).
Proof.
  unfold get_suggestions, try_catch, bind at 1.
  destruct (getSchema sdk s) as [[e|schema] s1].
  - eexists _, _. split; [reflexivity|].
    intros e' s1' H. inversion H; subst. now split.
  - destruct (generateSuggestions_returns schema s1) as (j & s2 & Hj).
    unfold bind. rewrite Hj. eexists _, _. split; [reflexivity|].
    intros e s1' H. discriminate H.
Qed.

Lemma trim_empty_of_empty : JS.trim EmptyString = EmptyString.
Proof. reflexivity. Qed.

Lemma message_text_string t :
  message_text (Some (JString t))
  = if Nat.eqb (String.length (JS.trim t)) 0 then None else Some t.
Proof.
  unfold message_text. destruct t as [|c t]; [reflexivity|].
  cbn [JS.truthy andb]. now destruct (Nat.eqb _ 0).
Qed.

(** X20.  [POST /message] turns down, with status 400 and before anything
    else happens, a body whose [message] is missing or is not a string, a
    message that is empty or blank, and a message of more than 500 code
    units. *)
Theorem post_message_rejects s :
  (forall m, (forall t, m <> Some (JString t)) ->
     post_message sdk m s
     = (Returns (mkResponse 400 (ErrorBody "Mensagem inválida ou vazia" None)), s))
  /\ (forall t, JS.trim t = EmptyString ->
        post_message sdk (Some (JString t)) s
        = (Returns (mkResponse 400 (ErrorBody "Mensagem inválida ou vazia" None)),
           s))
  /\ (forall t, JS.trim t <> EmptyString ->
        (500 < String.length t)%nat ->
        post_message sdk (Some (JString t)) s
        = (Returns (mkResponse 400
                      (ErrorBody "Mensagem muito longa. Máximo 500 caracteres."
                         None)), s)).
Proof.
  split; [|split].
  - intros m Hm. unfold post_message, try_catch.
    assert (message_text m = None) as ->; [|reflexivity].
    destruct m as [[| | |t| |]|]; try reflexivity. now destruct (Hm t).
  - intros t Ht. unfold post_message, try_catch.
    rewrite message_text_string, Ht. reflexivity.
  - intros t Ht Hlen. unfold post_message, try_catch.
    rewrite message_text_string.
    destruct (JS.trim t) as [|c r] eqn:E; [congruence|]. cbn [String.length Nat.eqb].
    rewrite (proj2 (Nat.ltb_lt 500 (String.length t)) Hlen). reflexivity.
Qed.

(** X21.  For a message that passes these tests, [POST /message] answers
    200 with the outcome of [processMessage], whatever that outcome is, and
    answers 500 only when the schema cannot be had. *)
Theorem post_message_answers s t :
  JS.trim t <> EmptyString ->
  (String.length t <= 500)%nat ->
  (forall e s1,
     getSchema sdk s = (Throws e, s1) ->
     post_message sdk (Some (JString t)) s
     = (Returns (mkResponse 500
                   (ErrorBody "Erro ao processar sua mensagem. Tente novamente."
                      (Some (message e)))), s1))
  /\ (forall schema s1,
        getSchema sdk s = (Returns schema, s1) ->
        exists result s2,
          processMessage sdk t schema (callback (executeQuery sdk)) s1
          = (Returns result, s2)
          /\ post_message sdk (Some (JString t)) s
             = (Returns (mkResponse 200 (OutcomeBody result)), s2)).
Proof.
  intros Ht Hlen.
  assert ((match message_text (Some (JString t)) with
             | None => ret (mkResponse 400 (ErrorBody "Mensagem inválida ou vazia" None))
             | Some m =>
                 if Nat.ltb 500 (String.length m) then
                   ret (mkResponse 400
                          (ErrorBody "Mensagem muito longa. Máximo 500 caracteres." None))
                 else
                   schema <- getSchema sdk ;;
                   result <- processMessage sdk m schema
                               (callback (executeQuery sdk)) ;;
                   ret (mkResponse 200 (OutcomeBody result))
             end)
            = (schema <- getSchema sdk ;;
               result <- processMessage sdk t schema
                           (callback (executeQuery sdk)) ;;
               ret (mkResponse 200 (OutcomeBody result)))) as E.
  { rewrite message_text_string.
    destruct (JS.trim t) as [|c r] eqn:E; [congruence|].
    cbn [String.length Nat.eqb].
    now rewrite (proj2 (Nat.ltb_ge 500 (String.length t)) Hlen). }
  unfold post_message. rewrite E. split.
  - intros e s1 H. erewrite try_throws; [reflexivity|].
    now erewrite bind_throws by exact H.
  - intros schema s1 H.
    destruct (processMessage_returns sdk t schema (callback (executeQuery sdk))
                s1 (callback_rejects (executeQuery sdk)))
      as (result & s2 & Hp & _).
    exists result, s2. split; [exact Hp|].
    erewrite try_returns; [reflexivity|].
    erewrite bind_returns by exact H.
    now erewrite bind_returns by exact Hp.
Qed.

(** X22.  Whatever the body of the request, every query that
    [POST /message] sends to the warehouse is of a statement the validator
    accepts. *)
Theorem post_message_queries_validated m :
  emits validated (post_message sdk m).
Proof.
  unfold post_message.
  apply emits_try; [|intros; auto with emits].
  destruct (message_text m) as [t|]; [|auto with emits].
  destruct (Nat.ltb 500 (String.length t)); [auto with emits|].
  apply emits_bind; [apply emits_getSchema|]. intros schema.
  apply emits_bind; [|intros; auto with emits].
  apply emits_processMessageWith.
  - apply not_warehouse_validated.
  - intros q' schema'. eapply emits_weaken;
      [apply not_warehouse_validated | apply emits_generateSQLQuery].
  - intros sql. apply emits_callback, emits_executeQuery.
Qed.

End Routes.

Lemma generateSuggestions_never_throws_witness :
  generateSuggestions cooperative demo_stringify demo_schema start
  = (Returns default_suggestions,
     (generate cooperative
        (mkModelParams "gemini-2.5-flash-lite" None (Some "application/json"))
        (suggestions_prompt demo_stringify demo_schema)
        (getModelName cooperative start).2).2).
Proof.
  apply (proj1 (proj2 (generateSuggestions_never_throws cooperative
                         demo_stringify demo_schema start)
                  "gemini-2.5-flash-lite"
                  (getModelName cooperative start).2
                  (mkGenResponse (Returns "127 professores")) _
                  "127 professores" eq_refl eq_refl eq_refl)
           (mkError "Unexpected token in JSON")).
  reflexivity.
Defined.

Lemma get_suggestions_always_answers_witness :
  exists suggestions s',
    get_suggestions no_listing demo_stringify start
    = (Returns (mkResponse 200 (SuggestionsBody suggestions)), s')
    /\ suggestions = route_default_suggestions.
Proof.
  destruct (get_suggestions_always_answers no_listing demo_stringify start)
    as (suggestions & s' & Hrun & Hdefault).
  exists suggestions, s'. split; [exact Hrun|].
  apply (Hdefault (mkError "Não foi possível obter o schema do dataset")
           (after_call EvGetTables 61000 start)).
  reflexivity.
Defined.

Lemma post_message_rejects_witness :
  post_message cooperative (Some (JString "   ")) start
  = (Returns (mkResponse 400 (ErrorBody "Mensagem inválida ou vazia" None)),
     start).
Proof.
  apply (proj1 (proj2 (post_message_rejects cooperative start)) "   ").
  reflexivity.
Defined.

Lemma post_message_answers_witness :
  post_message no_listing (Some (JString question)) start
  = (Returns (mkResponse 500
                (ErrorBody "Erro ao processar sua mensagem. Tente novamente."
                   (Some "Não foi possível obter o schema do dataset"))),
     after_call EvGetTables 61000 start).
Proof.
  apply (proj1 (post_message_answers no_listing start question
                  ltac:(discriminate) ltac:(vm_compute; lia))
           (mkError "Não foi possível obter o schema do dataset")).
  reflexivity.
Defined.

(** ** The orchestrator, end to end *)

Section EndToEnd.
  Context {W : Type} (sdk : SDK W).
  Implicit Types s : State W.

(** X23.  [processMessage] of the current revision returns in one of three
    ways: the conversational reply, with no SQL and no data; the data
    outcome, whose [sql] is the text the generator returned and the executor
    was given, and whose [data] are the rows the executor returned; or the
    generic failure, whose [error] is the message read from what was thrown,
    the message of the error when a stage of the repository threw it. *)
Theorem processMessage_outcomes q schema (f : string -> MAny W (list Row)) s o s' :
  processMessage sdk q schema f s = (Returns o, s') ->
  (exists s1 response,
     requiresDatabaseQuery sdk q s = (Returns false, s1)
     /\ processGeneralQuestion sdk q s1 = (Returns response, s')
     /\ o = mkChatOutcome true response Null Null (Val general) Absent)
  \/ (exists s1 sql s2 rows s3 narrated,
        requiresDatabaseQuery sdk q s = (Returns true, s1)
        /\ generateSQLQuery sdk q schema s1 = (Returns sql, s2)
        /\ f sql s2 = (Fulfils rows, s3)
        /\ formatResponse sdk q rows s3 = (Returns narrated, s')
        /\ o = mkChatOutcome true narrated (Val sql) (Val rows)
                 (Val data_type) Absent)
  \/ (exists v detail,
        processMessage_try sdk (generateSQLQuery sdk) q schema f s
        = (Rejects v, s')
        /\ error_message v = Returns detail
        /\ o = mkChatOutcome false "Erro interno ao processar IA."
                 Absent Absent Absent detail
        /\ (forall e, v = thrown_error e -> detail = Val (message e))).
Proof.
  unfold processMessage, processMessageWith, catch_any.
  destruct (processMessage_try sdk (generateSQLQuery sdk) q schema f s)
    as [[v|o'] s1] eqn:E; intros H.
  - right. right. unfold failure_outcome in H.
    destruct (error_message v) as [e|detail] eqn:D; inversion H; subst.
    exists v, detail. repeat split; try reflexivity; try assumption.
    intros e ->. now inversion D.
  - inversion H; subst.
    apply processMessage_try_fulfils in E
      as [(s2 & response & H1 & H2 & ->)
         |[(s2 & sql & _ & G & S & ->)
          |(s2 & sql & s3 & rows & s4 & narrated & H1 & H2 & H3 & H4 & H5 & ->)]].
    + left. now exists s2, response.
    + apply generateSQLQuery_returns in G
        as (? & ? & ? & ? & _ & _ & _ & _ & _ & G). congruence.
    + right. left. now exists s2, sql, s3, rows, s4, narrated.
Qed.

Lemma processMessage_executor_fails q schema (f : string -> MAny W (list Row))
    s s1 sql s2 v s3 :
  requiresDatabaseQuery sdk q s = (Returns true, s1) ->
  generateSQLQuery sdk q schema s1 = (Returns sql, s2) ->
  f sql s2 = (Rejects v, s3) ->
  processMessage sdk q schema f s = failure_outcome v s3.
Proof.
  intros H1 H2 H3.
  pose proof H2 as G. apply generateSQLQuery_returns in G
    as (? & ? & ? & ? & _ & _ & _ & _ & _ & G).
  unfold processMessage, processMessageWith, processMessage_try.
  rewrite (catch_any_rejects _ _ s v s3); [reflexivity|].
  erewrite bind_any_fulfils by (apply own_returns; exact H1). cbn [negb].
  erewrite bind_any_fulfils by (apply own_returns; exact H2). rewrite G.
  now erewrite bind_any_rejects by exact H3.
Qed.

(** X24.  When the generator returns a statement the validator rejects, a
    request served through [executeQuery] ends in the generic failure with
    the executor's refusal as its error, in the very state in which the
    generator returned: nothing was sent to the warehouse. *)
Theorem processMessage_refuses_unsafe_sql q schema s s1 sql s2 :
  requiresDatabaseQuery sdk q s = (Returns true, s1) ->
  generateSQLQuery sdk q schema s1 = (Returns sql, s2) ->
  validateQuery sql = false ->
  processMessage sdk q schema (callback (executeQuery sdk)) s
  = (Returns
       (mkChatOutcome false "Erro interno ao processar IA." Absent Absent Absent
          (Val ("Erro ao consultar dados: " +:+
                (if bigquery s2 && credentialsConfigured s2
                 then "Query SQL não permitida. Apenas comandos SELECT são aceitos."
                 else "BigQuery não está configurado. Verifique se as credenciais foram definidas nas variáveis de ambiente.")))),
     s2).
Proof.
  intros H1 H2 V.
  now rewrite (processMessage_executor_fails _ _ _ _ _ _ _ _ _ H1 H2
                 (own_throws _ _ _ _ (executeQuery_rejects sdk sql s2 V))).
Qed.

(** X25.  When the warehouse answers the generated query with a
    missing-table error, the outcome of the request carries the executor's
    own wording of it, not the message of the warehouse. *)
Theorem processMessage_missing_table q schema s s1 sql s2 error w :
  requiresDatabaseQuery sdk q s = (Returns true, s1) ->
  generateSQLQuery sdk q schema s1 = (Returns sql, s2) ->
  validateQuery sql = true ->
  bigquery s2 = true -> credentialsConfigured s2 = true ->
  query sdk sql (env_or (BIGQUERY_LOCATION (env sdk)) "southamerica-east1")
    (world s2) = (Throws error, w) ->
  JS.includes "Not found: Table" (message error) = true ->
  processMessage sdk q schema (callback (executeQuery sdk)) s
  = (Returns
       (mkChatOutcome false "Erro interno ao processar IA." Absent Absent Absent
          (Val "Tabela não encontrada no BigQuery. Verifique o nome da tabela.")),
     after_call
       (EvQuery sql (env_or (BIGQUERY_LOCATION (env sdk)) "southamerica-east1"))
       w s2).
Proof.
  intros H1 H2 V B C Q N.
  assert (executeQuery sdk sql s2
          = (Throws (mkError "Tabela não encontrada no BigQuery. Verifique o nome da tabela."),
             after_call
               (EvQuery sql
                  (env_or (BIGQUERY_LOCATION (env sdk)) "southamerica-east1"))
               w s2)) as E.
  { rewrite (executeQuery_body sdk _ _ B C V), Q, N. reflexivity. }
  now rewrite (processMessage_executor_fails _ _ _ _ _ _ _ _ _ H1 H2
                 (own_throws _ _ _ _ E)).
Qed.

(** The ways in which the earlier revision of [processMessage] returns. *)
Lemma legacy_processMessage_cases q schema (f : string -> MAny W (list Row)) s :
  exists o s',
    Legacy.processMessage sdk q schema f s = (Returns o, s')
    /\ ((exists response,
           o = mkChatOutcome true response Null Null (Val general) Absent)
        \/ (exists sql,
              o = mkChatOutcome false sql Null Null (Val error_type) Absent)
        \/ (exists narrated sql rows,
              o = mkChatOutcome true narrated (Val sql) (Val rows)
                    (Val data_type) Absent)
        \/ (exists v,
              o = mkChatOutcome false "Erro ao processar sua pergunta com IA"
                    Absent Absent Absent
                    (Val (caught_message_or v "Erro desconhecido")))).
Proof.
  unfold Legacy.processMessage, catch_any.
  destruct (Legacy.processMessage_try sdk q schema f s) as [[v|o] s1] eqn:E.
  - eexists _, _. split; [reflexivity|]. right. right. right. now exists v.
  - exists o, s1. split; [reflexivity|]. unfold Legacy.processMessage_try in E.
    apply bind_any_inv_fulfils in E as (needs & s2 & E1 & E).
    destruct needs; cbn [negb] in E.
    + apply bind_any_inv_fulfils in E as (sql & s3 & E2 & E).
      destruct (JS.includes "ERRO:" sql).
      * inversion E; subst. right. left. now exists sql.
      * apply bind_any_inv_fulfils in E as (rows & s4 & E3 & E).
        apply bind_any_inv_fulfils in E as (narrated & s5 & E4 & E).
        inversion E; subst. right. right. left. now exists narrated, sql, rows.
    + apply bind_any_inv_fulfils in E as (response & s3 & E2 & E).
      inversion E; subst. left. now exists response.
Qed.

(** X26.  The earlier revision of [processMessage] never throws either,
    whatever its executor throws, and its outcomes keep the same invariant.
    It has no fallback of its own for the formatter: when the narration fails
    after the query has run, the rows are dropped and the outcome is the
    generic failure. *)
Theorem legacy_processMessage_never_throws q schema
    (f : string -> MAny W (list Row)) s :
  (exists o s',
     Legacy.processMessage sdk q schema f s = (Returns o, s')
     /\ (success o = false ->
         out_type o = Val error_type \/ is_value (out_error o) = true)
     /\ (out_type o = Val data_type ->
         is_value (out_sql o) = true /\ is_value (out_data o) = true))
  /\ (forall s1 sql s2 rows s3 e s4,
        Legacy.requiresDatabaseQuery sdk q s = (Returns true, s1) ->
        Legacy.generateSQLQuery sdk q schema s1 = (Returns sql, s2) ->
        JS.includes "ERRO:" sql = false ->
        f sql s2 = (Fulfils rows, s3) ->
        Legacy.formatResponse sdk q rows s3 = (Throws e, s4) ->
        Legacy.processMessage sdk q schema f s
        = (Returns (mkChatOutcome false "Erro ao processar sua pergunta com IA"
                      Absent Absent Absent (Val "Erro ao formatar resposta")),
           s4)).
Proof.
  split.
  - destruct (legacy_processMessage_cases q schema f s)
      as (o & s' & H & [(r & ->)|[(sql & ->)|[(n & sql & rows & ->)|(e & ->)]]]);
      eexists _, s'; (split; [exact H|]); cbn; split;
      try (intros; discriminate); try (intros _; now (left + right + split)).
  - intros s1 sql s2 rows s3 e s4 H1 H2 H3 H4 H5.
    assert (e = mkError "Erro ao formatar resposta") as ->.
    { revert H5. unfold Legacy.formatResponse, try_catch, throw.
      destruct (Legacy.formatResponse_try sdk q rows s3) as [[e0|t] s0];
        intros H; now inversion H. }
    unfold Legacy.processMessage, Legacy.processMessage_try.
    rewrite (catch_any_rejects _ _ s
               (thrown_error (mkError "Erro ao formatar resposta")) s4);
      [reflexivity|].
    erewrite bind_any_fulfils by (apply own_returns; exact H1). cbn [negb].
    erewrite bind_any_fulfils by (apply own_returns; exact H2). rewrite H3.
    erewrite bind_any_fulfils by exact H4.
    now erewrite bind_any_rejects by (apply own_throws; exact H5).
Qed.

(** X27.  Without an API key (unset or empty) the earlier revision of the
    generator fails at once, with its one generic message and before any
    call to the model. *)
Theorem legacy_generateSQLQuery_without_key q schema s :
  GEMINI_API_KEY (env sdk) = None \/ GEMINI_API_KEY (env sdk) = Some EmptyString ->
  Legacy.generateSQLQuery sdk q schema s
  = (Throws (mkError "Erro ao processar sua pergunta com IA"), s).
Proof.
  intros [H|H]; unfold Legacy.generateSQLQuery, try_catch; rewrite H;
    reflexivity.
Qed.

End EndToEnd.

Lemma processMessage_outcomes_witness :
  (exists s1 response,
     requiresDatabaseQuery cooperative question start = (Returns false, s1)
     /\ processGeneralQuestion cooperative question s1
        = (Returns response,
           (processMessage cooperative question demo_schema
              (callback (executeQuery cooperative)) start).2)
     /\ mkChatOutcome true "127 professores" (Val select_professores)
          (Val demo_rows) (Val data_type) Absent
        = mkChatOutcome true response Null Null (Val general) Absent)
  \/ (exists s1 sql s2 rows s3 narrated,
        requiresDatabaseQuery cooperative question start = (Returns true, s1)
        /\ generateSQLQuery cooperative question demo_schema s1
           = (Returns sql, s2)
        /\ callback (executeQuery cooperative) sql s2 = (Fulfils rows, s3)
        /\ formatResponse cooperative question rows s3
           = (Returns narrated,
              (processMessage cooperative question demo_schema
                 (callback (executeQuery cooperative)) start).2)
        /\ mkChatOutcome true "127 professores" (Val select_professores)
             (Val demo_rows) (Val data_type) Absent
           = mkChatOutcome true narrated (Val sql) (Val rows)
               (Val data_type) Absent)
  \/ (exists v detail,
        processMessage_try cooperative (generateSQLQuery cooperative) question
          demo_schema (callback (executeQuery cooperative)) start
        = (Rejects v,
           (processMessage cooperative question demo_schema
              (callback (executeQuery cooperative)) start).2)
        /\ error_message v = Returns detail
        /\ mkChatOutcome true "127 professores" (Val select_professores)
             (Val demo_rows) (Val data_type) Absent
           = mkChatOutcome false "Erro interno ao processar IA."
               Absent Absent Absent detail
        /\ (forall e, v = thrown_error e -> detail = Val (message e))).
Proof.
  apply (processMessage_outcomes cooperative question demo_schema
           (callback (executeQuery cooperative)) start).
  vm_compute. reflexivity.
Defined.

Lemma processMessage_refuses_unsafe_sql_witness :
  processMessage destructive question demo_schema
    (callback (executeQuery destructive)) start
  = (Returns
       (mkChatOutcome false "Erro interno ao processar IA." Absent Absent Absent
          (Val ("Erro ao consultar dados: " +:+
                (if bigquery (generated destructive)
                    && credentialsConfigured (generated destructive)
                 then "Query SQL não permitida. Apenas comandos SELECT são aceitos."
                 else "BigQuery não está configurado. Verifique se as credenciais foram definidas nas variáveis de ambiente.")))),
     generated destructive).
Proof.
  apply (processMessage_refuses_unsafe_sql destructive question demo_schema
           start (classified destructive) "DROP TABLE t");
    vm_compute; reflexivity.
Defined.

Lemma processMessage_missing_table_witness :
  processMessage missing_table question demo_schema
    (callback (executeQuery missing_table)) start
  = (Returns
       (mkChatOutcome false "Erro interno ao processar IA." Absent Absent Absent
          (Val "Tabela não encontrada no BigQuery. Verifique o nome da tabela.")),
     after_call (EvQuery select_professores "southamerica-east1")
       (world (generated missing_table)) (generated missing_table)).
Proof.
  apply (processMessage_missing_table missing_table question demo_schema
           start (classified missing_table) select_professores
           (generated missing_table)
           (mkError "Not found: Table dashboard-educacao-ep-pr:dados_formacao.professores was not found in location southamerica-east1"));
    vm_compute; reflexivity.
Defined.

Lemma legacy_processMessage_never_throws_witness :
  Legacy.processMessage tongue_tied question demo_schema
    (callback (executeQuery tongue_tied)) start
  = (Returns (mkChatOutcome false "Erro ao processar sua pergunta com IA"
                Absent Absent Absent (Val "Erro ao formatar resposta")),
     (Legacy.processMessage tongue_tied question demo_schema
        (callback (executeQuery tongue_tied)) start).2).
Proof.
  apply (proj2 (legacy_processMessage_never_throws tongue_tied question
                  demo_schema (callback (executeQuery tongue_tied)) start)
           (Legacy.requiresDatabaseQuery tongue_tied question start).2
           "SELECT 1"
           (Legacy.generateSQLQuery tongue_tied question demo_schema
              (Legacy.requiresDatabaseQuery tongue_tied question start).2).2
           demo_rows
           (executeQuery tongue_tied "SELECT 1"
              (Legacy.generateSQLQuery tongue_tied question demo_schema
                 (Legacy.requiresDatabaseQuery tongue_tied question start).2).2).2
           (mkError "Erro ao formatar resposta"));
    vm_compute; reflexivity.
Defined.

Lemma legacy_generateSQLQuery_without_key_witness :
  Legacy.generateSQLQuery keyless question demo_schema start
  = (Throws (mkError "Erro ao processar sua pergunta com IA"), start).
Proof.
  apply (legacy_generateSQLQuery_without_key keyless question demo_schema start).
  left. reflexivity.
Defined.

(** ** The generated text carries no fence *)

Lemma startsWith_fence s : JS.startsWith fence s = Nat.leb 3 (backticks s).
Proof.
  unfold fence.
  destruct s as [|c1 [|c2 [|c3 s]]]; unfold JS.startsWith; cbn [backticks];
    repeat match goal with
           | |- context [Ascii.eqb "`" ?c] => destruct (Ascii.eqb "`" c)
           end; reflexivity.
Qed.

Lemma skip_length k s : (String.length (JS.skip k s) <= String.length s)%nat.
Proof.
  revert s. induction k as [|k IH]; intros [|c s]; cbn; try lia.
  specialize (IH s). lia.
Qed.

Lemma skip_lf_length s : (String.length (JS.skip_lf s) <= String.length s)%nat.
Proof.
  destruct s as [|c s]; cbn; [lia|].
  destruct (Nat.eqb (nat_of_ascii c) 10); cbn; lia.
Qed.

Lemma remove_all_fuel_cons n c s :
  JS.remove_all_fuel (S n) fence (String c s)
  = if JS.startsWith fence (String c s)
    then JS.remove_all_fuel n fence (JS.skip 3 (String c s))
    else String c (JS.remove_all_fuel n fence s).
Proof. reflexivity. Qed.

Lemma remove_all_lf_fuel_cons n c s :
  JS.remove_all_lf_fuel (S n) fence (String c s)
  = if JS.startsWith fence (String c s)
    then JS.remove_all_lf_fuel n fence (JS.skip_lf (JS.skip 3 (String c s)))
    else String c (JS.remove_all_lf_fuel n fence s).
Proof. reflexivity. Qed.

(** What is left starts with fewer than three backticks, and with as many
    as before when these were fewer than three. *)
Lemma remove_all_backticks n :
  forall s, (String.length s <= n)%nat ->
    (backticks (JS.remove_all_fuel n fence s) < 3)%nat
    /\ ((backticks s < 3)%nat ->
        backticks (JS.remove_all_fuel n fence s) = backticks s).
Proof.
  induction n as [|n IH]; intros [|c s] Hlen; cbn [String.length] in Hlen;
    try (cbn; split; [lia | reflexivity]); try lia.
  rewrite remove_all_fuel_cons, startsWith_fence.
  destruct (Nat.leb_spec 3 (backticks (String c s))) as [Hge|Hlt].
  - assert (String.length (JS.skip 3 (String c s)) <= n)%nat as Hs.
    { change (JS.skip 3 (String c s)) with (JS.skip 2 s).
      pose proof (skip_length 2 s). lia. }
    split; [apply (IH _ Hs) | lia].
  - cbn [backticks] in *. destruct (Ascii.eqb "`" c).
    + destruct (IH s ltac:(lia)) as [_ Hsame].
      rewrite Hsame by lia. split; [lia | reflexivity].
    + split; [lia | reflexivity].
Qed.

Lemma remove_all_lf_backticks n :
  forall s, (String.length s <= n)%nat ->
    (backticks (JS.remove_all_lf_fuel n fence s) < 3)%nat
    /\ ((backticks s < 3)%nat ->
        backticks (JS.remove_all_lf_fuel n fence s) = backticks s).
Proof.
  induction n as [|n IH]; intros [|c s] Hlen; cbn [String.length] in Hlen;
    try (cbn; split; [lia | reflexivity]); try lia.
  rewrite remove_all_lf_fuel_cons, startsWith_fence.
  destruct (Nat.leb_spec 3 (backticks (String c s))) as [Hge|Hlt].
  - assert (String.length (JS.skip_lf (JS.skip 3 (String c s))) <= n)%nat as Hs.
    { change (JS.skip 3 (String c s)) with (JS.skip 2 s).
      pose proof (skip_length 2 s). pose proof (skip_lf_length (JS.skip 2 s)).
      lia. }
    split; [apply (IH _ Hs) | lia].
  - cbn [backticks] in *. destruct (Ascii.eqb "`" c).
    + destruct (IH s ltac:(lia)) as [_ Hsame].
      rewrite Hsame by lia. split; [lia | reflexivity].
    + split; [lia | reflexivity].
Qed.

Lemma remove_all_no_fence n :
  forall s, (String.length s <= n)%nat ->
    JS.includes fence (JS.remove_all_fuel n fence s) = false.
Proof.
  induction n as [|n IH]; intros [|c s] Hlen; cbn [String.length] in Hlen;
    try reflexivity; try lia.
  pose proof (proj1 (remove_all_backticks (S n) (String c s) Hlen)) as Hb.
  revert Hb. rewrite remove_all_fuel_cons.
  destruct (JS.startsWith fence (String c s)).
  - intros _. apply IH. change (JS.skip 3 (String c s)) with (JS.skip 2 s).
    pose proof (skip_length 2 s). lia.
  - intros Hb. rewrite includes_unfold, startsWith_fence.
    rewrite (IH s ltac:(lia)).
    destruct (Nat.leb_spec 3 (backticks (String c (JS.remove_all_fuel n fence s))));
      [lia | reflexivity].
Qed.

Lemma remove_all_lf_no_fence n :
  forall s, (String.length s <= n)%nat ->
    JS.includes fence (JS.remove_all_lf_fuel n fence s) = false.
Proof.
  induction n as [|n IH]; intros [|c s] Hlen; cbn [String.length] in Hlen;
    try reflexivity; try lia.
  pose proof (proj1 (remove_all_lf_backticks (S n) (String c s) Hlen)) as Hb.
  revert Hb. rewrite remove_all_lf_fuel_cons.
  destruct (JS.startsWith fence (String c s)).
  - intros _. apply IH. change (JS.skip 3 (String c s)) with (JS.skip 2 s).
    pose proof (skip_length 2 s). pose proof (skip_lf_length (JS.skip 2 s)). lia.
  - intros Hb. rewrite includes_unfold, startsWith_fence.
    rewrite (IH s ltac:(lia)).
    destruct (Nat.leb_spec 3
                (backticks (String c (JS.remove_all_lf_fuel n fence s))));
      [lia | reflexivity].
Qed.

Lemma append_assoc_s a b c : (a +:+ b) +:+ c = a +:+ (b +:+ c).
Proof.
  induction a as [|x a IH]; [reflexivity|].
  rewrite !append_cons. now rewrite IH.
Qed.

Lemma trimStart_suffix s : exists ws, s = ws +:+ JS.trimStart s.
Proof.
  induction s as [|c s [ws IH]]; [now exists EmptyString|].
  cbn [JS.trimStart]. destruct (JS.is_space c).
  - exists (String c ws). rewrite append_cons. now rewrite <- IH.
  - now exists EmptyString.
Qed.

Lemma trimEnd_prefix s : exists ws, s = JS.trimEnd s +:+ ws.
Proof.
  induction s as [|c s [ws IH]]; [now exists EmptyString|].
  cbn [JS.trimEnd]. destruct (JS.trimEnd s) as [|d r] eqn:E.
  - destruct (JS.is_space c).
    + exists (String c s). reflexivity.
    + exists ws. rewrite append_cons. now rewrite <- IH.
  - exists ws. rewrite append_cons. now rewrite <- IH.
Qed.

(** What [trim] returns occurs in what it was given. *)
Lemma includes_trim p s :
  JS.includes p s = false -> JS.includes p (JS.trim s) = false.
Proof.
  intros H. destruct (JS.includes p (JS.trim s)) eqn:E; [|reflexivity].
  apply includes_spec in E as (pre & post & E).
  destruct (trimStart_suffix s) as [a Ha].
  destruct (trimEnd_prefix (JS.trimStart s)) as [b Hb].
  unfold JS.trim in E. rewrite E in Hb. rewrite Hb in Ha.
  assert (JS.includes p s = true) as Hyes; [|congruence].
  apply includes_spec. exists (a +:+ pre), (post +:+ b).
  rewrite Ha. now rewrite !append_assoc_s.
Qed.

Section Fences.
  Context {W : Type} (sdk : SDK W).

(** X28.  The text the generator returns never contains a markdown fence
    (three backticks in a row), whatever the model replied, in either
    revision. *)
Theorem generated_sql_has_no_fence q schema (s : State W) sql s' :
  (generateSQLQuery sdk q schema s = (Returns sql, s') ->
   JS.includes "```" sql = false)
  /\ (Legacy.generateSQLQuery sdk q schema s = (Returns sql, s') ->
      JS.includes "```" sql = false).
Proof.
  split; intros H.
  - apply generateSQLQuery_returns in H
      as (name & s1 & response & reply & _ & _ & _ & -> & _).
    unfold strip_fences. apply includes_trim.
    apply (remove_all_no_fence _ _ (Nat.le_refl _)).
  - apply legacy_generateSQLQuery_returns in H
      as (response & reply & _ & _ & ->).
    unfold Legacy.strip_fences. apply includes_trim.
    apply (remove_all_lf_no_fence _ _ (Nat.le_refl _)).
Qed.

End Fences.

Lemma generated_sql_has_no_fence_witness :
  JS.includes "```" "SELECT 1" = false.
Proof.
  apply (proj1 (generated_sql_has_no_fence fenced question demo_schema
                  (classified fenced) "SELECT 1" (generated fenced))).
  vm_compute. reflexivity.
Defined.

(** ** The classifier's reading of the reply, and the earlier suggestions *)

Section Replies.
  Context {W : Type} (sdk : SDK W).
  Implicit Types s : State W.

(** X29.  The classifier of the current revision says yes only to a reply
    that is a JSON object whose [requires_db] is the boolean [true]: a
    missing member, or a string, a number or any other value in its place,
    is a no.  The reply [null] is a fault, answered by the length
    heuristic. *)
Theorem requiresDatabaseQuery_strict q s name s1 response s2 reply json :
  getModelName sdk s = (Returns name, s1) ->
  generate sdk (mkModelParams name None (Some "application/json"))
    (classifier_prompt q) s1 = (Returns response, s2) ->
  text response = Returns reply ->
  JSON_parse sdk reply = Returns json ->
  (json <> JNull ->
   exists b,
     requiresDatabaseQuery sdk q s = (Returns b, s2)
     /\ (b = true <->
         exists members,
           json = JObject members
           /\ get_member "requires_db" members = Some (JBool true)))
  /\ (json = JNull ->
      requiresDatabaseQuery sdk q s = (Returns (length_heuristic q), s2)).
Proof.
  intros H1 H2 H3 H4.
  assert (classify sdk q s = requires_db_is_true json s2) as E.
  { unfold classify.
    erewrite bind_returns by exact H1.
    erewrite bind_returns by exact H2.
    unfold response_text. rewrite H3.
    erewrite bind_returns by reflexivity. now rewrite H4. }
  unfold requiresDatabaseQuery, try_catch. rewrite E. split.
  - intros Hnull. destruct json as [|b|n|t|items|members];
      try congruence;
      try (exists false; split; [reflexivity|];
           split; [discriminate | intros (m & Hm & _); discriminate Hm]).
    cbn [requires_db_is_true].
    destruct (get_member "requires_db" members) as [[|[]|?|?|?|?]|] eqn:G;
      eexists; (split; [reflexivity|]);
      (split; [try discriminate; intros _; now exists members
              |try reflexivity;
               intros (m & Hm & Hg); inversion Hm; subst; congruence]).
  - intros ->. reflexivity.
Qed.

(** X30.  The earlier revision of [generateSuggestions] returns an array
    whenever it returns: the array the model replied, or the reply itself as
    the only suggestion when it is not JSON or not an array.  An error of the
    model call is thrown on as it is. *)
Theorem legacy_generateSuggestions_outcome
    (stringify_names : option string -> gmap string (list string) -> string)
    schema s :
  (forall j s',
     LegacySuggestions.generateSuggestions sdk stringify_names schema s
     = (Returns j, s') ->
     exists items, j = JArray items)
  /\ (forall e s',
        generate sdk Legacy.gemini_pro
          (LegacySuggestions.suggestions_prompt stringify_names schema) s
        = (Throws e, s') ->
        LegacySuggestions.generateSuggestions sdk stringify_names schema s
        = (Throws e, s'))
  /\ (forall response s' reply e,
        generate sdk Legacy.gemini_pro
          (LegacySuggestions.suggestions_prompt stringify_names schema) s
        = (Returns response, s') ->
        text response = Returns reply ->
        JSON_parse sdk (LegacySuggestions.strip_json_fences reply) = Throws e ->
        LegacySuggestions.generateSuggestions sdk stringify_names schema s
        = (Returns (JArray [JString (LegacySuggestions.strip_json_fences reply)]),
           s')).
Proof.
  split; [|split].
  - intros j s' H. unfold LegacySuggestions.generateSuggestions in H.
    apply (try_inv_returns _ (fun e => e)) in H.
    apply bind_inv_returns in H as (response & s1 & _ & H).
    apply bind_inv_returns in H as (reply & s2 & _ & H).
    inversion H; subst. unfold LegacySuggestions.parse_suggestions.
    destruct (JSON_parse sdk (LegacySuggestions.strip_json_fences reply))
      as [e|[| | | |items|]]; now eexists.
  - intros e s' H. unfold LegacySuggestions.generateSuggestions.
    rewrite (try_throws _ _ s e s'); [reflexivity|].
    now erewrite bind_throws by exact H.
  - intros response s' reply e H1 H2 H3.
    unfold LegacySuggestions.generateSuggestions.
    erewrite try_returns; [reflexivity|].
    erewrite bind_returns by exact H1.
    unfold response_text. rewrite H2.
    erewrite bind_returns by reflexivity.
    unfold LegacySuggestions.parse_suggestions. now rewrite H3.
Qed.

End Replies.

Lemma requiresDatabaseQuery_strict_witness :
  (JObject [("requires_db", JBool true)] <> JNull ->
   exists b,
     requiresDatabaseQuery cooperative question start
     = (Returns b,
        (generate cooperative
           (mkModelParams "gemini-2.5-flash-lite" None (Some "application/json"))
           (classifier_prompt question)
           (getModelName cooperative start).2).2)
     /\ (b = true <->
         exists members,
           JObject [("requires_db", JBool true)] = JObject members
           /\ get_member "requires_db" members = Some (JBool true)))
  /\ (JObject [("requires_db", JBool true)] = JNull ->
      requiresDatabaseQuery cooperative question start
      = (Returns (length_heuristic question),
         (generate cooperative
            (mkModelParams "gemini-2.5-flash-lite" None (Some "application/json"))
            (classifier_prompt question)
            (getModelName cooperative start).2).2)).
Proof.
  apply (requiresDatabaseQuery_strict cooperative question start
           "gemini-2.5-flash-lite" (getModelName cooperative start).2
           (mkGenResponse (Returns yes)) _ yes);
    vm_compute; reflexivity.
Defined.

Lemma legacy_generateSuggestions_outcome_witness :
  LegacySuggestions.generateSuggestions offline (fun _ _ => "{names}")
    demo_schema start
  = (Throws (mkError "503 Service Unavailable"),
     (generate offline Legacy.gemini_pro
        (LegacySuggestions.suggestions_prompt (fun _ _ => "{names}") demo_schema)
        start).2).
Proof.
  apply (proj1 (proj2 (legacy_generateSuggestions_outcome offline
                         (fun _ _ => "{names}") demo_schema start))).
  vm_compute. reflexivity.
Defined.
